(** * Tiki context-measurement scripts

    A shallow embedding of [.tiki/scripts/measure-context.py] and
    [.tiki/scripts/compare-context.py], and the properties of their
    measurement and comparison logic.

    Layout:
    - [Py]: the fragment of the Python runtime the scripts rely on
      (exceptions, [try]/[except], insertion-ordered dictionaries, string
      helpers, integer and binary64 arithmetic);
    - [Json]: the [json] module's [dumps] with [indent=2] and [loads];
    - [world]: everything the scripts read from their environment (files,
      directories, the tokenizer, the clock, the command line);
    - [MeasureContext] and [CompareContext]: the two scripts, function by
      function, under the names they have in the source, and [Store], the
      baseline file between them;
    - [MeasureReport]: [main] of measure-context.py with what it prints, and
      [BaselineFile]: the baseline file as [main] of compare-context.py
      reads it;
    - the theorems. *)

From Stdlib Require Import ZArith NArith List String Ascii Bool Lia Floats.
From Stdlib Require DecimalFacts DecimalPos DecimalZ Finite.
Import ListNotations.

Open Scope string_scope.
Open Scope Z_scope.

(** ** The Python runtime fragment *)

Module Py.

(** Exceptions the scripts can meet.  [OtherError] stands for any exception
    class not named here (the bare [except:] of [count_tokens] catches it
    like every other one). *)
Inductive exn : Type :=
| FileNotFoundError
| PermissionError
| IsADirectoryError
| NotADirectoryError
| UnicodeDecodeError
| ValueError
| KeyError (key : string)
| ZeroDivisionError
| JSONDecodeError
| OtherError.

(** A computation either returns a value or raises. *)
Inductive result (A : Type) : Type :=
| Ok (a : A)
| Raise (e : exn).
Arguments Ok {A} a.
Arguments Raise {A} e.

Definition bind {A B} (m : result A) (k : A -> result B) : result B :=
  match m with
  | Ok a => k a
  | Raise e => Raise e
  end.

(** [try: body / except: handler] with a bare [except]: every exception is
    caught. *)
Definition try_except {A} (body handler : result A) : result A :=
  match body with
  | Ok a => Ok a
  | Raise _ => handler
  end.

(** [for x in xs: acc = step acc x], stopping at the first exception. *)
Fixpoint for_each {A S} (xs : list A) (step : S -> A -> result S) (acc : S)
  : result S :=
  match xs with
  | [] => Ok acc
  | x :: xs' => bind (step acc x) (for_each xs' step)
  end.

(** [len] of a list. *)
Definition len {A} (l : list A) : Z := Z.of_nat (List.length l).

(** [sum(...)]: a left fold from the integer 0. *)
Definition sum (l : list Z) : Z := fold_left Z.add l 0.

(** *** Insertion-ordered dictionaries with string keys *)

Definition dict (V : Type) : Type := list (string * V).

Fixpoint dict_get {V} (d : dict V) (k : string) : option V :=
  match d with
  | [] => None
  | (k', v) :: d' => if String.eqb k' k then Some v else dict_get d' k
  end.

(** [d[k] = v]: an existing key keeps its position, a new one goes last. *)
Fixpoint dict_set {V} (d : dict V) (k : string) (v : V) : dict V :=
  match d with
  | [] => [(k, v)]
  | (k', v') :: d' =>
      if String.eqb k' k then (k, v) :: d' else (k', v') :: dict_set d' k v
  end.

Definition values {V} (d : dict V) : list V := map snd d.

(** [d[k]], raising [KeyError] on a missing key. *)
Definition getitem {V} (d : dict V) (k : string) : result V :=
  match dict_get d k with
  | Some v => Ok v
  | None => Raise (KeyError k)
  end.

(** [d.get(k, default)]. *)
Definition get {V} (d : dict V) (k : string) (default : V) : V :=
  match dict_get d k with
  | Some v => v
  | None => default
  end.

(** *** Strings *)

(** [s.split(sep)] for a one-character separator. *)
Fixpoint split (sep : ascii) (s : string) : list string :=
  match s with
  | EmptyString => [EmptyString]
  | String c rest =>
      if Ascii.eqb c sep then EmptyString :: split sep rest
      else match split sep rest with
           | seg :: segs => String c seg :: segs
           | [] => [String c EmptyString]
           end
  end.

(** Number of occurrences of a character. *)
Fixpoint count_char (c : ascii) (s : string) : nat :=
  match s with
  | EmptyString => 0%nat
  | String c' rest =>
      ((if Ascii.eqb c' c then 1 else 0) + count_char c rest)%nat
  end.

Definition startswith (s pre : string) : bool := String.prefix pre s.

Definition endswith (s suffix : string) : bool :=
  let n := String.length s in
  let m := String.length suffix in
  (m <=? n)%nat && String.eqb (substring (n - m) m s) suffix.

(** [sub in s]. *)
Fixpoint contains (sub s : string) : bool :=
  String.prefix sub s ||
  match s with
  | EmptyString => false
  | String _ rest => contains sub rest
  end.

(** [s[:n]]. *)
Definition take (n : nat) (s : string) : string := substring 0 n s.

(** [posixpath.join(a, b)]. *)
Definition path_join (a b : string) : string :=
  if startswith b "/" then b
  else if String.eqb a "" || endswith a "/" then a ++ b
  else a ++ "/" ++ b.

(** *** Numbers

    Python's [float] is IEEE binary64, Rocq's primitive [float].  An [int]
    operand is converted exactly as long as its magnitude stays below 2^53,
    which token counts do. *)

Definition float_of_int (z : Z) : float :=
  match z with
  | Z0 => PrimFloat.of_uint63 (Uint63.of_Z 0)
  | Zpos _ => PrimFloat.of_uint63 (Uint63.of_Z z)
  | Zneg _ => PrimFloat.opp (PrimFloat.of_uint63 (Uint63.of_Z (- z)))
  end.

(** The quotient of [a / b] on two ints, for a nonzero [b]. *)
Definition fdiv_int (a b : Z) : float :=
  PrimFloat.div (float_of_int a) (float_of_int b).

(** [a / b] on two ints: true division. *)
Definition truediv (a b : Z) : result float :=
  if b =? 0 then Raise ZeroDivisionError else Ok (fdiv_int a b).

(** [x * n] for a float and an int. *)
Definition fmul_int (x : float) (n : Z) : float :=
  PrimFloat.mul x (float_of_int n).

(** A value that is an [int] on one path and a [float] on another. *)
Inductive num : Type :=
| Int (z : Z)
| Float (f : float).

(** The integer nearest to [n / d] for a positive [d], ties to even. *)
Definition round_half_even (n d : Z) : Z :=
  let q := n / d in
  let r := n mod d in
  if 2 * r <? d then q
  else if d <? 2 * r then q + 1
  else if Z.even q then q else q + 1.

(** The number of tenths that [format(x, '.1f')] shows: the exact binary
    value of [x], rounded to one decimal. *)
Definition fixed1 (x : float) : option Z :=
  match Prim2SF x with
  | S754_zero _ => Some 0
  | S754_finite s m e =>
      let n := 10 * Zpos m in
      let t := if 0 <=? e then n * 2 ^ e else round_half_even n (2 ^ (- e)) in
      Some (if s then - t else t)
  | _ => None
  end.

(** *** Printing

    A computation that prints: the lines written so far come with the
    outcome, so that what was printed before an exception is kept.

    [print] writes to a stream that takes the text.  The
    [UnicodeEncodeError] of a stream whose encoding lacks a character of a
    line (the marks of the comparison on cp1252, a file name with an
    unpaired surrogate on UTF-8) is outside the model: on such a stream a
    run stops at that line, and what it has written is the lines before
    it. *)

Definition io (O A : Type) : Type := (list O * result A)%type.

Definition ret {O A} (a : A) : io O A := ([], Ok a).

Definition lift {O A} (r : result A) : io O A := ([], r).

Definition print {O} (l : O) : io O unit := ([l], Ok tt).

Definition iobind {O A B} (m : io O A) (k : A -> io O B) : io O B :=
  match snd m with
  | Ok a => let r := k a in ((fst m ++ fst r)%list, snd r)
  | Raise e => (fst m, Raise e)
  end.

Fixpoint for_io {O A S} (xs : list A) (step : S -> A -> io O S) (acc : S)
  : io O S :=
  match xs with
  | [] => ret acc
  | x :: xs' => iobind (step acc x) (for_io xs' step)
  end.

End Py.

Import Py.

Notation "x <- m ;; k" := (bind m (fun x => k))
  (at level 61, m at next level, right associativity).
Notation "' p <- m ;; k" := (bind m (fun x => match x with p => k end))
  (at level 61, p pattern, m at next level, right associativity).

Notation "x <-- m ;; k" := (iobind m (fun x => k))
  (at level 61, m at next level, right associativity).
Notation "m >> k" := (iobind m (fun _ => k))
  (at level 61, right associativity).

(** ** The [json] module

    [json.dumps(obj, indent=2)] and [json.loads], after the library's
    [json/encoder.py], [json/decoder.py] and [json/scanner.py], with every
    option at its default ([ensure_ascii], [allow_nan], strict strings, no
    hooks).  A document and every string in it is a [str], here the list of
    its code points.  [float.__repr__] and [float] stay parameters. *)

Module Json.

Local Open Scope N_scope.
Local Open Scope list_scope.

(** A Python [str]: its code points. *)
Definition pystr : Type := list N.

(** [ord(c)] for a character below 256. *)
Definition ord (a : ascii) : N := N_of_ascii a.

(** A string of the scripts as a [str], character by character. *)
Definition text (s : string) : pystr := map N_of_ascii (list_ascii_of_string s).

#[local] Set Warnings "-register-all".

Inductive value : Type :=
| JNull
| JBool (b : bool)
| JInt (z : Z)
| JFloat (f : float)
| JStr (s : pystr)
| JArr (items : list value)
| JObj (pairs : list (pystr * value)).

(** *** The encoder: [json.dumps(obj, indent=2)] *)

(** One digit of ['{0:04x}'.format(n)]. *)
Definition hex_digit (d : N) : N := if d <? 10 then 48 + d else 87 + d.

Definition hex4 (n : N) : pystr :=
  [hex_digit (n / 4096 mod 16); hex_digit (n / 256 mod 16);
   hex_digit (n / 16 mod 16); hex_digit (n mod 16)].

Definition u_escape (n : N) : pystr := ord "\" :: ord "u" :: hex4 n.

(** The replacement of one character by [py_encode_basestring_ascii]:
    [ESCAPE_ASCII] matches a backslash, a double quote and everything outside
    [' '..'~']. *)
Definition escape_char (c : N) : pystr :=
  if c =? ord "\" then [ord "\"; ord "\"]
  else if c =? ord "034" then [ord "\"; ord "034"]
  else if (32 <=? c) && (c <=? 126) then [c]
  else if c =? 8 then [ord "\"; ord "b"]
  else if c =? 12 then [ord "\"; ord "f"]
  else if c =? 10 then [ord "\"; ord "n"]
  else if c =? 13 then [ord "\"; ord "r"]
  else if c =? 9 then [ord "\"; ord "t"]
  else if c <? 65536 then u_escape c
  else
    let n := c - 65536 in
    (u_escape (N.lor 55296 (N.land (N.shiftr n 10) 1023)) ++
     u_escape (N.lor 56320 (N.land n 1023)))%list.

Definition encode_basestring_ascii (s : pystr) : pystr :=
  (ord "034" :: flat_map escape_char s ++ [ord "034"])%list.

Fixpoint digits_of (d : Decimal.uint) : pystr :=
  match d with
  | Decimal.Nil => []
  | Decimal.D0 d => 48 :: digits_of d
  | Decimal.D1 d => 49 :: digits_of d
  | Decimal.D2 d => 50 :: digits_of d
  | Decimal.D3 d => 51 :: digits_of d
  | Decimal.D4 d => 52 :: digits_of d
  | Decimal.D5 d => 53 :: digits_of d
  | Decimal.D6 d => 54 :: digits_of d
  | Decimal.D7 d => 55 :: digits_of d
  | Decimal.D8 d => 56 :: digits_of d
  | Decimal.D9 d => 57 :: digits_of d
  end.

(** [int.__repr__]. *)
Definition int_repr (z : Z) : pystr :=
  match Z.to_int z with
  | Decimal.Pos d => digits_of d
  | Decimal.Neg d => ord "-" :: digits_of d
  end.

Section Floats.

(** [float.__repr__] and [float(...)] on a number literal. *)
Variable float_repr : float -> pystr.
Variable float_of_string : pystr -> float.

(** [floatstr] of the encoder, with [allow_nan] at its default. *)
Definition floatstr (f : float) : pystr :=
  if PrimFloat.is_nan f then text "NaN"
  else if PrimFloat.eqb f PrimFloat.infinity then text "Infinity"
  else if PrimFloat.eqb f PrimFloat.neg_infinity then text "-Infinity"
  else float_repr f.

(** ['\n' + ' ' * (2 * level)]. *)
Definition newline_indent (level : nat) : pystr :=
  10 :: repeat 32 (2 * level).

Fixpoint encode (level : nat) (v : value) {struct v} : pystr :=
  match v with
  | JNull => text "null"
  | JBool true => text "true"
  | JBool false => text "false"
  | JInt z => int_repr z
  | JFloat f => floatstr f
  | JStr s => encode_basestring_ascii s
  | JArr [] => text "[]"
  | JArr (x :: xs) =>
      (ord "[" :: newline_indent (S level) ++ encode (S level) x ++
       (fix rest (l : list value) : pystr :=
          match l with
          | [] => []
          | y :: l' =>
              ord "," :: newline_indent (S level) ++ encode (S level) y ++
              rest l'
          end) xs ++
       newline_indent level ++ [ord "]"])%list
  | JObj [] => text "{}"
  | JObj ((k, x) :: ps) =>
      (ord "{" :: newline_indent (S level) ++
       encode_basestring_ascii k ++ ord ":" :: ord " " :: encode (S level) x ++
       (fix rest (l : list (pystr * value)) : pystr :=
          match l with
          | [] => []
          | (k', y) :: l' =>
              ord "," :: newline_indent (S level) ++
              encode_basestring_ascii k' ++
              ord ":" :: ord " " :: encode (S level) y ++ rest l'
          end) ps ++
       newline_indent level ++ [ord "}"])%list
  end.

Definition dumps (v : value) : pystr := encode 0 v.

(** *** The decoder: [json.loads] *)

Definition is_ws (c : N) : bool :=
  (c =? 32) || (c =? 9) || (c =? 10) || (c =? 13).

Fixpoint skip_ws (s : pystr) : pystr :=
  match s with
  | c :: t => if is_ws c then skip_ws t else s
  | [] => []
  end.

Definition is_digit (c : N) : bool := (48 <=? c) && (c <=? 57).

Fixpoint span_digits (s : pystr) : pystr * pystr :=
  match s with
  | c :: t =>
      if is_digit c then let '(ds, r) := span_digits t in (c :: ds, r)
      else ([], s)
  | [] => ([], [])
  end.

(** [NUMBER_RE], group by group: the integer group is an optional minus
    sign followed by [0] or by a nonzero digit and any digits; the fraction
    group, optional, is a dot and one digit or more; the exponent group,
    optional, is [e] or [E], an optional sign and one digit or more. *)
Definition match_integer (s : pystr) : option (pystr * pystr) :=
  let '(sign, s0) :=
    match s with
    | c :: t => if c =? ord "-" then ([c], t) else ([], s)
    | [] => ([], s)
    end in
  match s0 with
  | c :: t =>
      if c =? 48 then Some ((sign ++ [c])%list, t)
      else if is_digit c then
        let '(ds, r) := span_digits t in Some ((sign ++ c :: ds)%list, r)
      else None
  | [] => None
  end.

Definition match_frac (s : pystr) : pystr * pystr :=
  match s with
  | c :: t =>
      if c =? ord "." then
        match span_digits t with
        | ([], _) => ([], s)
        | (ds, r) => (c :: ds, r)
        end
      else ([], s)
  | [] => ([], s)
  end.

Definition match_exp (s : pystr) : pystr * pystr :=
  match s with
  | c :: t =>
      if (c =? ord "e") || (c =? ord "E") then
        let '(sign, t') :=
          match t with
          | c' :: u =>
              if (c' =? ord "-") || (c' =? ord "+") then ([c'], u)
              else ([], t)
          | [] => ([], t)
          end in
        match span_digits t' with
        | ([], _) => ([], s)
        | (ds, r) => ((c :: sign ++ ds)%list, r)
        end
      else ([], s)
  | [] => ([], s)
  end.

Definition match_number (s : pystr)
  : option (pystr * pystr * pystr * pystr) :=
  match match_integer s with
  | None => None
  | Some (integer, r) =>
      let '(frac, r) := match_frac r in
      let '(exp, r) := match_exp r in
      Some (integer, frac, exp, r)
  end.

Definition digit_of (c : N) (d : Decimal.uint) : Decimal.uint :=
  if c =? 48 then Decimal.D0 d
  else if c =? 49 then Decimal.D1 d
  else if c =? 50 then Decimal.D2 d
  else if c =? 51 then Decimal.D3 d
  else if c =? 52 then Decimal.D4 d
  else if c =? 53 then Decimal.D5 d
  else if c =? 54 then Decimal.D6 d
  else if c =? 55 then Decimal.D7 d
  else if c =? 56 then Decimal.D8 d
  else Decimal.D9 d.

Fixpoint uint_of (s : pystr) : Decimal.uint :=
  match s with
  | [] => Decimal.Nil
  | c :: t => digit_of c (uint_of t)
  end.

(** [int(s)] on the integer group of a number, for a literal within the
    digit limit of [int] (4300 digits unless configured otherwise; beyond
    it [int] raises [ValueError], which is outside the model). *)
Definition int_of (s : pystr) : Z :=
  match s with
  | c :: t =>
      if c =? ord "-" then Z.of_int (Decimal.Neg (uint_of t))
      else Z.of_int (Decimal.Pos (uint_of s))
  | [] => 0%Z
  end.

Definition hex_value (c : N) : option N :=
  if is_digit c then Some (c - 48)
  else if (97 <=? c) && (c <=? 102) then Some (c - 87)
  else if (65 <=? c) && (c <=? 70) then Some (c - 55)
  else None.

(** [_decode_uXXXX] on the four characters after [\u]. *)
Definition decode_uXXXX (a b c d : N) : option N :=
  match hex_value a, hex_value b, hex_value c, hex_value d with
  | Some x3, Some x2, Some x1, Some x0 =>
      Some (4096 * x3 + 256 * x2 + 16 * x1 + x0)
  | _, _, _, _ => None
  end.

(** The [BACKSLASH] table. *)
Definition backslash (esc : N) : option N :=
  if esc =? ord "034" then Some (ord "034")
  else if esc =? ord "\" then Some (ord "\")
  else if esc =? ord "/" then Some (ord "/")
  else if esc =? ord "b" then Some 8
  else if esc =? ord "f" then Some 12
  else if esc =? ord "n" then Some 10
  else if esc =? ord "r" then Some 13
  else if esc =? ord "t" then Some 9
  else None.

Definition push (c : N) (r : result (pystr * pystr)) : result (pystr * pystr) :=
  match r with
  | Ok (s, rest) => Ok (c :: s, rest)
  | Raise e => Raise e
  end.

(** [py_scanstring] in strict mode, from just after the opening quote: the
    decoded string and the text after the closing quote. *)
Fixpoint scanstring (s : pystr) : result (pystr * pystr) :=
  match s with
  | [] => Raise JSONDecodeError
  | c :: t =>
      if c =? ord "034" then Ok ([], t)
      else if c =? ord "\" then
        match t with
        | [] => Raise JSONDecodeError
        | esc :: t1 =>
            if esc =? ord "u" then
              match t1 with
              | a :: b :: c' :: d :: t2 =>
                  match decode_uXXXX a b c' d with
                  | None => Raise JSONDecodeError
                  | Some uni =>
                      if (55296 <=? uni) && (uni <=? 56319) then
                        match t2 with
                        | b1 :: u1 :: a2 :: b2 :: c2 :: d2 :: t3 =>
                            if (b1 =? ord "\") && (u1 =? ord "u") then
                              match decode_uXXXX a2 b2 c2 d2 with
                              | None => Raise JSONDecodeError
                              | Some uni2 =>
                                  if (56320 <=? uni2) && (uni2 <=? 57343) then
                                    push (65536 +
                                          N.lor (N.shiftl (uni - 55296) 10)
                                                (uni2 - 56320))
                                         (scanstring t3)
                                  else push uni (scanstring t2)
                              end
                            else push uni (scanstring t2)
                        | b1 :: u1 :: _ =>
                            if (b1 =? ord "\") && (u1 =? ord "u")
                            then Raise JSONDecodeError
                            else push uni (scanstring t2)
                        | _ => push uni (scanstring t2)
                        end
                      else push uni (scanstring t2)
                  end
              | _ => Raise JSONDecodeError
              end
            else
              match backslash esc with
              | Some ch => push ch (scanstring t1)
              | None => Raise JSONDecodeError
              end
        end
      else if c <? 32 then Raise JSONDecodeError
      else push c (scanstring t)
  end.

Fixpoint key_eqb (k k' : pystr) : bool :=
  match k, k' with
  | [], [] => true
  | c :: t, c' :: t' => (c =? c') && key_eqb t t'
  | _, _ => false
  end.

(** [dict(pairs)]: a later pair with a key already met replaces its value. *)
Fixpoint pairs_set (d : list (pystr * value)) (k : pystr) (v : value)
  : list (pystr * value) :=
  match d with
  | [] => [(k, v)]
  | (k', v') :: d' =>
      if key_eqb k' k then (k, v) :: d' else (k', v') :: pairs_set d' k v
  end.

Definition dict_of_pairs (pairs : list (pystr * value))
  : list (pystr * value) :=
  fold_left (fun d kv => pairs_set d (fst kv) (snd kv)) pairs [].

(** [s[:len(pre)] == pre]. *)
Fixpoint starts_with (pre s : pystr) : bool :=
  match pre, s with
  | [], _ => true
  | p :: pre', c :: s' => (c =? p) && starts_with pre' s'
  | _ :: _, [] => false
  end.

Definition after (pre s : pystr) : pystr := skipn (List.length pre) s.

(** The scalars of [_scan_once] that are not strings: the three names, a
    number, the three float constants. *)
Definition scan_scalar (s : pystr) : result (value * pystr) :=
  if starts_with (text "null") s then Ok (JNull, after (text "null") s)
  else if starts_with (text "true") s
  then Ok (JBool true, after (text "true") s)
  else if starts_with (text "false") s
  then Ok (JBool false, after (text "false") s)
  else
    match match_number s with
    | Some (integer, frac, exp, r) =>
        match frac, exp with
        | [], [] => Ok (JInt (int_of integer), r)
        | _, _ => Ok (JFloat (float_of_string (integer ++ frac ++ exp)%list), r)
        end
    | None =>
        if starts_with (text "NaN") s
        then Ok (JFloat PrimFloat.nan, after (text "NaN") s)
        else if starts_with (text "Infinity") s
        then Ok (JFloat PrimFloat.infinity, after (text "Infinity") s)
        else if starts_with (text "-Infinity") s
        then Ok (JFloat PrimFloat.neg_infinity, after (text "-Infinity") s)
        else Raise JSONDecodeError
    end.

(** [_scan_once], [JSONObject] and [JSONArray].  Each takes the text from
    its position on and returns the value with the text left.  The calls
    nest as deep as the document; [fuel] bounds the depth, and running out
    of it is Python's [RecursionError]. *)
Fixpoint scan_once (fuel : nat) (s : pystr) {struct fuel}
  : result (value * pystr) :=
  match fuel with
  | O => Raise OtherError
  | S fuel =>
      match s with
      | [] => Raise JSONDecodeError
      | c :: t =>
          if c =? ord "034" then
            '(str, r) <- scanstring t ;; Ok (JStr str, r)
          else if c =? ord "{" then
            match skip_ws t with
            | c' :: t' =>
                if c' =? ord "}" then Ok (JObj [], t')
                else if c' =? ord "034" then object_loop fuel t' []
                else Raise JSONDecodeError
            | [] => Raise JSONDecodeError
            end
          else if c =? ord "[" then
            match skip_ws t with
            | c' :: t' =>
                if c' =? ord "]" then Ok (JArr [], t')
                else array_loop fuel (c' :: t') []
            | [] => Raise JSONDecodeError
            end
          else scan_scalar s
      end
  end

(** From just after the opening quote of a key; [pairs] holds the pairs
    read so far, last first. *)
with object_loop (fuel : nat) (s : pystr) (pairs : list (pystr * value))
    {struct fuel} : result (value * pystr) :=
  match fuel with
  | O => Raise OtherError
  | S fuel =>
      '(key, s) <- scanstring s ;;
      match skip_ws s with
      | c :: s =>
          if c =? ord ":" then
            '(v, s) <- scan_once fuel (skip_ws s) ;;
            let pairs := (key, v) :: pairs in
            match skip_ws s with
            | c :: s =>
                if c =? ord "}" then Ok (JObj (dict_of_pairs (rev pairs)), s)
                else if c =? ord "," then
                  match skip_ws s with
                  | c :: s =>
                      if c =? ord "034" then object_loop fuel s pairs
                      else Raise JSONDecodeError
                  | [] => Raise JSONDecodeError
                  end
                else Raise JSONDecodeError
            | [] => Raise JSONDecodeError
            end
          else Raise JSONDecodeError
      | [] => Raise JSONDecodeError
      end
  end

(** From the first character of an item; [items] holds the items read so
    far, last first. *)
with array_loop (fuel : nat) (s : pystr) (items : list value) {struct fuel}
  : result (value * pystr) :=
  match fuel with
  | O => Raise OtherError
  | S fuel =>
      '(v, s) <- scan_once fuel s ;;
      let items := v :: items in
      match skip_ws s with
      | c :: s =>
          if c =? ord "]" then Ok (JArr (rev items), s)
          else if c =? ord "," then array_loop fuel (skip_ws s) items
          else Raise JSONDecodeError
      | [] => Raise JSONDecodeError
      end
  end.

(** [JSONDecoder.decode]: one value between optional whitespace, nothing
    after it. *)
Definition decode (s : pystr) : result value :=
  '(v, r) <- scan_once (S (List.length s)) (skip_ws s) ;;
  match skip_ws r with
  | [] => Ok v
  | _ :: _ => Raise JSONDecodeError
  end.

(** [json.loads] on a [str]; a leading byte-order mark is refused. *)
Definition loads (s : pystr) : result value :=
  match s with
  | c :: _ => if c =? 65279 then Raise JSONDecodeError else decode s
  | [] => decode s
  end.

(** *** What the round trip is stated on *)

(** The tests of [floatstr] all fail: the float is a finite number. *)
Definition is_finite (f : float) : bool :=
  negb (PrimFloat.is_nan f) &&
  negb (PrimFloat.eqb f PrimFloat.infinity) &&
  negb (PrimFloat.eqb f PrimFloat.neg_infinity).

(** [NUMBER_RE] matches the whole text, with a fraction or an exponent. *)
Definition is_float_literal (s : pystr) : bool :=
  match match_number s with
  | Some (_, [], [], _) => false
  | Some (_, _, _, []) => true
  | _ => false
  end.

(** What the round trip needs of a float: it is finite, its [repr] is a
    JSON number that reads as a float, and [float] gives it back from its
    [repr]. *)
Definition float_ok (f : float) : Prop :=
  is_finite f = true /\
  is_float_literal (float_repr f) = true /\
  float_of_string (float_repr f) = f.

(** A code point a [str] can hold that is not a high surrogate. *)
Definition scalar (c : N) : Prop :=
  c < 1114112 /\ ~ (55296 <= c <= 56319).

(** A value whose strings hold no high surrogate, whose floats are as
    above, and whose objects have no key twice (as every [dict] has). *)
Fixpoint wf (v : value) : Prop :=
  match v with
  | JNull | JBool _ | JInt _ => True
  | JFloat f => float_ok f
  | JStr s => Forall scalar s
  | JArr items =>
      (fix all (l : list value) : Prop :=
         match l with
         | [] => True
         | x :: l' => wf x /\ all l'
         end) items
  | JObj pairs =>
      NoDup (map fst pairs) /\
      (fix all (l : list (pystr * value)) : Prop :=
         match l with
         | [] => True
         | (k, x) :: l' => Forall scalar k /\ wf x /\ all l'
         end) pairs
  end.

(** The nesting budget [scan_once] needs to read a value back. *)
Fixpoint weight (v : value) : nat :=
  match v with
  | JArr items =>
      S ((fix sum (l : list value) : nat :=
            match l with
            | [] => O
            | x :: l' => S (weight x + sum l')
            end) items)
  | JObj pairs =>
      S ((fix sum (l : list (pystr * value)) : nat :=
            match l with
            | [] => O
            | (_, x) :: l' => S (weight x + sum l')
            end) pairs)
  | _ => 1%nat
  end.

(** What follows a value in the output of the encoder: nothing, a comma or
    a newline. *)
Definition closes (rest : pystr) : Prop :=
  match rest with
  | [] => True
  | c :: _ => c = ord "," \/ c = 10
  end.

(** The characters a value can start with. *)
Definition opens (c : N) : bool :=
  (c =? ord "n") || (c =? ord "t") || (c =? ord "f") || (c =? ord "-") ||
  is_digit c || (c =? ord "034") || (c =? ord "[") || (c =? ord "{").

(** The text of the items after the first, and of the pairs after the
    first. *)
Definition more_items (level : nat) (xs : list value) : pystr :=
  flat_map (fun y => ord "," :: newline_indent level ++ encode level y) xs.

Definition pair_text (level : nat) (kv : pystr * value) : pystr :=
  encode_basestring_ascii (fst kv) ++
  ord ":" :: ord " " :: encode level (snd kv).

Definition more_pairs (level : nat) (ps : list (pystr * value)) : pystr :=
  flat_map (fun kv => ord "," :: newline_indent level ++ pair_text level kv)
           ps.

Definition items_weight (items : list value) : nat :=
  list_sum (map (fun x => S (weight x)) items).

Definition pairs_weight (pairs : list (pystr * value)) : nat :=
  list_sum (map (fun kv => S (weight (snd kv))) pairs).

(** A value reads back from its text, whatever the indentation level and
    the text after it. *)
Definition reads (v : value) : Prop :=
  wf v ->
  forall level fuel rest,
    (weight v <= fuel)%nat -> closes rest ->
    scan_once fuel (encode level v ++ rest) = Ok (v, rest).

End Floats.
End Json.

(** ** The baseline document

    What [json.load] hands to compare-context.py, as far as [main] reads
    it.  A top-level key may be missing; the ['commands'] value maps a
    command name to the dictionary of that command's integer fields
    (['tokens'], ['lines']).  [Falsy] is a document on which [not baseline]
    holds ([null], [{}], [[]], [0], ...). *)

Record baseline : Type := {
  base_timestamp : option string;
  base_commands : option (dict (dict Z))
}.

Inductive document : Type :=
| Falsy
| Baseline (b : baseline).

(** ** The environment *)

(** What a run reads from outside.  [open_read p] is
    [with open(p, 'r', encoding='utf-8') as f: f.read()]; [enc_encode] is the
    tokenizer's [enc.encode], which, like any call, may raise; [round2 x] is
    the built-in [round(x, 2)]; [open_json_load p] is
    [with open(p, 'r') as f: json.load(f)]; [today] is
    [datetime.now().strftime("%Y-%m-%d")]. *)
Record world : Type := {
  open_read : string -> result string;
  enc_encode : string -> result (list Z);
  path_exists : string -> bool;
  listdir : string -> result (list string);
  now_isoformat : string;
  argv : list string;
  round2 : float -> float;
  open_json_load : string -> result document;
  today : string
}.

(** [tiktoken]'s [Encoding.encode] with its default
    [disallowed_special="all"]: a text that contains one of the encoding's
    special tokens raises [ValueError]; otherwise the byte-pair encoder
    [bpe] runs. *)
Definition cl100k_special_tokens : list string :=
  ["<|endoftext|>"; "<|fim_prefix|>"; "<|fim_middle|>"; "<|fim_suffix|>";
   "<|endofprompt|>"].

Definition tiktoken_encode (bpe : string -> list Z) (text : string)
  : result (list Z) :=
  if existsb (fun t => contains t text) cl100k_special_tokens
  then Raise ValueError
  else Ok (bpe text).

(** ** measure-context.py *)

Module MeasureContext.

Definition count_tokens (w : world) (filepath : string) : result (Z * Z) :=
  try_except
    (content <- open_read w filepath ;;
     toks <- enc_encode w content ;;
     Ok (len toks, len (split "010"%char content)))
    (Ok (0, 0)).

Record command_info : Type := {
  path : string;
  tokens : Z;
  lines : Z;
  pct_of_200k : float
}.

Definition commands : list (string * string) :=
  [("execute.md", ".claude/commands/tiki/execute.md");
   ("plan-issue.md", ".claude/commands/tiki/plan-issue.md");
   ("define-requirements.md", ".claude/commands/tiki/define-requirements.md");
   ("research.md", ".claude/commands/tiki/research.md");
   ("debug.md", ".claude/commands/tiki/debug.md");
   ("release-yolo.md", ".claude/commands/tiki/release-yolo.md")].

Definition measure_commands (w : world) : result (dict command_info) :=
  for_each commands
    (fun results '(name, p) =>
       '(toks, lns) <- count_tokens w p ;;
       q <- truediv toks 200000 ;;
       Ok (dict_set results name
             {| path := p; tokens := toks; lines := lns;
                pct_of_200k := round2 w (fmul_int q 100) |}))
    [].

Record invocation : Type := {
  components : dict Z;
  total_tokens : Z;
  remaining : Z;
  pct_used : float
}.

Definition measure_execute_invocation (w : world) : result invocation :=
  '(exec_tokens, _) <- count_tokens w ".claude/commands/tiki/execute.md" ;;
  '(claude_tokens, _) <- count_tokens w "CLAUDE.md" ;;
  let components :=
    [("claude_code_system_prompt", 3000);
     ("execute_md", exec_tokens);
     ("claude_md", claude_tokens);
     ("plan_file", 1500);
     ("prev_summaries", 500)] in
  let total := sum (values components) in
  q <- truediv total 200000 ;;
  Ok {| components := components;
        total_tokens := total;
        remaining := 200000 - total;
        pct_used := round2 w (fmul_int q 100) |}.

Record file_info : Type := {
  file_tokens : Z;
  file_lines : Z
}.

Definition prompt_dirs : list string :=
  [".tiki/prompts/execute";
   ".tiki/prompts/plan";
   ".tiki/prompts/requirements";
   ".tiki/prompts/research";
   ".tiki/prompts/debug";
   ".tiki/prompts/release"].

(** The inner loop over [os.listdir(dir_path)]. *)
Definition measure_dir (w : world) (dir_path : string) (names : list string)
  : result (dict file_info) :=
  for_each names
    (fun dir_results filename =>
       if endswith filename ".md" then
         let filepath := path_join dir_path filename in
         '(toks, lns) <- count_tokens w filepath ;;
         Ok (dict_set dir_results filename
               {| file_tokens := toks; file_lines := lns |})
       else Ok dir_results)
    [].

(** The outer loop, over any list of directories. *)
Definition measure_prompt_dirs (w : world) (dirs : list string)
  : result (dict (dict file_info)) :=
  for_each dirs
    (fun results dir_path =>
       if path_exists w dir_path then
         names <- listdir w dir_path ;;
         dir_results <- measure_dir w dir_path names ;;
         match dir_results with
         | [] => Ok results
         | _ :: _ => Ok (dict_set results dir_path dir_results)
         end
       else Ok results)
    [].

Definition measure_prompt_files (w : world)
  : result (dict (dict file_info)) :=
  measure_prompt_dirs w prompt_dirs.

Record totals : Type := {
  all_large_commands_tokens : Z;
  all_large_commands_lines : Z
}.

(** The [data] dictionary of [main], once its ['totals'] entry is set. *)
Record snapshot : Type := {
  timestamp : string;
  snap_commands : dict command_info;
  execute_invocation : invocation;
  prompt_files : dict (dict file_info);
  snap_totals : totals
}.

Definition build_data (w : world) : result snapshot :=
  let ts := now_isoformat w in
  cmds <- measure_commands w ;;
  inv <- measure_execute_invocation w ;;
  prompts <- measure_prompt_files w ;;
  Ok {| timestamp := ts;
        snap_commands := cmds;
        execute_invocation := inv;
        prompt_files := prompts;
        snap_totals :=
          {| all_large_commands_tokens := sum (map tokens (values cmds));
             all_large_commands_lines := sum (map lines (values cmds)) |} |}.

(** What [main] writes: the snapshot as a JSON document under [--json], the
    tables otherwise.  The text of the tables is presentation and is not
    modelled. *)
Inductive report : Type :=
| JsonDocument (data : snapshot)
| Tables (data : snapshot).

Definition main (w : world) : result report :=
  let output_json := existsb (String.eqb "--json") (argv w) in
  data <- build_data w ;;
  if output_json then Ok (JsonDocument data) else Ok (Tables data).

End MeasureContext.

(** ** The baseline store

    [measure-context.py --json] prints [json.dumps(data, indent=2)]; the
    shell redirection of the usage line puts it in the baseline file, and
    [compare-context.py] reads it back with [json.load]. *)

Module Store.

Import Json.

(** A [dict] with [str] keys as the Python object it is. *)
Definition dict_json {V} (f : V -> value) (d : dict V) : value :=
  JObj (map (fun kv => (text (fst kv), f (snd kv))) d).

Definition command_json (c : MeasureContext.command_info) : value :=
  JObj [(text "path", JStr (text (MeasureContext.path c)));
        (text "tokens", JInt (MeasureContext.tokens c));
        (text "lines", JInt (MeasureContext.lines c));
        (text "pct_of_200k", JFloat (MeasureContext.pct_of_200k c))].

Definition invocation_json (i : MeasureContext.invocation) : value :=
  JObj [(text "components", dict_json JInt (MeasureContext.components i));
        (text "total_tokens", JInt (MeasureContext.total_tokens i));
        (text "remaining", JInt (MeasureContext.remaining i));
        (text "pct_used", JFloat (MeasureContext.pct_used i))].

Definition file_json (f : MeasureContext.file_info) : value :=
  JObj [(text "tokens", JInt (MeasureContext.file_tokens f));
        (text "lines", JInt (MeasureContext.file_lines f))].

Definition totals_json (t : MeasureContext.totals) : value :=
  JObj [(text "all_large_commands_tokens",
         JInt (MeasureContext.all_large_commands_tokens t));
        (text "all_large_commands_lines",
         JInt (MeasureContext.all_large_commands_lines t))].

(** The [data] dictionary of [main], keys in insertion order. *)
Definition to_json (data : MeasureContext.snapshot) : value :=
  JObj [(text "timestamp", JStr (text (MeasureContext.timestamp data)));
        (text "commands",
         dict_json command_json (MeasureContext.snap_commands data));
        (text "execute_invocation",
         invocation_json (MeasureContext.execute_invocation data));
        (text "prompt_files",
         dict_json (dict_json file_json) (MeasureContext.prompt_files data));
        (text "totals", totals_json (MeasureContext.snap_totals data))].

(** The baseline file after [measure-context.py --json > baseline]: the
    document and the newline [print] ends it with. *)
Definition save (float_repr : float -> pystr) (data : MeasureContext.snapshot)
  : pystr :=
  (dumps float_repr (to_json data) ++ [10%N])%list.

(** [json.load] on the text of the baseline file. *)
Definition load (float_of_string : pystr -> float) (file : pystr)
  : result value :=
  loads float_of_string file.

(** No key twice, as in every [dict]. *)
Definition unique_keys {V} (d : dict V) : Prop := NoDup (map fst d).

Definition dicts_ok (data : MeasureContext.snapshot) : Prop :=
  unique_keys (MeasureContext.snap_commands data) /\
  unique_keys (MeasureContext.components
                 (MeasureContext.execute_invocation data)) /\
  unique_keys (MeasureContext.prompt_files data) /\
  Forall (fun kv => unique_keys (snd kv)) (MeasureContext.prompt_files data).

(** The two kinds of float fields of a snapshot are finite and go through
    [repr] and [float] unchanged. *)
Definition floats_ok (float_repr : float -> pystr)
    (float_of_string : pystr -> float) (data : MeasureContext.snapshot)
  : Prop :=
  Forall (fun kv => float_ok float_repr float_of_string
                      (MeasureContext.pct_of_200k (snd kv)))
         (MeasureContext.snap_commands data) /\
  float_ok float_repr float_of_string
    (MeasureContext.pct_used (MeasureContext.execute_invocation data)).

End Store.

(** ** compare-context.py *)

Module CompareContext.

Definition count_tokens (w : world) (filepath : string) : result (Z * Z) :=
  try_except
    (content <- open_read w filepath ;;
     toks <- enc_encode w content ;;
     Ok (len toks, len (split "010"%char content)))
    (Ok (0, 0)).

(** The three marks of a row: fewer tokens, the same, more. *)
Inductive indicator : Type :=
| Improved
| Unchanged
| Regressed.

Record delta_row : Type := {
  row_name : string;
  baseline_tokens : Z;
  current_tokens : Z;
  change : Z;
  pct_change : num;
  row_indicator : indicator
}.

(** One constructor per [print] call of the script, carrying the values the
    call formats.  The layout of the text is presentation and is not
    modelled. *)
Inductive line : Type :=
| Text (s : string)
| Rule (c : string)
| Blank
| BaselineDate (d : string)
| CurrentDate (d : string)
| Header (columns : list string)
| Row (r : delta_row)
| Total (total_baseline total_current total_change : Z) (total_pct : num)
| PromptFile (p : string) (lns toks : Z)
| PromptTotal (lns toks : Z)
| MainContext (before_total after_total : Z)
| Remaining (before after : Z)
| TokensSaved (savings : Z)
| Reduction (pct : float)
| Verdict (i : indicator).

Definition baseline_path : string := ".tiki/context-baseline.json".

Definition guidance : list line :=
  [Text "ERROR: No baseline found. Run first:";
   Text "  python .tiki/scripts/measure-context.py --json > .tiki/context-baseline.json"].

(** [None] is Python's [None]. *)
Definition load_baseline (w : world) : io line (option document) :=
  match open_json_load w baseline_path with
  | Ok doc => ret (Some doc)
  | Raise FileNotFoundError =>
      print (Text "ERROR: No baseline found. Run first:") >>
      print (Text "  python .tiki/scripts/measure-context.py --json > .tiki/context-baseline.json") >>
      ret None
  | Raise e => lift (Raise e)
  end.

Record current_info : Type := {
  tokens : Z;
  lines : Z
}.

Definition commands : list (string * string) :=
  [("execute.md", ".claude/commands/tiki/execute.md");
   ("plan-issue.md", ".claude/commands/tiki/plan-issue.md");
   ("define-requirements.md", ".claude/commands/tiki/define-requirements.md");
   ("research.md", ".claude/commands/tiki/research.md");
   ("debug.md", ".claude/commands/tiki/debug.md");
   ("release-yolo.md", ".claude/commands/tiki/release-yolo.md")].

Definition measure_current (w : world) : result (dict current_info) :=
  for_each commands
    (fun results '(name, p) =>
       '(toks, lns) <- count_tokens w p ;;
       Ok (dict_set results name {| tokens := toks; lines := lns |}))
    [].

Record prompt_file : Type := {
  file_path : string;
  file_tokens : Z;
  file_lines : Z
}.

Record prompt_report : Type := {
  total_tokens : Z;
  total_lines : Z;
  files : list prompt_file
}.

Definition prompt_dirs : list string :=
  [".tiki/prompts/execute";
   ".tiki/prompts/plan";
   ".tiki/prompts/requirements";
   ".tiki/prompts/research";
   ".tiki/prompts/debug";
   ".tiki/prompts/release"].

Definition measure_prompt_files (w : world) : result prompt_report :=
  for_each prompt_dirs
    (fun acc dir_path =>
       if path_exists w dir_path then
         names <- listdir w dir_path ;;
         for_each names
           (fun acc filename =>
              if endswith filename ".md" then
                let filepath := path_join dir_path filename in
                '(toks, lns) <- count_tokens w filepath ;;
                Ok {| total_tokens := total_tokens acc + toks;
                      total_lines := total_lines acc + lns;
                      files := (files acc ++
                               [{| file_path := path_join dir_path filename;
                                   file_tokens := toks;
                                   file_lines := lns |}])%list |}
              else Ok acc)
           acc
       else Ok acc)
    {| total_tokens := 0; total_lines := 0; files := [] |}.

(** [baseline[key]] on the top-level dictionary. *)
Definition field {A} (key : string) (v : option A) : result A :=
  match v with
  | Some a => Ok a
  | None => Raise (KeyError key)
  end.

(** [(change / base * 100) if base > 0 else 0]. *)
Definition percent (change base : Z) : num :=
  if base >? 0 then Float (fmul_int (fdiv_int change base) 100) else Int 0.

Definition indicator_of (change : Z) : indicator :=
  if change <? 0 then Improved
  else if change =? 0 then Unchanged
  else Regressed.

(** The body of the loop over [current.items()], up to its [print]. *)
Definition compare_row (cmds : dict (dict Z)) (name : string)
    (curr : current_info) : delta_row :=
  let base := get cmds name [] in
  let base_tokens := get base "tokens" 0 in
  let curr_tokens := tokens curr in
  let change := curr_tokens - base_tokens in
  {| row_name := name;
     baseline_tokens := base_tokens;
     current_tokens := curr_tokens;
     change := change;
     pct_change := percent change base_tokens;
     row_indicator := indicator_of change |}.

(** One turn of the loop of lines 113-126, on the running
    [(total_baseline, total_current)]. *)
Definition table_step (b : baseline) (totals : Z * Z)
    (item : string * current_info) : io line (Z * Z) :=
  let '(total_baseline, total_current) := totals in
  let '(name, curr) := item in
  cmds <-- lift (field "commands" (base_commands b)) ;;
  let r := compare_row cmds name curr in
  let total_baseline := total_baseline + baseline_tokens r in
  let total_current := total_current + current_tokens r in
  print (Row r) >>
  ret (total_baseline, total_current).

(** The loop; it returns [(total_baseline, total_current)]. *)
Definition command_table (b : baseline) (current : dict current_info)
  : io line (Z * Z) :=
  for_io current (table_step b) (0, 0).

(** Lines 143-172. *)
Definition effective_savings (b : baseline) (current : dict current_info)
  : io line unit :=
  cmds <-- lift (field "commands" (base_commands b)) ;;
  entry <-- lift (getitem cmds "execute.md") ;;
  exec_baseline <-- lift (getitem entry "tokens") ;;
  centry <-- lift (getitem current "execute.md") ;;
  let exec_current := tokens centry in
  print (Text "EFFECTIVE SAVINGS FOR /tiki:execute") >>
  print (Rule "-") >>
  print (Header ["Metric"; "Before"; "After"]) >>
  print (Rule "-") >>
  let before_total := 3000 + exec_baseline + 1115 + 1500 + 500 in
  let after_total := 3000 + exec_current + 1115 + 1500 + 500 in
  print (MainContext before_total after_total) >>
  print (Remaining (200000 - before_total) (200000 - after_total)) >>
  let savings := before_total - after_total in
  print (Rule "-") >>
  print (TokensSaved savings) >>
  q <-- lift (truediv savings before_total) ;;
  print (Reduction (fmul_int q 100)) >>
  print Blank >>
  print (Verdict (if savings >? 0 then Improved
                  else if savings =? 0 then Unchanged
                  else Regressed)) >>
  print Blank >>
  print (Rule "=").

(** Lines 134-141. *)
Definition prompt_table (prompts : prompt_report) : io line unit :=
  match files prompts with
  | [] => ret tt
  | _ :: _ =>
      print (Text "EXTRACTED PROMPT FILES (load into sub-agent context)") >>
      print (Rule "-") >>
      for_io (files prompts)
        (fun _ f =>
           print (PromptFile (file_path f) (file_lines f) (file_tokens f)))
        tt >>
      print (Rule "-") >>
      print (PromptTotal (total_lines prompts) (total_tokens prompts)) >>
      print Blank
  end.

Definition main (w : world) : io line unit :=
  baseline <-- load_baseline w ;;
  match baseline with
  | None | Some Falsy => ret tt
  | Some (Baseline b) =>
      current <-- lift (measure_current w) ;;
      prompts <-- lift (measure_prompt_files w) ;;
      print (Rule "=") >>
      print (Text "CONTEXT WINDOW USAGE COMPARISON") >>
      ts <-- lift (field "timestamp" (base_timestamp b)) ;;
      print (BaselineDate (take 10 ts)) >>
      print (CurrentDate (today w)) >>
      print (Rule "=") >>
      print Blank >>
      print (Text "COMMAND SIZE CHANGES") >>
      print (Rule "-") >>
      print (Header ["Command"; "Baseline"; "Current"; "Change"; "% Change"]) >>
      print (Rule "-") >>
      totals <-- command_table b current ;;
      let '(total_baseline, total_current) := totals in
      print (Rule "-") >>
      let total_change := total_current - total_baseline in
      let total_pct := percent total_change total_baseline in
      print (Total total_baseline total_current total_change total_pct) >>
      print Blank >>
      prompt_table prompts >>
      effective_savings b current
  end.

End CompareContext.

(** ** A sample environment

    Two command files and [CLAUDE.md] exist; [debug.md] exists and quotes a
    tokenizer special token; one prompt directory holds a markdown file,
    another exists without any.  The baseline was saved before [execute.md]
    shrank. *)

Module Sample.

Definition disk : dict string :=
  [(".claude/commands/tiki/execute.md",
    "# Execute" ++ String "010" ("run the plan" ++ String "010" ""));
   (".claude/commands/tiki/plan-issue.md", "# Plan");
   (".claude/commands/tiki/debug.md",
    "never print <|endoftext|>" ++ String "010" "");
   ("CLAUDE.md", "# Project" ++ String "010" "");
   (".tiki/prompts/execute/phase.md", "do it" ++ String "010" "")].

Definition directories : dict (list string) :=
  [(".tiki/prompts/execute", ["phase.md"; "notes.txt"]);
   (".tiki/prompts/plan", ["README.txt"])].

(** [round(x, 2)]: the binary value of [x] rounded to hundredths, ties to
    even, then the float nearest to that decimal. *)
Definition round_hundredths (x : float) : float :=
  match Prim2SF x with
  | S754_finite s m e =>
      let n := 100 * Zpos m in
      let k := if 0 <=? e then n * 2 ^ e else round_half_even n (2 ^ (- e)) in
      if s then PrimFloat.opp (fdiv_int k 100) else fdiv_int k 100
  | _ => x
  end.

(** [float.__repr__] and [float] on the floats of the sample snapshot:
    0.01, 2.52 and 0.0. *)
Definition float_repr (f : float) : Json.pystr :=
  if PrimFloat.eqb f (fdiv_int 1 100) then Json.text "0.01"
  else if PrimFloat.eqb f (fdiv_int 252 100) then Json.text "2.52"
  else Json.text "0.0".

Definition float_of_string (s : Json.pystr) : float :=
  if Json.key_eqb s (Json.text "0.01") then fdiv_int 1 100
  else if Json.key_eqb s (Json.text "2.52") then fdiv_int 252 100
  else fdiv_int 0 100.

(** A stand-in byte-pair encoder: one token per character. *)
Definition bpe (text : string) : list Z :=
  map (fun c => Z.of_nat (nat_of_ascii c)) (list_ascii_of_string text).

Definition saved : baseline :=
  {| base_timestamp := Some "2025-01-15T09:30:00.000000";
     base_commands :=
       Some [("execute.md", [("tokens", 40); ("lines", 5)]);
             ("plan-issue.md", [("tokens", 6); ("lines", 1)])] |}.

Definition env : world :=
  {| open_read p :=
       match dict_get disk p with
       | Some content => Ok content
       | None => Raise FileNotFoundError
       end;
     enc_encode := tiktoken_encode bpe;
     path_exists p :=
       match dict_get directories p with Some _ => true | None => false end;
     listdir p :=
       match dict_get directories p with
       | Some names => Ok names
       | None => Raise FileNotFoundError
       end;
     now_isoformat := "2025-02-01T12:00:00.000000";
     argv := ["measure-context.py"; "--json"];
     round2 := round_hundredths;
     open_json_load p :=
       if String.eqb p ".tiki/context-baseline.json"
       then Ok (Baseline saved) else Raise FileNotFoundError;
     today := "2025-02-01" |}.

(** A baseline saved by a version that did not list [execute.md]. *)
Definition older : baseline :=
  {| base_timestamp := Some "2024-11-30T18:00:00.000000";
     base_commands := Some [("plan-issue.md", [("tokens", 6); ("lines", 1)])] |}.

Definition drifted : world :=
  {| open_read := open_read env;
     enc_encode := enc_encode env;
     path_exists := path_exists env;
     listdir := listdir env;
     now_isoformat := now_isoformat env;
     argv := argv env;
     round2 := round2 env;
     open_json_load p :=
       if String.eqb p ".tiki/context-baseline.json"
       then Ok (Baseline older) else Raise FileNotFoundError;
     today := today env |}.

(** The same environment before any baseline was saved. *)
Definition fresh : world :=
  {| open_read := open_read env;
     enc_encode := enc_encode env;
     path_exists := path_exists env;
     listdir := listdir env;
     now_isoformat := now_isoformat env;
     argv := argv env;
     round2 := round2 env;
     open_json_load _ := Raise FileNotFoundError;
     today := today env |}.

End Sample.

(** ** Notions the statements use *)

(** The sum of [f] over a list, as a right fold. *)
Definition total_of {A} (f : A -> Z) (l : list A) : Z :=
  fold_right (fun x acc => f x + acc) 0 l.

(** The measurement of a path, as a pair: [count_tokens] always returns. *)
Definition metric (w : world) (p : string) : Z * Z :=
  match MeasureContext.count_tokens w p with
  | Ok m => m
  | Raise _ => (0, 0)
  end.

(** The entry [measure_commands] makes for a listed command. *)
Definition command_entry (w : world) (np : string * string)
  : string * MeasureContext.command_info :=
  let '(name, p) := np in
  (name,
   {| MeasureContext.path := p;
      MeasureContext.tokens := fst (metric w p);
      MeasureContext.lines := snd (metric w p);
      MeasureContext.pct_of_200k :=
        round2 w (fmul_int (fdiv_int (fst (metric w p)) 200000) 100) |}).

(** What every key of the prompt-file mapping satisfies. *)
Definition recorded (w : world) (results : dict (dict MeasureContext.file_info)) : Prop :=
  forall d entries,
    dict_get results d = Some entries ->
    entries <> [] /\
    path_exists w d = true /\
    exists names n,
      listdir w d = Ok names /\ In n names /\ endswith n ".md" = true.

(** The snapshot of the sample environment: 29 tokens in the commands (23
    and 6; [debug.md] counts 0), and the 6 tokens of the prompt file
    [phase.md] stay out of the totals. *)
Definition sample_snapshot : MeasureContext.snapshot :=
  match MeasureContext.build_data Sample.env with
  | Ok data => data
  | Raise _ =>
      {| MeasureContext.timestamp := "";
         MeasureContext.snap_commands := [];
         MeasureContext.execute_invocation :=
           {| MeasureContext.components := [];
              MeasureContext.total_tokens := 0;
              MeasureContext.remaining := 0;
              MeasureContext.pct_used := 0 |};
         MeasureContext.prompt_files := [];
         MeasureContext.snap_totals :=
           {| MeasureContext.all_large_commands_tokens := 0;
              MeasureContext.all_large_commands_lines := 0 |} |}
  end.

(** The rows and the total lines of an output. *)
Fixpoint rows_of (out : list CompareContext.line) : list CompareContext.delta_row :=
  match out with
  | [] => []
  | CompareContext.Row r :: out' => r :: rows_of out'
  | _ :: out' => rows_of out'
  end.

Fixpoint totals_of (out : list CompareContext.line) : list (Z * Z) :=
  match out with
  | [] => []
  | CompareContext.Total total_baseline total_current _ _ :: out' =>
      (total_baseline, total_current) :: totals_of out'
  | _ :: out' => totals_of out'
  end.

(** The rows of the table for a baseline whose ['commands'] is [cmds]. *)
Definition table_rows (cmds : dict (dict Z)) (current : dict CompareContext.current_info)
  : list CompareContext.delta_row :=
  map (fun nc => CompareContext.compare_row cmds (fst nc) (snd nc)) current.

(** ** measure-context.py: what [main] prints

    [main] of measure-context.py once more, this time with its output: one
    constructor per [print] call, carrying the values the call formats. *)

Module MeasureReport.

Inductive line : Type :=
| Document (data : MeasureContext.snapshot)
| Rule (c : string)
| Title (date : string)
| Blank
| Text (s : string)
| Header (columns : list string)
| CommandRow (name : string) (lns toks : Z) (pct : float)
| TotalRow (lns toks : Z) (pct : float)
| ComponentRow (name : string) (toks : Z)
| InvocationTotal (toks : Z)
| InvocationRemaining (toks : Z)
| ContextUsed (pct : float)
| Directory (dir_path : string)
| FileRow (filename : string) (lns toks : Z).

(** Lines 136-137. *)
Definition command_rows (cmds : dict MeasureContext.command_info)
  : io line unit :=
  for_io cmds
    (fun _ '(name, info) =>
       print (CommandRow name (MeasureContext.lines info)
                (MeasureContext.tokens info)
                (MeasureContext.pct_of_200k info)))
    tt.

(** Lines 148-149. *)
Definition component_rows (components : dict Z) : io line unit :=
  for_io components (fun _ '(name, toks) => print (ComponentRow name toks)) tt.

(** Lines 159-162: [print(f'\n{dir_path}/')], then one row per file. *)
Definition directory_rows (prompt_files : dict (dict MeasureContext.file_info))
  : io line unit :=
  for_io prompt_files
    (fun _ '(dir_path, files) =>
       print (Directory dir_path) >>
       for_io files
         (fun _ '(filename, info) =>
            print (FileRow filename (MeasureContext.file_lines info)
                     (MeasureContext.file_tokens info)))
         tt)
    tt.

(** Lines 125-169, the pretty print. *)
Definition tables (data : MeasureContext.snapshot) : io line unit :=
  print (Rule "=") >>
  print (Title (take 10 (MeasureContext.timestamp data))) >>
  print (Rule "=") >>
  print Blank >>
  print (Text "LARGE COMMANDS") >>
  print (Rule "-") >>
  print (Header ["Command"; "Lines"; "Tokens"; "% of 200K"]) >>
  print (Rule "-") >>
  command_rows (MeasureContext.snap_commands data) >>
  print (Rule "-") >>
  let totals := MeasureContext.snap_totals data in
  q <-- lift (truediv (MeasureContext.all_large_commands_tokens totals)
                      200000) ;;
  print (TotalRow (MeasureContext.all_large_commands_lines totals)
           (MeasureContext.all_large_commands_tokens totals)
           (fmul_int q 100)) >>
  print Blank >>
  print (Text "TYPICAL /tiki:execute INVOCATION") >>
  print (Rule "-") >>
  let inv := MeasureContext.execute_invocation data in
  print (Header ["Component"; "Tokens"]) >>
  print (Rule "-") >>
  component_rows (MeasureContext.components inv) >>
  print (Rule "-") >>
  print (InvocationTotal (MeasureContext.total_tokens inv)) >>
  print (InvocationRemaining (MeasureContext.remaining inv)) >>
  print (ContextUsed (MeasureContext.pct_used inv)) >>
  print Blank >>
  match MeasureContext.prompt_files data with
  | [] =>
      print (Text "No extracted prompt files found yet (run after refactoring)")
  | _ :: _ =>
      print (Text "EXTRACTED PROMPT FILES (sub-agent context)") >>
      print (Rule "-") >>
      directory_rows (MeasureContext.prompt_files data)
  end >>
  print Blank >>
  print (Rule "=") >>
  print (Text "To save baseline: python .tiki/scripts/measure-context.py --json > .tiki/context-baseline.json") >>
  print (Rule "=").

(** Lines 103-169.  Under [--json] the one thing printed is the document,
    whose text is [Store.save] of the snapshot. *)
Definition main (w : world) : io line unit :=
  let output_json := existsb (String.eqb "--json") (argv w) in
  data <-- lift (MeasureContext.build_data w) ;;
  if output_json then print (Document data) else tables data.

End MeasureReport.

(** ** Reading the baseline file

    [json.load] hands compare-context.py a Python object; [main] reads it
    through [not baseline], [baseline["timestamp"][:10]],
    [baseline['commands'].get(name, {}).get('tokens', 0)] and
    [baseline['commands']['execute.md']['tokens']].  [as_document] gives the
    object in the typed form of [document] when these reads behave on it as
    they do on the typed form, and [None] otherwise. *)

Module BaselineFile.

(** A [str] of code points below 256 as a string of the scripts. *)
Fixpoint string_of (s : Json.pystr) : option string :=
  match s with
  | [] => Some EmptyString
  | c :: t =>
      if (c <? 256)%N then
        match string_of t with
        | Some r => Some (String (ascii_of_N c) r)
        | None => None
        end
      else None
  end.

(** [bool(v)]. *)
Definition truthy (v : Json.value) : bool :=
  match v with
  | Json.JNull => false
  | Json.JBool b => b
  | Json.JInt z => negb (z =? 0)
  | Json.JFloat f => negb (PrimFloat.eqb f PrimFloat.zero)
  | Json.JStr s => match s with [] => false | _ :: _ => true end
  | Json.JArr items => match items with [] => false | _ :: _ => true end
  | Json.JObj pairs => match pairs with [] => false | _ :: _ => true end
  end.

(** [d.get(key)] on a decoded object. *)
Fixpoint member (key : Json.pystr) (pairs : list (Json.pystr * Json.value))
  : option Json.value :=
  match pairs with
  | [] => None
  | (k, v) :: pairs' => if Json.key_eqb k key then Some v else member key pairs'
  end.

(** The integer fields of a command's entry; ['tokens'], the one field
    [main] reads, has to be an [int] when it is there. *)
Fixpoint int_fields (pairs : list (Json.pystr * Json.value))
  : option (dict Z) :=
  match pairs with
  | [] => Some []
  | (k, v) :: pairs' =>
      match string_of k, int_fields pairs' with
      | Some name, Some fields =>
          match v with
          | Json.JInt z => Some ((name, z) :: fields)
          | _ => if String.eqb name "tokens" then None else Some fields
          end
      | _, _ => None
      end
  end.

(** The value at ['commands']: every entry an object. *)
Fixpoint command_entries (pairs : list (Json.pystr * Json.value))
  : option (dict (dict Z)) :=
  match pairs with
  | [] => Some []
  | (k, v) :: pairs' =>
      match string_of k, v, command_entries pairs' with
      | Some name, Json.JObj fields, Some entries =>
          match int_fields fields with
          | Some ints => Some ((name, ints) :: entries)
          | None => None
          end
      | _, _, _ => None
      end
  end.

Definition as_document (v : Json.value) : option document :=
  if truthy v then
    match v with
    | Json.JObj pairs =>
        let timestamp :=
          match member (Json.text "timestamp") pairs with
          | None => Some None
          | Some (Json.JStr s) =>
              match string_of s with
              | Some ts => Some (Some ts)
              | None => None
              end
          | Some _ => None
          end in
        let commands :=
          match member (Json.text "commands") pairs with
          | None => Some None
          | Some (Json.JObj entries) =>
              match command_entries entries with
              | Some cmds => Some (Some cmds)
              | None => None
              end
          | Some _ => None
          end in
        match timestamp, commands with
        | Some ts, Some cmds =>
            Some (Baseline {| base_timestamp := ts; base_commands := cmds |})
        | _, _ => None
        end
    | _ => None
    end
  else Some Falsy.

(** [json.load(f)] on the text of the baseline file, in the typed form.  An
    object outside the typed form (a token count that is a float or a
    boolean, a timestamp that is not a string) is not followed further: it
    shows as [OtherError], whatever the run does on it. *)
Definition json_load (float_of_string : Json.pystr -> float)
    (file : Json.pystr) : result document :=
  v <- Json.loads float_of_string file ;;
  match as_document v with
  | Some doc => Ok doc
  | None => Raise OtherError
  end.

(** What [as_document] makes of a saved snapshot: the timestamp, and per
    command the two integers of its entry. *)
Definition baseline_of (data : MeasureContext.snapshot) : baseline :=
  {| base_timestamp := Some (MeasureContext.timestamp data);
     base_commands :=
       Some (map (fun entry =>
                    (fst entry,
                     [("tokens", MeasureContext.tokens (snd entry));
                      ("lines", MeasureContext.lines (snd entry))]))
                 (MeasureContext.snap_commands data)) |}.

End BaselineFile.

(** ** More sample environments *)

Module Scenario.

(** The sample environment, run without [--json]. *)
Definition plain : world :=
  {| open_read := open_read Sample.env;
     enc_encode := enc_encode Sample.env;
     path_exists := path_exists Sample.env;
     listdir := listdir Sample.env;
     now_isoformat := now_isoformat Sample.env;
     argv := ["measure-context.py"];
     round2 := round2 Sample.env;
     open_json_load := open_json_load Sample.env;
     today := today Sample.env |}.

(** The sample environment with the baseline file holding [doc]. *)
Definition holding (doc : result document) : world :=
  {| open_read := open_read Sample.env;
     enc_encode := enc_encode Sample.env;
     path_exists := path_exists Sample.env;
     listdir := listdir Sample.env;
     now_isoformat := now_isoformat Sample.env;
     argv := argv Sample.env;
     round2 := round2 Sample.env;
     open_json_load p :=
       if String.eqb p ".tiki/context-baseline.json"
       then doc else Raise FileNotFoundError;
     today := today Sample.env |}.

(** [.tiki/prompts/plan] exists but is a file: [os.listdir] raises on it. *)
Definition blocked : world :=
  {| open_read := open_read Sample.env;
     enc_encode := enc_encode Sample.env;
     path_exists := path_exists Sample.env;
     listdir p :=
       if String.eqb p ".tiki/prompts/plan" then Raise NotADirectoryError
       else listdir Sample.env p;
     now_isoformat := now_isoformat Sample.env;
     argv := argv Sample.env;
     round2 := round2 Sample.env;
     open_json_load := open_json_load Sample.env;
     today := today Sample.env |}.

(** No command file, no prompt directory, no [CLAUDE.md]. *)
Definition bare : world :=
  {| open_read _ := Raise FileNotFoundError;
     enc_encode := enc_encode Sample.env;
     path_exists _ := false;
     listdir _ := Raise FileNotFoundError;
     now_isoformat := now_isoformat Sample.env;
     argv := ["measure-context.py"];
     round2 := round2 Sample.env;
     open_json_load := open_json_load Sample.env;
     today := today Sample.env |}.

(** The sample environment right after
    [measure-context.py --json > .tiki/context-baseline.json]. *)
Definition remeasured : world :=
  holding
    (BaselineFile.json_load Sample.float_of_string
       (Store.save Sample.float_repr sample_snapshot)).

(** Baselines with a gap or a slip: no ['timestamp'], no ['commands'], and
    a token count for [execute.md] that cancels the fixed estimates. *)
Definition undated : baseline :=
  {| base_timestamp := None;
     base_commands := Some [("execute.md", [("tokens", 40); ("lines", 5)])] |}.

Definition uncommanded : baseline :=
  {| base_timestamp := Some "2025-01-15T09:30:00.000000";
     base_commands := None |}.

Definition cancelling : baseline :=
  {| base_timestamp := Some "2025-01-15T09:30:00.000000";
     base_commands := Some [("execute.md", [("tokens", -6115)])] |}.

(** A baseline with a negative token count, as a file edited by hand can
    hold. *)
Definition negative : baseline :=
  {| base_timestamp := Some "2025-01-15T09:30:00.000000";
     base_commands := Some [("execute.md", [("tokens", -5); ("lines", 5)])] |}.

(** A baseline that also holds a command the scripts no longer list. *)
Definition wider : baseline :=
  {| base_timestamp := Some "2025-01-15T09:30:00.000000";
     base_commands :=
       Some [("retired.md", [("tokens", 900); ("lines", 80)]);
             ("execute.md", [("tokens", 40); ("lines", 5)])] |}.

(** Two prompt directories exist, one empty and one with a text file: no
    markdown file anywhere.  Run without [--json]. *)
Definition unextracted_directories : dict (list string) :=
  [(".tiki/prompts/plan", ["README.txt"]);
   (".tiki/prompts/debug", [])].

Definition unextracted : world :=
  {| open_read := open_read Sample.env;
     enc_encode := enc_encode Sample.env;
     path_exists p :=
       match dict_get unextracted_directories p with
       | Some _ => true
       | None => false
       end;
     listdir p :=
       match dict_get unextracted_directories p with
       | Some names => Ok names
       | None => Raise FileNotFoundError
       end;
     now_isoformat := now_isoformat Sample.env;
     argv := ["measure-context.py"];
     round2 := round2 Sample.env;
     open_json_load := open_json_load Sample.env;
     today := today Sample.env |}.

End Scenario.

(** ** More notions the statements use *)

(** The prompt files of measure-context.py's mapping, as compare-context.py
    lists them: directory by directory, file by file. *)
Definition listed (results : dict (dict MeasureContext.file_info))
  : list CompareContext.prompt_file :=
  flat_map
    (fun entry =>
       map (fun f =>
              {| CompareContext.file_path := path_join (fst entry) (fst f);
                 CompareContext.file_tokens :=
                   MeasureContext.file_tokens (snd f);
                 CompareContext.file_lines :=
                   MeasureContext.file_lines (snd f) |})
           (snd entry))
    results.

(** The command rows, the total rows, the component rows, the invocation
    totals and the plain texts of measure-context.py's output. *)
Definition command_rows_of (out : list MeasureReport.line)
  : list (string * Z * Z) :=
  flat_map
    (fun l =>
       match l with
       | MeasureReport.CommandRow name lns toks _ => [(name, lns, toks)]
       | _ => []
       end)
    out.

Definition total_rows_of (out : list MeasureReport.line) : list (Z * Z) :=
  flat_map
    (fun l =>
       match l with
       | MeasureReport.TotalRow lns toks _ => [(lns, toks)]
       | _ => []
       end)
    out.

Definition component_rows_of (out : list MeasureReport.line) : list Z :=
  flat_map
    (fun l =>
       match l with
       | MeasureReport.ComponentRow _ toks => [toks]
       | _ => []
       end)
    out.

Definition invocation_totals_of (out : list MeasureReport.line) : list Z :=
  flat_map
    (fun l =>
       match l with
       | MeasureReport.InvocationTotal toks => [toks]
       | _ => []
       end)
    out.

Definition texts_of (out : list MeasureReport.line) : list string :=
  flat_map
    (fun l =>
       match l with
       | MeasureReport.Text s => [s]
       | _ => []
       end)
    out.

(** The names of a listing that [measure_prompt_files] measures. *)
Definition md_names (names : list string) : list string :=
  filter (fun n => endswith n ".md") names.

(** The entry that measure-context.py records for the file [n] of the
    directory [d]. *)
Definition prompt_entry (w : world) (d n : string)
  : MeasureContext.file_info :=
  {| MeasureContext.file_tokens := fst (metric w (path_join d n));
     MeasureContext.file_lines := snd (metric w (path_join d n)) |}.

(** What measure-context.py records under a directory, if anything: the
    directory exists, can be listed, and gives at least one entry. *)
Definition dir_entries (w : world) (d : string)
  : option (dict MeasureContext.file_info) :=
  if path_exists w d then
    match listdir w d with
    | Ok names =>
        match MeasureContext.measure_dir w d names with
        | Ok (e :: es) => Some (e :: es)
        | _ => None
        end
    | Raise _ => None
    end
  else None.

(** The two loop bodies of compare-context.py's [measure_prompt_files],
    under names. *)
Definition compare_file_step (w : world) (dir_path : string)
    (acc : CompareContext.prompt_report) (filename : string)
  : result CompareContext.prompt_report :=
  if endswith filename ".md" then
    let filepath := path_join dir_path filename in
    '(toks, lns) <- CompareContext.count_tokens w filepath ;;
    Ok {| CompareContext.total_tokens := CompareContext.total_tokens acc + toks;
          CompareContext.total_lines := CompareContext.total_lines acc + lns;
          CompareContext.files :=
            (CompareContext.files acc ++
             [{| CompareContext.file_path := path_join dir_path filename;
                 CompareContext.file_tokens := toks;
                 CompareContext.file_lines := lns |}])%list |}
  else Ok acc.

Definition compare_dir_step (w : world) (acc : CompareContext.prompt_report)
    (dir_path : string) : result CompareContext.prompt_report :=
  if path_exists w dir_path then
    names <- listdir w dir_path ;;
    for_each names (compare_file_step w dir_path) acc
  else Ok acc.

(** The file that compare-context.py lists for the name [n] of the
    directory [d]. *)
Definition prompt_file_of (w : world) (d n : string)
  : CompareContext.prompt_file :=
  {| CompareContext.file_path := path_join d n;
     CompareContext.file_tokens := fst (metric w (path_join d n));
     CompareContext.file_lines := snd (metric w (path_join d n)) |}.

(** The files of the directories [dirs], in order: those of the listings
    of the directories that exist. *)
Definition found (w : world) (dirs : list string)
  : list CompareContext.prompt_file :=
  flat_map
    (fun d =>
       if path_exists w d then
         match listdir w d with
         | Ok names => map (prompt_file_of w d) (md_names names)
         | Raise _ => []
         end
       else [])
    dirs.

(** Every directory of [dirs] that exists can be listed. *)
Definition listable (w : world) (dirs : list string) : Prop :=
  forall d, In d dirs -> path_exists w d = true ->
            exists names, listdir w d = Ok names.

(** The table of a run of compare-context.py: the measurements of the six
    commands. *)
Definition current_of (w : world) : dict CompareContext.current_info :=
  map (fun np =>
         (fst np,
          {| CompareContext.tokens := fst (metric w (snd np));
             CompareContext.lines := snd (metric w (snd np)) |}))
      CompareContext.commands.

(** The lines that compare-context.py prints before the table. *)
Definition banner (w : world) (ts : string) : list CompareContext.line :=
  [CompareContext.Rule "=";
   CompareContext.Text "CONTEXT WINDOW USAGE COMPARISON";
   CompareContext.BaselineDate (take 10 ts);
   CompareContext.CurrentDate (today w);
   CompareContext.Rule "=";
   CompareContext.Blank;
   CompareContext.Text "COMMAND SIZE CHANGES";
   CompareContext.Rule "-";
   CompareContext.Header
     ["Command"; "Baseline"; "Current"; "Change"; "% Change"];
   CompareContext.Rule "-"].

(** The savings block of compare-context.py for [exec_baseline] tokens of
    [execute.md] in the baseline and [exec_current] now, up to the division
    of line 164. *)
Definition savings_head (exec_baseline exec_current : Z)
  : list CompareContext.line :=
  let before_total := 3000 + exec_baseline + 1115 + 1500 + 500 in
  let after_total := 3000 + exec_current + 1115 + 1500 + 500 in
  [CompareContext.Text "EFFECTIVE SAVINGS FOR /tiki:execute";
   CompareContext.Rule "-";
   CompareContext.Header ["Metric"; "Before"; "After"];
   CompareContext.Rule "-";
   CompareContext.MainContext before_total after_total;
   CompareContext.Remaining (200000 - before_total) (200000 - after_total);
   CompareContext.Rule "-";
   CompareContext.TokensSaved (before_total - after_total)].

(** The rows and the total of the prompt block, and the total lines in
    full, of compare-context.py's output. *)
Definition prompt_rows_of (out : list CompareContext.line)
  : list (string * Z * Z) :=
  flat_map
    (fun l =>
       match l with
       | CompareContext.PromptFile p lns toks => [(p, lns, toks)]
       | _ => []
       end)
    out.

Definition prompt_totals_of (out : list CompareContext.line) : list (Z * Z) :=
  flat_map
    (fun l =>
       match l with
       | CompareContext.PromptTotal lns toks => [(lns, toks)]
       | _ => []
       end)
    out.

Definition total_lines_of (out : list CompareContext.line)
  : list (Z * Z * Z * num) :=
  flat_map
    (fun l =>
       match l with
       | CompareContext.Total total_baseline total_current total_change
           total_pct =>
           [(total_baseline, total_current, total_change, total_pct)]
       | _ => []
       end)
    out.

(** [v[key]] on a loaded object, and [v[key1][key2]...]. *)
Definition item (key : string) (v : Json.value) : option Json.value :=
  match v with
  | Json.JObj pairs => BaselineFile.member (Json.text key) pairs
  | _ => None
  end.

Fixpoint items (keys : list string) (v : Json.value) : option Json.value :=
  match keys with
  | [] => Some v
  | key :: keys' =>
      match item key v with
      | Some v' => items keys' v'
      | None => None
      end
  end.

(** The kinds of line the savings block is made of. *)
Definition savings_kind (l : CompareContext.line) : bool :=
  match l with
  | CompareContext.Text _ | CompareContext.Rule _ | CompareContext.Blank
  | CompareContext.Header _ | CompareContext.MainContext _ _
  | CompareContext.Remaining _ _ | CompareContext.TokensSaved _
  | CompareContext.Reduction _ | CompareContext.Verdict _ => true
  | _ => false
  end.

(** ** The file metrics collector *)

Section Collector.

Variable w : world.

Lemma split_length (sep : ascii) (s : string) :
  List.length (split sep s) = S (count_char sep s).
Proof.
  induction s as [|c rest IH]; simpl; [reflexivity|].
  destruct (Ascii.eqb c sep); simpl.
  - now rewrite IH.
  - destruct (split sep rest) as [|seg segs]; simpl in *; [discriminate|].
    exact IH.
Qed.

Lemma len_split (sep : ascii) (s : string) :
  len (split sep s) = 1 + Z.of_nat (count_char sep s).
Proof. unfold len. rewrite split_length. lia. Qed.

(** Both scripts carry the same [count_tokens]. *)
Lemma count_tokens_same (p : string) :
  CompareContext.count_tokens w p = MeasureContext.count_tokens w p.
Proof. reflexivity. Qed.

(** [count_tokens] returns on every path: its bare [except] leaves nothing
    to propagate. *)
Lemma count_tokens_returns (p : string) :
  exists m, MeasureContext.count_tokens w p = Ok m.
Proof.
  unfold MeasureContext.count_tokens, try_except, bind.
  destruct (open_read w p) as [content|e]; [|now eexists].
  destruct (enc_encode w content); now eexists.
Qed.

End Collector.

(** C2: a file that cannot be read as text measures as (0, 0), in both
    scripts, and the call returns normally whatever the exception was. *)
Theorem count_tokens_unreadable (w : world) (p : string) (e : exn) :
  open_read w p = Raise e ->
  MeasureContext.count_tokens w p = Ok (0, 0) /\
  CompareContext.count_tokens w p = Ok (0, 0).
Proof.
  intros H.
  unfold MeasureContext.count_tokens, CompareContext.count_tokens.
  rewrite H. split; reflexivity.
Qed.

Lemma count_tokens_unreadable_witness :
  open_read Sample.env ".claude/commands/tiki/research.md"
    = Raise FileNotFoundError /\
  MeasureContext.count_tokens Sample.env ".claude/commands/tiki/research.md"
    = Ok (0, 0) /\
  CompareContext.count_tokens Sample.env ".claude/commands/tiki/research.md"
    = Ok (0, 0).
Proof.
  split; [reflexivity|].
  apply (count_tokens_unreadable Sample.env _ FileNotFoundError).
  reflexivity.
Defined.

(** C9, as the code has it: for a readable file whose content the tokenizer
    encodes, the line count is 1 plus the number of newline characters, which
    is the number of segments of [content.split('\n')]; when the tokenizer
    raises on the content, the bare [except] turns the measurement into
    (0, 0). *)
Theorem count_tokens_lines (w : world) (p content : string) :
  open_read w p = Ok content ->
  (forall toks, enc_encode w content = Ok toks ->
     MeasureContext.count_tokens w p
       = Ok (len toks, 1 + Z.of_nat (count_char "010" content)) /\
     1 + Z.of_nat (count_char "010" content)
       = len (split "010" content)) /\
  (forall e, enc_encode w content = Raise e ->
     MeasureContext.count_tokens w p = Ok (0, 0)).
Proof.
  intros Hread. unfold MeasureContext.count_tokens. rewrite Hread. simpl.
  split.
  - intros toks Henc. rewrite Henc. simpl. now rewrite len_split.
  - intros e Henc. now rewrite Henc.
Qed.

Lemma count_tokens_lines_witness :
  open_read Sample.env "CLAUDE.md" = Ok ("# Project" ++ String "010" "") /\
  MeasureContext.count_tokens Sample.env "CLAUDE.md" = Ok (10, 2).
Proof.
  split; [reflexivity|].
  destruct (count_tokens_lines Sample.env "CLAUDE.md" _ eq_refl) as [H _].
  destruct (H (Sample.bpe ("# Project" ++ String "010" "")) eq_refl) as [H1 _].
  exact H1.
Defined.

(** C9 as stated fails: [debug.md] of the sample environment is readable,
    its content has one newline, so two segments, and it measures 0 lines,
    because the tokenizer rejects the special token it quotes. *)
Lemma count_tokens_lines_counterexample :
  let content := "never print <|endoftext|>" ++ String "010" "" in
  open_read Sample.env ".claude/commands/tiki/debug.md" = Ok content /\
  len (split "010" content) = 2 /\
  1 + Z.of_nat (count_char "010" content) = 2 /\
  MeasureContext.count_tokens Sample.env ".claude/commands/tiki/debug.md"
    = Ok (0, 0) /\
  ~ (forall (w : world) (p text : string),
       open_read w p = Ok text ->
       exists tokens,
         MeasureContext.count_tokens w p
         = Ok (tokens, 1 + Z.of_nat (count_char "010" text))).
Proof.
  repeat split; try reflexivity.
  intros H.
  destruct (H Sample.env ".claude/commands/tiki/debug.md" _ eq_refl)
    as [tokens Ht].
  vm_compute in Ht. discriminate Ht.
Qed.

(** ** The aggregate reporter *)


Lemma fold_left_add_total {A} (f : A -> Z) (l : list A) (a : Z) :
  fold_left Z.add (map f l) a = a + total_of f l.
Proof.
  revert a. induction l as [|x l IH]; intros a; simpl; [lia|].
  rewrite IH. lia.
Qed.

Lemma sum_map {A} (f : A -> Z) (l : list A) :
  sum (map f l) = total_of f l.
Proof. unfold sum. now rewrite fold_left_add_total. Qed.

Lemma dict_get_set {V} (d : dict V) (k k' : string) (v : V) :
  dict_get (dict_set d k v) k'
  = if String.eqb k k' then Some v else dict_get d k'.
Proof.
  induction d as [|[k0 v0] d IH]; simpl.
  - reflexivity.
  - destruct (String.eqb k0 k) eqn:E0; simpl.
    + apply String.eqb_eq in E0. subst k0.
      destruct (String.eqb k k'); reflexivity.
    + destruct (String.eqb k0 k') eqn:E1.
      * apply String.eqb_eq in E1. subst k0.
        rewrite String.eqb_sym in E0. now rewrite E0.
      * exact IH.
Qed.

Lemma dict_set_nonempty {V} (d : dict V) (k : string) (v : V) :
  dict_set d k v <> [].
Proof.
  destruct d as [|[k0 v0] d]; simpl; [discriminate|].
  destruct (String.eqb k0 k); discriminate.
Qed.

Section Reporter.

Variable w : world.


Lemma count_tokens_metric (p : string) :
  MeasureContext.count_tokens w p = Ok (metric w p).
Proof.
  unfold metric. destruct (count_tokens_returns w p) as [m ->]. reflexivity.
Qed.


Lemma measure_commands_step (results : dict MeasureContext.command_info)
    (name p : string) :
  ('(toks, lns) <- MeasureContext.count_tokens w p ;;
   q <- truediv toks 200000 ;;
   Ok (dict_set results name
         {| MeasureContext.path := p;
            MeasureContext.tokens := toks;
            MeasureContext.lines := lns;
            MeasureContext.pct_of_200k := round2 w (fmul_int q 100) |}))
  = Ok (dict_set results name (snd (command_entry w (name, p)))).
Proof.
  rewrite count_tokens_metric. unfold command_entry.
  destruct (metric w p) as [toks lns]. reflexivity.
Qed.

(** [measure_commands] always returns, with one entry per listed command,
    in the order of the list. *)
Lemma measure_commands_entries :
  MeasureContext.measure_commands w
  = Ok (map (command_entry w) MeasureContext.commands).
Proof.
  unfold MeasureContext.measure_commands, MeasureContext.commands.
  cbn [for_each].
  repeat (rewrite measure_commands_step; cbn [bind]).
  reflexivity.
Qed.

(** The part of a directory listing that [measure_dir] records. *)
Lemma measure_dir_nonempty (dir_path : string) (names : list string) :
  forall acc r,
    for_each names
      (fun dir_results filename =>
         if endswith filename ".md" then
           let filepath := path_join dir_path filename in
           '(toks, lns) <- MeasureContext.count_tokens w filepath ;;
           Ok (dict_set dir_results filename
                 {| MeasureContext.file_tokens := toks;
                    MeasureContext.file_lines := lns |})
         else Ok dir_results) acc = Ok r ->
    r <> [] ->
    acc <> [] \/ exists n, In n names /\ endswith n ".md" = true.
Proof.
  induction names as [|n names IH]; intros acc r H Hr; simpl in H.
  - left. now inversion H; subst.
  - destruct (endswith n ".md") eqn:E.
    + right. exists n. split; [now left|exact E].
    + simpl in H. destruct (IH _ _ H Hr) as [Hacc|[n' [Hin Hn']]].
      * now left.
      * right. exists n'. split; [now right|exact Hn'].
Qed.


Lemma measure_prompt_dirs_recorded (dirs : list string) :
  forall acc results,
    recorded w acc ->
    for_each dirs
      (fun results dir_path =>
         if path_exists w dir_path then
           names <- listdir w dir_path ;;
           dir_results <- MeasureContext.measure_dir w dir_path names ;;
           match dir_results with
           | [] => Ok results
           | _ :: _ => Ok (dict_set results dir_path dir_results)
           end
         else Ok results) acc = Ok results ->
    recorded w results.
Proof.
  induction dirs as [|d dirs IH]; intros acc results Hacc H; simpl in H.
  - now inversion H; subst.
  - destruct (path_exists w d) eqn:Hex; [|exact (IH _ _ Hacc H)].
    destruct (listdir w d) as [names|e] eqn:Hls; simpl in H; [|discriminate].
    destruct (MeasureContext.measure_dir w d names) as [dr|e] eqn:Hdir;
      simpl in H; [|discriminate].
    destruct dr as [|entry dr]; [exact (IH _ _ Hacc H)|].
    refine (IH _ _ _ H).
    intros d' entries Hget. rewrite dict_get_set in Hget.
    destruct (String.eqb d d') eqn:Ed.
    + apply String.eqb_eq in Ed. subst d'. injection Hget as <-.
      split; [discriminate|]. split; [exact Hex|].
      destruct (measure_dir_nonempty d names [] _ Hdir) as [Habs|[n [Hin Hn]]];
        [discriminate|congruence|].
      exists names, n. now repeat split.
    + exact (Hacc _ _ Hget).
Qed.

End Reporter.

(** C8: in every snapshot the reporter builds, the totals are the sums of
    the token counts and of the line counts of its [commands] entries, which
    are the measurements of the six listed command files; nothing of
    [prompt_files] enters them. *)
Theorem snapshot_totals (w : world) (data : MeasureContext.snapshot) :
  MeasureContext.build_data w = Ok data ->
  MeasureContext.all_large_commands_tokens (MeasureContext.snap_totals data)
    = total_of MeasureContext.tokens
        (values (MeasureContext.snap_commands data)) /\
  MeasureContext.all_large_commands_lines (MeasureContext.snap_totals data)
    = total_of MeasureContext.lines
        (values (MeasureContext.snap_commands data)) /\
  MeasureContext.snap_commands data
    = map (command_entry w) MeasureContext.commands.
Proof.
  unfold MeasureContext.build_data.
  pose proof (measure_commands_entries w) as Hc.
  destruct (MeasureContext.measure_commands w) as [cmds|];
    cbn [bind]; [|discriminate].
  assert (Hcmds : cmds = map (command_entry w) MeasureContext.commands)
    by congruence.
  clear Hc.
  destruct (MeasureContext.measure_execute_invocation w);
    cbn [bind]; [|discriminate].
  destruct (MeasureContext.measure_prompt_files w);
    cbn [bind]; [|discriminate].
  intros H. inversion H; subst data; clear H.
  cbn [MeasureContext.snap_totals MeasureContext.snap_commands
       MeasureContext.all_large_commands_tokens
       MeasureContext.all_large_commands_lines].
  rewrite !sum_map. repeat split. exact Hcmds.
Qed.


Lemma snapshot_totals_witness :
  MeasureContext.build_data Sample.env = Ok sample_snapshot /\
  map (fun e => (fst e, values (snd e)))
      (MeasureContext.prompt_files sample_snapshot)
    = [(".tiki/prompts/execute",
        [{| MeasureContext.file_tokens := 6;
            MeasureContext.file_lines := 2 |}])] /\
  MeasureContext.all_large_commands_tokens
    (MeasureContext.snap_totals sample_snapshot) = 29 /\
  total_of MeasureContext.tokens
    (values (MeasureContext.snap_commands sample_snapshot)) = 29.
Proof.
  assert (H : MeasureContext.build_data Sample.env = Ok sample_snapshot)
    by (vm_compute; reflexivity).
  split; [exact H|]. split; [vm_compute; reflexivity|].
  destruct (snapshot_totals Sample.env sample_snapshot H) as [Ht _].
  split; [vm_compute; reflexivity|].
  rewrite <- Ht. vm_compute. reflexivity.
Defined.

(** C10: every key of [prompt_files] maps to at least one file entry, and a
    directory that exists but lists no name ending in [.md] is not a key. *)
Theorem prompt_files_keys (w : world)
    (results : dict (dict MeasureContext.file_info)) :
  MeasureContext.measure_prompt_files w = Ok results ->
  (forall d entries, dict_get results d = Some entries -> entries <> []) /\
  (forall d names,
     In d MeasureContext.prompt_dirs ->
     path_exists w d = true ->
     listdir w d = Ok names ->
     (forall n, In n names -> endswith n ".md" = false) ->
     dict_get results d = None).
Proof.
  intros H.
  assert (Hrec : recorded w results).
  { refine (measure_prompt_dirs_recorded w _ [] results _ H).
    intros d entries Hget. discriminate. }
  split.
  - intros d entries Hget. exact (proj1 (Hrec _ _ Hget)).
  - intros d names _ _ Hls Hnone.
    destruct (dict_get results d) as [entries|] eqn:Hget; [|reflexivity].
    destruct (Hrec _ _ Hget) as [_ [_ [names' [n [Hls' [Hin Hn]]]]]].
    rewrite Hls in Hls'. injection Hls' as <-.
    rewrite (Hnone _ Hin) in Hn. discriminate.
Qed.

Lemma prompt_files_keys_witness :
  MeasureContext.measure_prompt_files Sample.env
    = Ok (MeasureContext.prompt_files sample_snapshot) /\
  In ".tiki/prompts/plan" MeasureContext.prompt_dirs /\
  path_exists Sample.env ".tiki/prompts/plan" = true /\
  listdir Sample.env ".tiki/prompts/plan" = Ok ["README.txt"] /\
  dict_get (MeasureContext.prompt_files sample_snapshot) ".tiki/prompts/plan"
    = None /\
  dict_get (MeasureContext.prompt_files sample_snapshot)
    ".tiki/prompts/execute"
    = Some [("phase.md", {| MeasureContext.file_tokens := 6;
                            MeasureContext.file_lines := 2 |})].
Proof.
  assert (H : MeasureContext.measure_prompt_files Sample.env
              = Ok (MeasureContext.prompt_files sample_snapshot))
    by (vm_compute; reflexivity).
  assert (Hin : In ".tiki/prompts/plan" MeasureContext.prompt_dirs)
    by (simpl; tauto).
  split; [exact H|]. split; [exact Hin|].
  split; [reflexivity|]. split; [reflexivity|].
  split; [|vm_compute; reflexivity].
  destruct (prompt_files_keys Sample.env _ H) as [_ Habsent].
  apply (Habsent ".tiki/prompts/plan" ["README.txt"] Hin);
    [reflexivity|reflexivity|].
  intros n [<-|[]]. reflexivity.
Defined.

(** ** The comparator *)

Import CompareContext.

Lemma iobind_fst {O A B} (m : io O A) (k : A -> io O B) :
  fst (iobind m k)
  = (fst m ++ match snd m with Ok a => fst (k a) | Raise _ => [] end)%list.
Proof.
  unfold iobind. destruct (snd m); simpl; [reflexivity|].
  now rewrite app_nil_r.
Qed.

Lemma iobind_snd {O A B} (m : io O A) (k : A -> io O B) :
  snd (iobind m k)
  = match snd m with Ok a => snd (k a) | Raise e => Raise e end.
Proof. unfold iobind. destruct (snd m); reflexivity. Qed.


Lemma rows_of_app (out out' : list line) :
  rows_of (out ++ out') = (rows_of out ++ rows_of out')%list.
Proof.
  induction out as [|l out IH]; simpl; [reflexivity|].
  destruct l; simpl; now rewrite ?IH.
Qed.

Lemma totals_of_app (out out' : list line) :
  totals_of (out ++ out') = (totals_of out ++ totals_of out')%list.
Proof.
  induction out as [|l out IH]; simpl; [reflexivity|].
  destruct l; simpl; now rewrite ?IH.
Qed.

Lemma rows_of_map_Row (rows : list delta_row) : rows_of (map Row rows) = rows.
Proof. induction rows as [|r rows IH]; simpl; now rewrite ?IH. Qed.

Lemma totals_of_map_Row (rows : list delta_row) :
  totals_of (map Row rows) = [].
Proof. induction rows as [|r rows IH]; simpl; now rewrite ?IH. Qed.


Section Table.

Variable b : baseline.

Lemma table_step_present (cmds : dict (dict Z)) (totals : Z * Z)
    (item : string * current_info) :
  base_commands b = Some cmds ->
  table_step b totals item
  = ([Row (compare_row cmds (fst item) (snd item))],
     Ok (fst totals + baseline_tokens (compare_row cmds (fst item) (snd item)),
         snd totals + current_tokens (compare_row cmds (fst item) (snd item)))).
Proof.
  intros Hc. destruct totals as [tb tc], item as [name curr].
  unfold table_step. rewrite Hc. reflexivity.
Qed.

Lemma command_table_from (cmds : dict (dict Z)) :
  base_commands b = Some cmds ->
  forall current totals,
    for_io current (table_step b) totals
    = (map Row (table_rows cmds current),
       Ok (fst totals + total_of baseline_tokens (table_rows cmds current),
           snd totals + total_of current_tokens (table_rows cmds current))).
Proof.
  intros Hc current.
  induction current as [|item current IH]; intros totals.
  - destruct totals as [tb tc]. simpl. unfold ret. now rewrite !Z.add_0_r.
  - cbn [for_io]. rewrite (table_step_present cmds _ _ Hc).
    unfold iobind. cbn [fst snd]. rewrite IH. cbn [fst snd app map table_rows].
    unfold total_of. cbn [fold_right]. fold (table_rows cmds current).
    now rewrite !Z.add_assoc.
Qed.

(** With ['commands'] in the baseline the loop never raises, whatever names
    the baseline lacks. *)
Lemma command_table_present (cmds : dict (dict Z))
    (current : dict current_info) :
  base_commands b = Some cmds ->
  command_table b current
  = (map Row (table_rows cmds current),
     Ok (total_of baseline_tokens (table_rows cmds current),
         total_of current_tokens (table_rows cmds current))).
Proof.
  intros Hc. unfold command_table.
  rewrite (command_table_from cmds Hc). reflexivity.
Qed.

Lemma command_table_absent (current : dict current_info) :
  base_commands b = None ->
  rows_of (fst (command_table b current)) = [] /\
  totals_of (fst (command_table b current)) = [].
Proof.
  intros Hc. unfold command_table.
  destruct current as [|[name curr] current]; [split; reflexivity|].
  cbn [for_io]. unfold table_step. rewrite Hc. split; reflexivity.
Qed.

End Table.

(** A name the baseline lacks gives a row with 0 baseline tokens. *)
Lemma compare_row_missing (cmds : dict (dict Z)) (name : string)
    (curr : current_info) :
  dict_get cmds name = None ->
  baseline_tokens (compare_row cmds name curr) = 0.
Proof. intros H. unfold compare_row, get. simpl. now rewrite H. Qed.

(** Neither the prompt-file block nor the savings block prints a row or a
    total. *)
Lemma prompt_lines (fs : list prompt_file) :
  for_io fs
    (fun (_ : unit) f =>
       print (PromptFile (file_path f) (file_lines f) (file_tokens f))) tt
  = (map (fun f => PromptFile (file_path f) (file_lines f) (file_tokens f)) fs,
     Ok tt).
Proof.
  induction fs as [|f fs IH]; [reflexivity|].
  cbn [for_io]. unfold iobind. cbn [print fst snd]. rewrite IH. reflexivity.
Qed.

Lemma prompt_lines_plain (fs : list prompt_file) :
  rows_of
    (map (fun f => PromptFile (file_path f) (file_lines f) (file_tokens f)) fs)
    = [] /\
  totals_of
    (map (fun f => PromptFile (file_path f) (file_lines f) (file_tokens f)) fs)
    = [].
Proof. induction fs as [|f fs [IH1 IH2]]; split; simpl; auto. Qed.

Lemma prompt_table_plain (prompts : prompt_report) :
  rows_of (fst (prompt_table prompts)) = [] /\
  totals_of (fst (prompt_table prompts)) = [].
Proof.
  unfold prompt_table. destruct (files prompts) as [|f fs];
    [split; reflexivity|].
  cbn [iobind print fst snd app]. rewrite prompt_lines.
  cbn [iobind print fst snd app rows_of totals_of].
  rewrite rows_of_app, totals_of_app.
  destruct (prompt_lines_plain (f :: fs)) as [-> ->]. split; reflexivity.
Qed.

Lemma effective_savings_plain (b : baseline) (current : dict current_info) :
  rows_of (fst (effective_savings b current)) = [] /\
  totals_of (fst (effective_savings b current)) = [].
Proof.
  unfold effective_savings.
  destruct (base_commands b) as [cmds|]; [|split; reflexivity].
  cbn [field lift iobind fst snd app].
  destruct (getitem cmds "execute.md") as [entry|]; [|split; reflexivity].
  cbn [field lift iobind fst snd app].
  destruct (getitem entry "tokens") as [exec_baseline|]; [|split; reflexivity].
  cbn [field lift iobind fst snd app].
  destruct (getitem current "execute.md") as [centry|]; [|split; reflexivity].
  cbn [field lift iobind fst snd app print].
  destruct (truediv _ _); split; reflexivity.
Qed.

Lemma tail_plain (prompts : prompt_report) (b : baseline)
    (current : dict current_info) :
  rows_of (fst (prompt_table prompts >> effective_savings b current)) = [] /\
  totals_of (fst (prompt_table prompts >> effective_savings b current)) = [].
Proof.
  rewrite iobind_fst, rows_of_app, totals_of_app.
  destruct (prompt_table_plain prompts) as [-> ->].
  destruct (snd (prompt_table prompts)); [|split; reflexivity].
  exact (effective_savings_plain b current).
Qed.

(** The rows and the total of a whole run: none of either, or the table of
    the current measurements against the baseline's ['commands'] and the one
    total line under it. *)
Lemma main_table (w : world) :
  (rows_of (fst (main w)) = [] /\ totals_of (fst (main w)) = []) \/
  exists cmds current,
    rows_of (fst (main w)) = table_rows cmds current /\
    totals_of (fst (main w))
    = [(total_of baseline_tokens (table_rows cmds current),
        total_of current_tokens (table_rows cmds current))].
Proof.
  unfold main, load_baseline.
  destruct (open_json_load w baseline_path) as [[|b]|e].
  - left. split; reflexivity.
  - cbn [ret iobind fst snd app].
    destruct (measure_current w) as [current|]; [|left; split; reflexivity].
    cbn [lift ret iobind fst snd app].
    destruct (measure_prompt_files w) as [prompts|];
      [|left; split; reflexivity].
    cbn [lift ret iobind fst snd app print].
    destruct (base_timestamp b) as [ts|]; [|left; split; reflexivity].
    cbn [field lift ret iobind fst snd app print].
    destruct (tail_plain prompts b current) as [Hrows Htotals].
    destruct (base_commands b) as [cmds|] eqn:Hc.
    + right. exists cmds, current.
      rewrite (command_table_present b cmds current Hc).
      cbn [field lift ret iobind fst snd app print rows_of totals_of].
      rewrite rows_of_app, totals_of_app.
      rewrite rows_of_map_Row, totals_of_map_Row.
      cbn [rows_of totals_of app]. rewrite Hrows, Htotals.
      split; [now rewrite app_nil_r|reflexivity].
    + destruct current as [|[name curr] current].
      * right. exists [], [].
        cbn [command_table for_io ret iobind fst snd app print rows_of
             totals_of table_rows map total_of fold_right].
        rewrite Hrows, Htotals. split; reflexivity.
      * left. unfold command_table. cbn [for_io]. unfold table_step.
        rewrite Hc. split; reflexivity.
  - left. destruct e; split; reflexivity.
Qed.

Lemma In_Row_rows_of (r : delta_row) (out : list line) :
  In (Row r) out -> In r (rows_of out).
Proof.
  induction out as [|l out IH]; simpl; [tauto|].
  intros [->|H]; [now left|].
  destruct l; simpl; auto.
Qed.

Lemma In_Total_totals_of (tb tc ch : Z) (pct : num) (out : list line) :
  In (Total tb tc ch pct) out -> In (tb, tc) (totals_of out).
Proof.
  induction out as [|l out IH]; simpl; [tauto|].
  intros [->|H]; [now left|].
  destruct l; simpl; auto.
Qed.

(** A run against a baseline that lacks [execute.md] stops at line 144. *)
Lemma effective_savings_missing (b : baseline) (cmds : dict (dict Z))
    (current : dict current_info) :
  base_commands b = Some cmds ->
  dict_get cmds "execute.md" = None ->
  effective_savings b current = ([], Raise (KeyError "execute.md")).
Proof.
  intros Hc Hget. unfold effective_savings, getitem.
  rewrite Hc. cbn [field lift iobind fst snd]. now rewrite Hget.
Qed.

(** C1: the run against the sample baseline that lacks [execute.md].  The
    loop gives the missing command a row with 0 baseline tokens and goes on
    to the total line; the lookup of line 144 then raises [KeyError]. *)
Theorem main_missing_execute :
  dict_get [("plan-issue.md", [("tokens", 6); ("lines", 1)])] "execute.md"
    = None /\
  hd_error (rows_of (fst (main Sample.drifted)))
    = Some {| row_name := "execute.md";
              baseline_tokens := 0;
              current_tokens := 23;
              change := 23;
              pct_change := Int 0;
              row_indicator := Regressed |} /\
  totals_of (fst (main Sample.drifted)) = [(6, 29)] /\
  snd (main Sample.drifted) = Raise (KeyError "execute.md").
Proof. repeat split; vm_compute; reflexivity. Qed.

(** C3, as the code has it: in every row of a run, the change is current
    minus baseline; the percentage is [change / baseline * 100] when the
    baseline count is positive, and the integer 0 when it is 0 or negative,
    whatever the current count. *)
Theorem pct_change_rule (w : world) (r : delta_row) :
  In (Row r) (fst (main w)) ->
  change r = current_tokens r - baseline_tokens r /\
  (0 < baseline_tokens r ->
   pct_change r
   = Float (fmul_int
              (fdiv_int (current_tokens r - baseline_tokens r)
                        (baseline_tokens r))
              100)) /\
  (baseline_tokens r <= 0 -> pct_change r = Int 0).
Proof.
  intros Hin. apply In_Row_rows_of in Hin.
  destruct (main_table w) as [[Hrows _]|[cmds [current [Hrows _]]]];
    rewrite Hrows in Hin; [destruct Hin|].
  unfold table_rows in Hin. apply in_map_iff in Hin.
  destruct Hin as [[name curr] [<- _]].
  cbn [fst snd] in *. unfold compare_row in *.
  cbn [baseline_tokens current_tokens change pct_change] in *.
  split; [reflexivity|]. unfold percent.
  destruct (Z.gtb_spec (get (get cmds name []) "tokens" 0) 0) as [Hgt|Hle];
    split; intros Hb; try reflexivity; lia.
Qed.

Lemma pct_change_rule_witness :
  let r := {| row_name := "execute.md";
              baseline_tokens := 40;
              current_tokens := 23;
              change := -17;
              pct_change := Float (fmul_int (fdiv_int (-17) 40) 100);
              row_indicator := Improved |} in
  In (Row r) (fst (main Sample.env)) /\
  0 < baseline_tokens r /\
  change r = current_tokens r - baseline_tokens r /\
  pct_change r = Float (fmul_int (fdiv_int (23 - 40) 40) 100) /\
  fixed1 (fmul_int (fdiv_int (23 - 40) 40) 100) = Some (-425).
Proof.
  intros r.
  assert (Hin : In (Row r) (fst (main Sample.env))).
  { do 10 right. left. vm_compute. reflexivity. }
  assert (Hpos : 0 < baseline_tokens r) by (simpl; lia).
  destruct (pct_change_rule Sample.env r Hin) as [Hch [Hpct _]].
  split; [exact Hin|]. split; [exact Hpos|]. split; [exact Hch|].
  split; [exact (Hpct Hpos)|vm_compute; reflexivity].
Defined.

(** C3 as stated fails on a negative baseline count.  With -5 tokens for
    [execute.md] in the baseline and 23 now, the row is printed with a
    baseline count that is not 0 and the percentage 0, where the claim has
    [(23 - -5) / -5 * 100]: line 122 tests [base_tokens > 0], not
    [base_tokens != 0]. *)
Lemma pct_change_rule_counterexample :
  let w := Scenario.holding (Ok (Baseline Scenario.negative)) in
  let r := {| row_name := "execute.md";
              baseline_tokens := -5;
              current_tokens := 23;
              change := 28;
              pct_change := Int 0;
              row_indicator := Regressed |} in
  open_json_load w baseline_path = Ok (Baseline Scenario.negative) /\
  In (Row r) (fst (main w)) /\
  baseline_tokens r <> 0 /\
  pct_change r
  <> Float (fmul_int
              (fdiv_int (current_tokens r - baseline_tokens r)
                        (baseline_tokens r))
              100) /\
  ~ (forall (w : world) (r : delta_row),
       In (Row r) (fst (main w)) ->
       baseline_tokens r <> 0 ->
       pct_change r
       = Float (fmul_int
                  (fdiv_int (current_tokens r - baseline_tokens r)
                            (baseline_tokens r))
                  100)).
Proof.
  intros w r.
  assert (Hin : In (Row r) (fst (main w))).
  { do 10 right. left. vm_compute. reflexivity. }
  split; [reflexivity|]. split; [exact Hin|].
  split; [discriminate|]. split; [discriminate|].
  intros H.
  assert (E : pct_change r
              = Float (fmul_int
                         (fdiv_int (current_tokens r - baseline_tokens r)
                                   (baseline_tokens r))
                         100))
    by (apply (H w r Hin); discriminate).
  discriminate E.
Qed.

(** C7: the total line of a run carries the sum of the baseline counts and
    the sum of the current counts of the rows printed above it. *)
Theorem total_row_sums (w : world) (total_baseline total_current total_change : Z)
    (total_pct : num) :
  In (Total total_baseline total_current total_change total_pct)
     (fst (main w)) ->
  total_baseline = total_of baseline_tokens (rows_of (fst (main w))) /\
  total_current = total_of current_tokens (rows_of (fst (main w))).
Proof.
  intros Hin. apply In_Total_totals_of in Hin.
  destruct (main_table w) as [[_ Htotals]|[cmds [current [Hrows Htotals]]]];
    rewrite Htotals in Hin; [destruct Hin|].
  destruct Hin as [Heq|[]]. rewrite Hrows.
  injection Heq as <- <-. split; reflexivity.
Qed.

Lemma total_row_sums_witness :
  In (Total 46 29 (-17) (Float (fmul_int (fdiv_int (-17) 46) 100)))
     (fst (main Sample.env)) /\
  map baseline_tokens (rows_of (fst (main Sample.env))) = [40; 6; 0; 0; 0; 0] /\
  map current_tokens (rows_of (fst (main Sample.env))) = [23; 6; 0; 0; 0; 0] /\
  46 = total_of baseline_tokens (rows_of (fst (main Sample.env))) /\
  29 = total_of current_tokens (rows_of (fst (main Sample.env))).
Proof.
  assert (Hin : In (Total 46 29 (-17) (Float (fmul_int (fdiv_int (-17) 46) 100)))
                   (fst (main Sample.env))).
  { do 17 right. left. vm_compute. reflexivity. }
  split; [exact Hin|].
  split; [vm_compute; reflexivity|]. split; [vm_compute; reflexivity|].
  exact (total_row_sums Sample.env _ _ _ _ Hin).
Defined.

(** C5: with no baseline file, [load_baseline] prints the two lines of
    guidance and returns [None] instead of raising, and [main] returns at
    once: nothing else is printed, nothing is measured or compared. *)
Theorem main_without_baseline (w : world) :
  open_json_load w baseline_path = Raise FileNotFoundError ->
  load_baseline w = (guidance, Ok None) /\
  main w = (guidance, Ok tt) /\
  rows_of (fst (main w)) = [] /\
  totals_of (fst (main w)) = [].
Proof.
  intros H. unfold main, load_baseline. rewrite H.
  repeat split; reflexivity.
Qed.

Lemma main_without_baseline_witness :
  open_json_load Sample.fresh baseline_path = Raise FileNotFoundError /\
  load_baseline Sample.fresh = (guidance, Ok None) /\
  main Sample.fresh = (guidance, Ok tt).
Proof.
  split; [reflexivity|].
  destruct (main_without_baseline Sample.fresh eq_refl) as [H1 [H2 _]].
  split; assumption.
Defined.

(** C6: with [execute.md] at 10000 tokens in the baseline and at 7000 now,
    the savings block prints before = 16115, after = 13115, 3000 tokens
    saved, and a reduction of [3000 / 16115 * 100], which shows as 18.6. *)
Theorem effective_savings_scenario (b : baseline) (current : dict current_info)
    (cmds : dict (dict Z)) (entry : dict Z) (centry : current_info) :
  base_commands b = Some cmds ->
  dict_get cmds "execute.md" = Some entry ->
  dict_get entry "tokens" = Some 10000 ->
  dict_get current "execute.md" = Some centry ->
  tokens centry = 7000 ->
  effective_savings b current
  = ([Text "EFFECTIVE SAVINGS FOR /tiki:execute";
      Rule "-";
      Header ["Metric"; "Before"; "After"];
      Rule "-";
      MainContext 16115 13115;
      Remaining 183885 186885;
      Rule "-";
      TokensSaved 3000;
      Reduction (fmul_int (fdiv_int 3000 16115) 100);
      Blank;
      Verdict Improved;
      Blank;
      Rule "="],
     Ok tt) /\
  3000 + 10000 + 1115 + 1500 + 500 = 16115 /\
  3000 + 7000 + 1115 + 1500 + 500 = 13115 /\
  Prim2SF (fmul_int (fdiv_int 3000 16115) 100)
    = S754_finite false 5239993361042309 (-48) /\
  fixed1 (fmul_int (fdiv_int 3000 16115) 100) = Some 186.
Proof.
  intros Hc He Ht Hcur Htok.
  split; [|repeat split; vm_compute; reflexivity].
  unfold effective_savings, getitem.
  rewrite Hc. cbn [field lift iobind fst snd app]. rewrite He.
  cbn [field lift iobind fst snd app]. rewrite Ht.
  cbn [field lift iobind fst snd app]. rewrite Hcur.
  cbn [field lift iobind fst snd app print]. rewrite Htok.
  reflexivity.
Qed.

Lemma effective_savings_scenario_witness :
  let b := {| base_timestamp := Some "2025-01-15T09:30:00.000000";
              base_commands := Some [("execute.md", [("tokens", 10000)])] |} in
  let current := [("execute.md", {| tokens := 7000; lines := 400 |})] in
  In (MainContext 16115 13115) (fst (effective_savings b current)) /\
  In (TokensSaved 3000) (fst (effective_savings b current)) /\
  fixed1 (fmul_int (fdiv_int 3000 16115) 100) = Some 186.
Proof.
  intros b current.
  destruct (effective_savings_scenario b current
              [("execute.md", [("tokens", 10000)])] [("tokens", 10000)]
              {| tokens := 7000; lines := 400 |}
              eq_refl eq_refl eq_refl eq_refl eq_refl)
    as [Hrun [_ [_ [_ Hshown]]]].
  rewrite Hrun. split; [simpl; tauto|]. split; [simpl; tauto|exact Hshown].
Defined.


(** ** The [json] round trip *)

Import Json.

Section JsonFacts.

Local Open Scope N_scope.
Local Open Scope list_scope.

Ltac cmp :=
  repeat match goal with
  | |- context [N.eqb ?a ?b] => destruct (N.eqb_spec a b)
  | |- context [N.leb ?a ?b] => destruct (N.leb_spec a b)
  | |- context [N.ltb ?a ?b] => destruct (N.ltb_spec a b)
  end.

Lemma hex_value_digit (d : N) : d < 16 -> hex_value (hex_digit d) = Some d.
Proof.
  intros H. unfold hex_value, hex_digit, is_digit.
  cmp; cbn [andb orb]; try lia; f_equal; lia.
Qed.

Lemma decode_hex4 (n : N) :
  n < 65536 ->
  decode_uXXXX (hex_digit (n / 4096 mod 16)) (hex_digit (n / 256 mod 16))
               (hex_digit (n / 16 mod 16)) (hex_digit (n mod 16)) = Some n.
Proof.
  intros H. unfold decode_uXXXX.
  rewrite !hex_value_digit by (apply N.mod_lt; lia).
  f_equal.
  pose proof (N.div_mod n 16) as H0.
  pose proof (N.div_mod (n / 16) 16) as H1.
  pose proof (N.div_mod (n / 256) 16) as H2.
  rewrite N.Div0.div_div in H1, H2 by lia. change (16 * 16) with 256 in H1.
  change (256 * 16) with 4096 in H2.
  assert (H3 : n / 4096 mod 16 = n / 4096).
  { apply N.mod_small. apply N.Div0.div_lt_upper_bound; lia. }
  rewrite H3. lia.
Qed.


Lemma scanstring_plain (c : N) (t : pystr) :
  32 <= c -> c <> ord "034" -> c <> ord "\" ->
  scanstring (c :: t) = push c (scanstring t).
Proof.
  intros H1 H2 H3. cbn [scanstring].
  destruct (N.eqb_spec c (ord "034")); [contradiction|].
  destruct (N.eqb_spec c (ord "\")); [contradiction|].
  destruct (N.ltb_spec c 32); [lia|]. reflexivity.
Qed.

Lemma scanstring_u_escape (n : N) (t : pystr) :
  n < 65536 -> ~ (55296 <= n <= 56319) ->
  scanstring (u_escape n ++ t) = push n (scanstring t).
Proof.
  intros H1 H2. unfold u_escape, hex4. cbn [app scanstring].
  change (ord "\" =? ord "034") with false.
  change (ord "\" =? ord "\") with true.
  change (ord "u" =? ord "u") with true. cbv iota.
  rewrite decode_hex4 by assumption.
  destruct (N.leb_spec 55296 n); destruct (N.leb_spec n 56319);
    cbn [andb]; try reflexivity. lia.
Qed.

Lemma lor_shiftl (a b k : N) :
  b < 2 ^ k -> N.lor (N.shiftl a k) b = N.shiftl a k + b.
Proof.
  intros Hb.
  assert (Hland : N.land (N.shiftl a k) b = 0).
  { apply N.bits_inj_0. intros m. rewrite N.land_spec.
    destruct (N.lt_ge_cases m k) as [Hm|Hm].
    - now rewrite N.shiftl_spec_low.
    - rewrite <- (N.mod_small b (2 ^ k)) by assumption.
      rewrite N.mod_pow2_bits_high by assumption. apply andb_false_r. }
  rewrite N.add_nocarry_lxor by assumption.
  symmetry. now apply N.lxor_lor.
Qed.

Lemma surrogate_high (n : N) :
  n < 1048576 ->
  N.lor 55296 (N.land (N.shiftr n 10) 1023) = 55296 + n / 1024.
Proof.
  intros H. change 1023 with (N.ones 10). rewrite N.land_ones.
  rewrite N.shiftr_div_pow2. change (2 ^ 10) with 1024.
  rewrite N.mod_small by (apply N.Div0.div_lt_upper_bound; lia).
  change 55296 with (N.shiftl 54 10). apply lor_shiftl.
  change (2 ^ 10) with 1024. apply N.Div0.div_lt_upper_bound; lia.
Qed.

Lemma surrogate_low (n : N) :
  N.lor 56320 (N.land n 1023) = 56320 + n mod 1024.
Proof.
  change 1023 with (N.ones 10). rewrite N.land_ones.
  change 56320 with (N.shiftl 55 10). apply lor_shiftl.
  apply N.mod_lt. discriminate.
Qed.

Lemma surrogate_join (n : N) :
  N.lor (N.shiftl (n / 1024) 10) (n mod 1024) = n.
Proof.
  rewrite lor_shiftl by (apply N.mod_lt; discriminate).
  rewrite N.shiftl_mul_pow2. change (2 ^ 10) with 1024.
  pose proof (N.div_mod n 1024). lia.
Qed.

Lemma scanstring_pair (c : N) (t : pystr) :
  65536 <= c -> c < 1114112 ->
  scanstring
    (u_escape (N.lor 55296 (N.land (N.shiftr (c - 65536) 10) 1023)) ++
     u_escape (N.lor 56320 (N.land (c - 65536) 1023)) ++ t)
  = push c (scanstring t).
Proof.
  intros H1 H2. rewrite surrogate_high by lia. rewrite surrogate_low.
  set (n := c - 65536).
  assert (Hc : c = 65536 + n) by lia.
  assert (Hn : n < 1048576) by lia. clearbody n.
  assert (Hhi : n / 1024 < 1024) by (apply N.Div0.div_lt_upper_bound; lia).
  assert (Hlo : n mod 1024 < 1024) by (apply N.mod_lt; discriminate).
  pose proof (surrogate_join n) as Hjoin.
  set (a := n / 1024) in *. set (b := n mod 1024) in *. clearbody a b.
  unfold u_escape, hex4. cbn [app scanstring].
  change (ord "\" =? ord "034") with false.
  change (ord "\" =? ord "\") with true.
  change (ord "u" =? ord "u") with true. cbv iota.
  rewrite decode_hex4 by lia.
  destruct (N.leb_spec 55296 (55296 + a)); [|lia].
  destruct (N.leb_spec (55296 + a) 56319); [|lia].
  cbn [andb]. rewrite decode_hex4 by lia.
  destruct (N.leb_spec 56320 (56320 + b)); [|lia].
  destruct (N.leb_spec (56320 + b) 57343); [|lia].
  cbn [andb].
  replace (55296 + a - 55296) with a by lia.
  replace (56320 + b - 56320) with b by lia.
  rewrite Hjoin, <- Hc. reflexivity.
Qed.

Lemma scanstring_escape_char (c : N) (t : pystr) :
  scalar c -> scanstring (escape_char c ++ t) = push c (scanstring t).
Proof.
  intros [Hmax Hhigh]. unfold escape_char.
  destruct (N.eqb_spec c (ord "\")) as [->|H1]; [reflexivity|].
  destruct (N.eqb_spec c (ord "034")) as [->|H2]; [reflexivity|].
  destruct (N.leb_spec 32 c) as [H3|H3];
    [destruct (N.leb_spec c 126) as [H4|H4]|]; cbn [andb].
  - now apply scanstring_plain.
  - destruct (N.eqb_spec c 8); [lia|]. destruct (N.eqb_spec c 12); [lia|].
    destruct (N.eqb_spec c 10); [lia|]. destruct (N.eqb_spec c 13); [lia|].
    destruct (N.eqb_spec c 9); [lia|].
    destruct (N.ltb_spec c 65536).
    + now apply scanstring_u_escape.
    + rewrite <- app_assoc. now apply scanstring_pair.
  - destruct (N.eqb_spec c 8) as [->|]; [reflexivity|].
    destruct (N.eqb_spec c 12) as [->|]; [reflexivity|].
    destruct (N.eqb_spec c 10) as [->|]; [reflexivity|].
    destruct (N.eqb_spec c 13) as [->|]; [reflexivity|].
    destruct (N.eqb_spec c 9) as [->|]; [reflexivity|].
    destruct (N.ltb_spec c 65536); [|lia].
    apply scanstring_u_escape; lia.
Qed.

Lemma scanstring_escaped (s rest : pystr) :
  Forall scalar s ->
  scanstring (flat_map escape_char s ++ ord "034" :: rest) = Ok (s, rest).
Proof.
  induction 1 as [|c s Hc Hs IH]; [reflexivity|].
  cbn [flat_map]. rewrite <- app_assoc.
  rewrite scanstring_escape_char by assumption. now rewrite IH.
Qed.


Lemma span_digits_app (d : Decimal.uint) (rest : pystr) :
  closes rest -> span_digits (digits_of d ++ rest) = (digits_of d, rest).
Proof.
  intros Hrest.
  induction d; cbn [digits_of app span_digits];
    try (change (is_digit _) with true; cbv iota; now rewrite IHd).
  destruct rest as [|c rest]; [reflexivity|].
  cbn [span_digits].
  destruct Hrest as [->| ->]; reflexivity.
Qed.

Lemma uint_of_digits (d : Decimal.uint) : uint_of (digits_of d) = d.
Proof. induction d; cbn [digits_of uint_of]; now rewrite ?IHd. Qed.

Lemma to_uint_unorm (p : positive) :
  Decimal.unorm (Pos.to_uint p) = Pos.to_uint p.
Proof.
  rewrite <- (DecimalPos.Unsigned.to_of (Pos.to_uint p)).
  now rewrite DecimalPos.Unsigned.of_to.
Qed.

Lemma to_uint_head (p : positive) :
  match Pos.to_uint p with
  | Decimal.Nil | Decimal.D0 _ => False
  | _ => True
  end.
Proof.
  pose proof (to_uint_unorm p) as Hn.
  pose proof (DecimalPos.Unsigned.to_uint_nonzero p) as Hz.
  destruct (Pos.to_uint p) as [|d| | | | | | | | |]; try exact I.
  - discriminate Hn.
  - rewrite DecimalFacts.unorm_D0 in Hn.
    assert (Hd : d <> Decimal.Nil) by (intros ->; now elim Hz).
    pose proof (DecimalFacts.nb_digits_unorm d Hd) as Hle.
    rewrite Hn in Hle. cbn [Decimal.nb_digits] in Hle. lia.
Qed.

Lemma span_digits_ext (s ds r rest : pystr) :
  span_digits s = (ds, r) -> closes rest ->
  span_digits (s ++ rest) = (ds, r ++ rest).
Proof.
  intros H Hrest. revert ds r H.
  induction s as [|c t IH]; intros ds r H; cbn [span_digits app] in *.
  - injection H as <- <-. destruct rest as [|c rest]; [reflexivity|].
    cbn [span_digits]. destruct Hrest as [->| ->]; reflexivity.
  - destruct (is_digit c).
    + destruct (span_digits t) as [ds' r'] eqn:E. injection H as <- <-.
      now rewrite (IH _ _ eq_refl).
    + now injection H as <- <-.
Qed.

Lemma match_integer_ext (s i r rest : pystr) :
  match_integer s = Some (i, r) -> closes rest ->
  match_integer (s ++ rest) = Some (i, r ++ rest).
Proof.
  intros H Hrest. unfold match_integer in *.
  destruct s as [|c t]; [discriminate|]. cbn [app].
  assert (Hdig : forall sign c t,
    match c :: t with
    | c :: t =>
        if c =? 48 then Some (sign ++ [c], t)
        else if is_digit c then
          let '(ds, r) := span_digits t in Some (sign ++ c :: ds, r)
        else None
    | [] => None
    end = Some (i, r) ->
    (if c =? 48 then Some (sign ++ [c], t ++ rest)
     else if is_digit c then
       let '(ds, r) := span_digits (t ++ rest) in Some (sign ++ c :: ds, r)
     else None) = Some (i, r ++ rest)).
  { intros sign c0 t0 H0. destruct (c0 =? 48).
    - now injection H0 as <- <-.
    - destruct (is_digit c0); [|discriminate].
      destruct (span_digits t0) as [ds r0] eqn:E. injection H0 as <- <-.
      now rewrite (span_digits_ext _ _ _ _ E Hrest). }
  destruct (c =? ord "-").
  - destruct t as [|c1 t1]; [discriminate|]. exact (Hdig [c] c1 t1 H).
  - exact (Hdig [] c t H).
Qed.

Lemma match_frac_ext (s fr r rest : pystr) :
  match_frac s = (fr, r) -> closes rest ->
  match_frac (s ++ rest) = (fr, r ++ rest).
Proof.
  intros H Hrest. unfold match_frac in *.
  destruct s as [|c t]; cbn [app].
  - injection H as <- <-. destruct rest as [|c rest]; [reflexivity|].
    destruct Hrest as [->| ->]; reflexivity.
  - destruct (c =? ord "."); [|now injection H as <- <-].
    destruct (span_digits t) as [ds r0] eqn:E.
    rewrite (span_digits_ext _ _ _ _ E Hrest).
    destruct ds; now injection H as <- <-.
Qed.

Lemma match_exp_ext (s ex r rest : pystr) :
  match_exp s = (ex, r) -> closes rest ->
  match_exp (s ++ rest) = (ex, r ++ rest).
Proof.
  intros H Hrest. unfold match_exp in *.
  destruct s as [|c t]; cbn [app].
  - injection H as <- <-. destruct rest as [|c rest]; [reflexivity|].
    destruct Hrest as [->| ->]; reflexivity.
  - destruct ((c =? ord "e") || (c =? ord "E")); [|now injection H as <- <-].
    destruct t as [|c1 t1]; cbn [app].
    + cbn [span_digits] in H. injection H as <- <-.
      destruct rest as [|c' rest]; [reflexivity|].
      destruct Hrest as [->| ->]; reflexivity.
    + destruct ((c1 =? ord "-") || (c1 =? ord "+")).
      * destruct (span_digits t1) as [ds r0] eqn:E.
        rewrite (span_digits_ext _ _ _ _ E Hrest).
        destruct ds; now injection H as <- <-.
      * destruct (span_digits (c1 :: t1)) as [ds r0] eqn:E.
        change (c1 :: t1 ++ rest) with ((c1 :: t1) ++ rest).
        rewrite (span_digits_ext _ _ _ _ E Hrest).
        destruct ds; now injection H as <- <-.
Qed.

Lemma match_number_ext (s i fr ex r rest : pystr) :
  match_number s = Some (i, fr, ex, r) -> closes rest ->
  match_number (s ++ rest) = Some (i, fr, ex, r ++ rest).
Proof.
  intros H Hrest. unfold match_number in *.
  destruct (match_integer s) as [[i0 r0]|] eqn:Ei; [|discriminate].
  rewrite (match_integer_ext _ _ _ _ Ei Hrest).
  destruct (match_frac r0) as [fr0 r1] eqn:Ef.
  rewrite (match_frac_ext _ _ _ _ Ef Hrest).
  destruct (match_exp r1) as [ex0 r2] eqn:Ee.
  rewrite (match_exp_ext _ _ _ _ Ee Hrest).
  now injection H as <- <- <- <-.
Qed.

Lemma span_digits_digits (d : Decimal.uint) :
  span_digits (digits_of d) = (digits_of d, []).
Proof.
  rewrite <- (app_nil_r (digits_of d)) at 1. now apply span_digits_app.
Qed.

Lemma span_digits_concat (s ds r : pystr) :
  span_digits s = (ds, r) -> s = ds ++ r.
Proof.
  revert ds r. induction s as [|c t IH]; intros ds r H; cbn [span_digits] in H.
  - now injection H as <- <-.
  - destruct (is_digit c); [|now injection H as <- <-].
    destruct (span_digits t) as [ds' r'] eqn:E. injection H as <- <-.
    cbn [app]. now rewrite <- (IH _ _ eq_refl).
Qed.

Lemma match_integer_concat (s i r : pystr) :
  match_integer s = Some (i, r) -> s = i ++ r.
Proof.
  unfold match_integer. intros H.
  assert (Hi : forall sign s0,
    match s0 with
    | c :: t =>
        if c =? 48 then Some (sign ++ [c], t)
        else if is_digit c then
          let '(ds, r) := span_digits t in Some (sign ++ c :: ds, r)
        else None
    | [] => None
    end = Some (i, r) -> sign ++ s0 = i ++ r).
  { intros sign [|c t] H0; [discriminate|].
    destruct (c =? 48).
    - injection H0 as <- <-. now rewrite <- app_assoc.
    - destruct (is_digit c); [|discriminate].
      destruct (span_digits t) as [ds r'] eqn:E. injection H0 as <- <-.
      rewrite <- app_assoc. cbn [app].
      now rewrite <- (span_digits_concat _ _ _ E). }
  destruct s as [|c t]; [discriminate|].
  destruct (c =? ord "-"); [exact (Hi [c] t H)|exact (Hi [] (c :: t) H)].
Qed.

Lemma match_frac_concat (s fr r : pystr) :
  match_frac s = (fr, r) -> s = fr ++ r.
Proof.
  unfold match_frac. intros H.
  destruct s as [|c t]; [now injection H as <- <-|].
  destruct (c =? ord "."); [|now injection H as <- <-].
  destruct (span_digits t) as [ds r'] eqn:E.
  destruct ds; injection H as <- <-; [reflexivity|].
  apply (span_digits_concat _ _ _) in E; cbn [app]; now rewrite E.
Qed.

Lemma match_exp_concat (s ex r : pystr) :
  match_exp s = (ex, r) -> s = ex ++ r.
Proof.
  unfold match_exp. intros H.
  destruct s as [|c t]; [now injection H as <- <-|].
  destruct ((c =? ord "e") || (c =? ord "E")); [|now injection H as <- <-].
  destruct t as [|c1 t1].
  - cbn [span_digits] in H. now injection H as <- <-.
  - destruct ((c1 =? ord "-") || (c1 =? ord "+")).
    + destruct (span_digits t1) as [ds r'] eqn:E.
      destruct ds; injection H as <- <-; [reflexivity|].
      apply (span_digits_concat _ _ _) in E; cbn [app]; now rewrite E.
    + destruct (span_digits (c1 :: t1)) as [ds r'] eqn:E.
      destruct ds; injection H as <- <-; [reflexivity|].
      apply (span_digits_concat _ _ _) in E; cbn [app]; now rewrite E.
Qed.

Lemma match_number_concat (s i fr ex r : pystr) :
  match_number s = Some (i, fr, ex, r) -> s = i ++ fr ++ ex ++ r.
Proof.
  unfold match_number. intros H.
  destruct (match_integer s) as [[i0 r0]|] eqn:Ei; [|discriminate].
  destruct (match_frac r0) as [fr0 r1] eqn:Ef.
  destruct (match_exp r1) as [ex0 r2] eqn:Ee.
  injection H as <- <- <- <-.
  rewrite (match_integer_concat _ _ _ Ei), (match_frac_concat _ _ _ Ef).
  now rewrite (match_exp_concat _ _ _ Ee).
Qed.

(** A text on which [NUMBER_RE] matches starts with a minus sign or a
    digit. *)
Lemma match_number_head (s i fr ex r : pystr) :
  match_number s = Some (i, fr, ex, r) ->
  exists c t, s = c :: t /\ (c = ord "-" \/ is_digit c = true).
Proof.
  unfold match_number, match_integer. intros H.
  destruct s as [|c t]; [discriminate|]. exists c, t. split; [reflexivity|].
  destruct (N.eqb_spec c (ord "-")); [now left|right].
  destruct (c =? 48) eqn:E0.
  - apply N.eqb_eq in E0. now subst c.
  - destruct (is_digit c); [reflexivity|discriminate].
Qed.

Lemma match_number_int (z : Z) :
  match_number (int_repr z) = Some (int_repr z, [], [], []).
Proof.
  assert (Hd : forall d sign,
    match d with Decimal.Nil | Decimal.D0 _ => False | _ => True end ->
    sign = [] \/ sign = [ord "-"] ->
    match_number (sign ++ digits_of d) = Some (sign ++ digits_of d, [], [], [])).
  { intros d sign Hhead Hsign. unfold match_number, match_integer.
    destruct d; try contradiction;
      destruct Hsign as [-> | ->]; cbn [app digits_of];
      cbv -[span_digits digits_of];
      rewrite (span_digits_digits d); reflexivity. }
  unfold int_repr. destruct z as [|p|p]; cbn [Z.to_int].
  - reflexivity.
  - apply (Hd _ []); [apply to_uint_head|now left].
  - apply (Hd _ [ord "-"]); [apply to_uint_head|now right].
Qed.

Lemma int_of_repr (z : Z) : int_of (int_repr z) = z.
Proof.
  rewrite <- (DecimalZ.of_to z) at 2.
  unfold int_repr, int_of. destruct z as [|p|p]; cbn [Z.to_int].
  - reflexivity.
  - pose proof (to_uint_head p) as Hhead.
    rewrite <- (uint_of_digits (Pos.to_uint p)) at 2.
    destruct (Pos.to_uint p); try contradiction; reflexivity.
  - change (ord "-" =? ord "-") with true. cbv iota.
    now rewrite uint_of_digits.
Qed.

Section Scalars.

Variable float_repr : float -> pystr.
Variable float_of_string : pystr -> float.

Lemma scan_scalar_number (s i fr ex r : pystr) :
  match_number s = Some (i, fr, ex, r) ->
  scan_scalar float_of_string s
  = match fr, ex with
    | [], [] => Ok (JInt (int_of i), r)
    | _, _ => Ok (JFloat (float_of_string (i ++ fr ++ ex)), r)
    end.
Proof.
  intros H. destruct (match_number_head _ _ _ _ _ H) as [c [t [-> Hc]]].
  unfold scan_scalar. rewrite H.
  assert (Hn : forall p pre, p <> ord "-" -> is_digit p = false ->
            starts_with (p :: pre) (c :: t) = false).
  { intros p pre Hp Hdp. cbn [starts_with].
    destruct (N.eqb_spec c p) as [->|]; [|reflexivity].
    destruct Hc; [contradiction|congruence]. }
  change (text "null") with (ord "n" :: text "ull").
  change (text "true") with (ord "t" :: text "rue").
  change (text "false") with (ord "f" :: text "alse").
  rewrite (Hn (ord "n")), (Hn (ord "t")), (Hn (ord "f"));
    try reflexivity; discriminate.
Qed.

Lemma scan_scalar_int (z : Z) (rest : pystr) :
  closes rest ->
  scan_scalar float_of_string (int_repr z ++ rest) = Ok (JInt z, rest).
Proof.
  intros Hrest.
  rewrite (scan_scalar_number _ _ _ _ _
             (match_number_ext _ _ _ _ _ _ (match_number_int z) Hrest)).
  now rewrite int_of_repr.
Qed.


Lemma scan_scalar_float (f : float) (rest : pystr) :
  float_ok float_repr float_of_string f -> closes rest ->
  scan_scalar float_of_string (floatstr float_repr f ++ rest)
  = Ok (JFloat f, rest).
Proof.
  intros [Hfin [Hlit Hback]] Hrest.
  unfold is_finite in Hfin. unfold floatstr.
  destruct (PrimFloat.is_nan f); [discriminate|].
  destruct (PrimFloat.eqb f PrimFloat.infinity); [discriminate|].
  destruct (PrimFloat.eqb f PrimFloat.neg_infinity); [discriminate|].
  unfold is_float_literal in Hlit.
  destruct (match_number (float_repr f)) as [[[[i fr] ex] r]|] eqn:E;
    [|discriminate].
  assert (Hr : r = []).
  { destruct fr, ex, r; try reflexivity; discriminate. }
  subst r.
  rewrite (scan_scalar_number _ _ _ _ _
             (match_number_ext _ _ _ _ _ _ E Hrest)).
  pose proof (match_number_concat _ _ _ _ _ E) as Hs.
  rewrite !app_nil_r in Hs. rewrite <- Hs, Hback.
  destruct fr, ex; try reflexivity. discriminate.
Qed.

End Scalars.

(** Induction on a value with the hypothesis on every item. *)
Lemma value_induction (P : value -> Prop) :
  P JNull ->
  (forall b, P (JBool b)) ->
  (forall z, P (JInt z)) ->
  (forall f, P (JFloat f)) ->
  (forall s, P (JStr s)) ->
  (forall items, Forall P items -> P (JArr items)) ->
  (forall pairs, Forall (fun kv => P (snd kv)) pairs -> P (JObj pairs)) ->
  forall v, P v.
Proof.
  intros Hnull Hbool Hint Hfloat Hstr Harr Hobj.
  fix IH 1. intros [|b|z|f|s|items|pairs].
  - exact Hnull.
  - apply Hbool.
  - apply Hint.
  - apply Hfloat.
  - apply Hstr.
  - apply Harr. induction items as [|x items IHitems]; constructor.
    + apply IH.
    + exact IHitems.
  - apply Hobj. induction pairs as [|[k x] pairs IHpairs]; constructor.
    + apply IH.
    + exact IHpairs.
Qed.

Lemma skip_ws_spaces (n : nat) (s : pystr) :
  skip_ws (repeat 32 n ++ s) = skip_ws s.
Proof. induction n as [|n IH]; [reflexivity|exact IH]. Qed.

Lemma skip_ws_newline_indent (level : nat) (s : pystr) :
  skip_ws (newline_indent level ++ s) = skip_ws s.
Proof. unfold newline_indent. cbn [app skip_ws is_ws]. apply skip_ws_spaces. Qed.


Lemma skip_ws_comma (t : pystr) : skip_ws (ord "," :: t) = ord "," :: t.
Proof. reflexivity. Qed.

Lemma skip_ws_colon (t : pystr) : skip_ws (ord ":" :: t) = ord ":" :: t.
Proof. reflexivity. Qed.

Lemma skip_ws_space (t : pystr) : skip_ws (ord " " :: t) = skip_ws t.
Proof. reflexivity. Qed.

Lemma skip_ws_opens (c : N) (t : pystr) :
  opens c = true -> skip_ws (c :: t) = c :: t.
Proof.
  intros H. cbn [skip_ws]. unfold opens, is_digit, is_ws in *.
  repeat match goal with
  | |- context [N.eqb c ?b] => destruct (N.eqb_spec c b); [subst c; try discriminate|]
  end; try reflexivity.
Qed.

Section Headers.

Variable float_repr : float -> pystr.
Variable float_of_string : pystr -> float.

Lemma int_repr_head (z : Z) :
  exists c t, int_repr z = c :: t /\ (c = ord "-" \/ is_digit c = true).
Proof. exact (match_number_head _ _ _ _ _ (match_number_int z)). Qed.

Lemma floatstr_head (f : float) :
  float_ok float_repr float_of_string f ->
  exists c t,
    floatstr float_repr f = c :: t /\ (c = ord "-" \/ is_digit c = true).
Proof.
  intros [Hfin [Hlit _]]. unfold floatstr. unfold is_finite in Hfin.
  destruct (PrimFloat.is_nan f); [discriminate|].
  destruct (PrimFloat.eqb f PrimFloat.infinity); [discriminate|].
  destruct (PrimFloat.eqb f PrimFloat.neg_infinity); [discriminate|].
  unfold is_float_literal in Hlit.
  destruct (match_number (float_repr f)) as [[[[i fr] ex] r]|] eqn:E;
    [|discriminate].
  exact (match_number_head _ _ _ _ _ E).
Qed.

Lemma number_opens (c : N) :
  c = ord "-" \/ is_digit c = true -> opens c = true.
Proof.
  unfold opens. intros [-> | ->]; [reflexivity|]. now rewrite !orb_true_r.
Qed.

Lemma encode_opens (v : value) (level : nat) :
  wf float_repr float_of_string v ->
  exists c t, encode float_repr level v = c :: t /\ opens c = true.
Proof.
  destruct v as [|[|]|z|f|s|[|x xs]|[|[k x] ps]]; intros Hwf;
    try (eexists; eexists; split; [reflexivity|reflexivity]).
  - destruct (int_repr_head z) as [c [t [E Hc]]].
    exists c, t. split; [exact E|now apply number_opens].
  - destruct (floatstr_head f Hwf) as [c [t [E Hc]]].
    exists c, t. split; [exact E|now apply number_opens].
Qed.

(** On a minus sign or a digit [_scan_once] goes to the number. *)
Lemma scan_once_number (fuel : nat) (c : N) (t : pystr) :
  c = ord "-" \/ is_digit c = true ->
  scan_once float_of_string (S fuel) (c :: t)
  = scan_scalar float_of_string (c :: t).
Proof.
  intros Hc. cbn [scan_once].
  assert (H : forall p, p <> ord "-" -> is_digit p = false -> (c =? p) = false).
  { intros p Hp Hd. destruct (N.eqb_spec c p) as [->|]; [|reflexivity].
    destruct Hc; [contradiction|congruence]. }
  rewrite !H; try reflexivity; discriminate.
Qed.

End Headers.

Section Trees.

Variable float_repr : float -> pystr.
Variable float_of_string : pystr -> float.

#[local] Abbreviation wf' := (wf float_repr float_of_string).
#[local] Abbreviation enc := (encode float_repr).
#[local] Abbreviation scan := (scan_once float_of_string).


Lemma encode_arr (level : nat) (x : value) (xs : list value) :
  enc level (JArr (x :: xs))
  = ord "[" :: newline_indent (S level) ++ enc (S level) x ++
    more_items float_repr (S level) xs ++ newline_indent level ++ [ord "]"].
Proof.
  cbn [encode]. do 3 f_equal. f_equal.
  induction xs as [|y xs IH]; [reflexivity|].
  rewrite IH. unfold more_items. cbn [flat_map app].
  now rewrite <- app_assoc.
Qed.

Lemma encode_obj (level : nat) (kv : pystr * value)
    (ps : list (pystr * value)) :
  enc level (JObj (kv :: ps))
  = ord "{" :: newline_indent (S level) ++ pair_text float_repr (S level) kv ++
    more_pairs float_repr (S level) ps ++ newline_indent level ++ [ord "}"].
Proof.
  destruct kv as [k x]. cbn [encode]. unfold pair_text. cbn [fst snd].
  assert (Hfix : forall l,
    (fix rest (l : list (pystr * value)) : pystr :=
       match l with
       | [] => []
       | (k', y) :: l' =>
           ord "," :: newline_indent (S level) ++
           encode_basestring_ascii k' ++
           ord ":" :: ord " " :: enc (S level) y ++ rest l'
       end) l = more_pairs float_repr (S level) l).
  { induction l as [|[k' y] l IH]; [reflexivity|].
    rewrite IH. unfold more_pairs, pair_text. cbn [flat_map app fst snd].
    rewrite <- !app_assoc. reflexivity. }
  rewrite Hfix, <- !app_assoc. reflexivity.
Qed.

Lemma wf_arr (items : list value) :
  wf' (JArr items) <-> Forall wf' items.
Proof.
  cbn [wf]. induction items as [|x items IH].
  - split; [constructor|trivial].
  - split.
    + intros [Hx Hrest]. constructor; [exact Hx|now apply IH].
    + intros H. inversion H; subst. split; [assumption|now apply IH].
Qed.

Lemma wf_obj (pairs : list (pystr * value)) :
  wf' (JObj pairs) <->
  NoDup (map fst pairs) /\
  Forall (fun kv => Forall scalar (fst kv) /\ wf' (snd kv)) pairs.
Proof.
  cbn [wf]. apply and_iff_compat_l.
  induction pairs as [|[k x] pairs IH].
  - split; [constructor|trivial].
  - split.
    + intros [Hk [Hx Hrest]]. constructor; [now split|now apply IH].
    + intros H. inversion H as [|? ? [Hk Hx] Hrest]; subst.
      repeat split; [assumption|assumption|now apply IH].
Qed.


Lemma items_weight_cons (x : value) (xs : list value) :
  items_weight (x :: xs) = S (weight x + items_weight xs).
Proof. reflexivity. Qed.

Lemma pairs_weight_cons (kv : pystr * value) (ps : list (pystr * value)) :
  pairs_weight (kv :: ps) = S (weight (snd kv) + pairs_weight ps).
Proof. reflexivity. Qed.

Lemma weight_arr (items : list value) :
  weight (JArr items) = S (items_weight items).
Proof.
  cbn [weight]. f_equal. unfold items_weight.
  induction items as [|x items IH]; [reflexivity|].
  cbn [map list_sum]. now rewrite IH.
Qed.

Lemma weight_obj (pairs : list (pystr * value)) :
  weight (JObj pairs) = S (pairs_weight pairs).
Proof.
  cbn [weight]. f_equal. unfold pairs_weight.
  induction pairs as [|[k x] pairs IH]; [reflexivity|].
  cbn [map list_sum snd]. now rewrite IH.
Qed.

Lemma key_eqb_spec (k k' : pystr) : reflect (k = k') (key_eqb k k').
Proof.
  revert k'. induction k as [|c t IH]; intros [|c' t']; cbn [key_eqb];
    try (constructor; congruence).
  destruct (N.eqb_spec c c') as [->|Hc]; cbn [andb].
  - destruct (IH t') as [->|Ht]; constructor; congruence.
  - constructor. congruence.
Qed.

Lemma pairs_set_fresh (d : list (pystr * value)) (k : pystr) (v : value) :
  ~ In k (map fst d) -> pairs_set d k v = d ++ [(k, v)].
Proof.
  induction d as [|[k' v'] d IH]; intros Hk; [reflexivity|].
  cbn [pairs_set app]. cbn [map fst In] in Hk.
  destruct (key_eqb_spec k' k) as [->|Hne]; [tauto|].
  rewrite IH by tauto. reflexivity.
Qed.

Lemma dict_of_pairs_from (pairs d : list (pystr * value)) :
  NoDup (map fst (d ++ pairs)) ->
  fold_left (fun d kv => pairs_set d (fst kv) (snd kv)) pairs d = d ++ pairs.
Proof.
  revert d. induction pairs as [|[k v] pairs IH]; intros d Hnd.
  - now rewrite app_nil_r.
  - cbn [fold_left fst snd].
    assert (Hk : ~ In k (map fst d)).
    { rewrite map_app in Hnd. cbn [map fst] in Hnd.
      apply NoDup_remove_2 in Hnd. rewrite in_app_iff in Hnd. tauto. }
    rewrite pairs_set_fresh by exact Hk.
    rewrite IH; rewrite <- app_assoc; [reflexivity|exact Hnd].
Qed.

Lemma dict_of_pairs_nodup (pairs : list (pystr * value)) :
  NoDup (map fst pairs) -> dict_of_pairs pairs = pairs.
Proof. intros H. unfold dict_of_pairs. now rewrite dict_of_pairs_from. Qed.


Lemma closes_newline_indent (level : nat) (rest : pystr) :
  closes (newline_indent level ++ rest).
Proof. now right. Qed.

Lemma closes_more_items (level level' : nat) (xs : list value)
    (rest : pystr) :
  closes (more_items float_repr level xs ++ newline_indent level' ++ rest).
Proof. destruct xs; [now right|now left]. Qed.

Lemma closes_more_pairs (level level' : nat) (ps : list (pystr * value))
    (rest : pystr) :
  closes (more_pairs float_repr level ps ++ newline_indent level' ++ rest).
Proof. destruct ps; [now right|now left]. Qed.

Lemma skip_ws_encode (v : value) (level : nat) (rest : pystr) :
  wf' v -> skip_ws (enc level v ++ rest) = enc level v ++ rest.
Proof.
  intros Hwf.
  destruct (encode_opens float_repr float_of_string v level Hwf)
    as [c [t [-> Hc]]].
  now apply skip_ws_opens.
Qed.

Lemma array_loop_items (level : nat) (rest : pystr) :
  forall xs x acc fuel,
    Forall (reads float_repr float_of_string) (x :: xs) -> Forall wf' (x :: xs) ->
    (items_weight (x :: xs) <= fuel)%nat ->
    array_loop float_of_string fuel
      (enc (S level) x ++ more_items float_repr (S level) xs ++
       newline_indent level ++ ord "]" :: rest) acc
    = Ok (JArr (rev acc ++ x :: xs), rest).
Proof.
  induction xs as [|y ys IH]; intros x acc fuel Hreads Hwf Hfuel;
    inversion Hreads as [|? ? Hx Hreads']; subst;
    inversion Hwf as [|? ? Hwx Hwf']; subst;
    rewrite items_weight_cons in Hfuel;
    (destruct fuel as [|fuel]; [lia|]); cbn [array_loop].
  - rewrite (Hx Hwx) by (try apply closes_newline_indent; lia).
    cbn [bind more_items flat_map app].
    rewrite skip_ws_newline_indent. reflexivity.
  - rewrite (Hx Hwx) by (try apply closes_more_items; lia).
    cbn [bind]. unfold more_items at 1. cbn [flat_map].
    fold (more_items float_repr (S level) ys). rewrite <- !app_assoc.
    cbn [app]. rewrite <- !app_assoc. rewrite skip_ws_comma.
    change (ord "," =? ord "]") with false.
    change (ord "," =? ord ",") with true. cbv iota.
    rewrite skip_ws_newline_indent.
    inversion Hwf' as [|? ? Hwy _]; subst.
    rewrite skip_ws_encode by exact Hwy.
    rewrite (IH y (x :: acc) fuel Hreads' Hwf').
    + cbn [rev]. now rewrite <- app_assoc.
    + lia.
Qed.

Lemma object_loop_pairs (level : nat) (rest : pystr) :
  forall ps kv acc fuel,
    Forall (fun kv => reads float_repr float_of_string (snd kv)) (kv :: ps) ->
    Forall (fun kv => Forall scalar (fst kv) /\ wf' (snd kv)) (kv :: ps) ->
    (pairs_weight (kv :: ps) <= fuel)%nat ->
    object_loop float_of_string fuel
      (flat_map escape_char (fst kv) ++
       ord "034" :: ord ":" :: ord " " :: enc (S level) (snd kv) ++
       more_pairs float_repr (S level) ps ++ newline_indent level ++ ord "}" :: rest)
      acc
    = Ok (JObj (dict_of_pairs (rev acc ++ kv :: ps)), rest).
Proof.
  induction ps as [|kv' ps IH]; intros [k x] acc fuel Hreads Hwf Hfuel;
    inversion Hreads as [|? ? Hx Hreads']; subst;
    inversion Hwf as [|? ? [Hk Hwx] Hwf']; subst;
    rewrite pairs_weight_cons in Hfuel; cbn [fst snd] in *;
    (destruct fuel as [|fuel]; [lia|]); cbn [object_loop];
    rewrite (scanstring_escaped k _ Hk); cbn [bind];
    rewrite skip_ws_colon; change (ord ":" =? ord ":") with true; cbv iota;
    rewrite skip_ws_space, skip_ws_encode by exact Hwx.
  - rewrite (Hx Hwx) by (try apply closes_newline_indent; lia).
    cbn [bind more_pairs flat_map app].
    rewrite skip_ws_newline_indent. reflexivity.
  - rewrite (Hx Hwx) by (try apply closes_more_pairs; lia).
    cbn [bind]. unfold more_pairs at 1. cbn [flat_map].
    fold (more_pairs float_repr (S level) ps). unfold pair_text, encode_basestring_ascii.
    rewrite <- !app_assoc. cbn [app]. rewrite <- !app_assoc.
    rewrite skip_ws_comma.
    change (ord "," =? ord "}") with false.
    change (ord "," =? ord ",") with true. cbv iota.
    rewrite skip_ws_newline_indent. cbn [app].
    rewrite skip_ws_opens by reflexivity.
    rewrite N.eqb_refl, <- !app_assoc. cbn [app].
    transitivity
      (Ok (JObj (dict_of_pairs (rev ((k, x) :: acc) ++ kv' :: ps)), rest)).
    + apply IH; [exact Hreads'|exact Hwf'|lia].
    + cbn [rev]. now rewrite <- app_assoc.
Qed.

(** Every well-formed value reads back from its text. *)
Lemma scan_once_encode (v : value) : reads float_repr float_of_string v.
Proof.
  induction v as [|b|z|f|s|items IH|pairs IH] using value_induction;
    intros Hwf level fuel rest Hfuel Hrest.
  - destruct fuel as [|fuel]; [cbn in Hfuel; lia|]. reflexivity.
  - destruct fuel as [|fuel]; [cbn in Hfuel; lia|]. destruct b; reflexivity.
  - destruct fuel as [|fuel]; [cbn in Hfuel; lia|]. cbn [encode].
    destruct (int_repr_head z) as [c [t [E Hc]]].
    rewrite <- (scan_scalar_int float_of_string z rest Hrest).
    rewrite E. now apply scan_once_number.
  - destruct fuel as [|fuel]; [cbn in Hfuel; lia|]. cbn [encode].
    destruct (floatstr_head float_repr float_of_string f Hwf)
      as [c [t [E Hc]]].
    rewrite <- (scan_scalar_float float_repr float_of_string f rest Hwf Hrest).
    rewrite E. now apply scan_once_number.
  - destruct fuel as [|fuel]; [cbn in Hfuel; lia|].
    cbn [encode wf] in *. unfold encode_basestring_ascii.
    cbn [app]. rewrite <- app_assoc. cbn [app scan_once].
    rewrite N.eqb_refl, scanstring_escaped by exact Hwf. reflexivity.
  - rewrite wf_arr in Hwf. rewrite weight_arr in Hfuel.
    destruct fuel as [|fuel]; [lia|].
    destruct items as [|x xs]; [reflexivity|].
    rewrite encode_arr. cbn [app]. rewrite <- ?app_assoc.
    cbn [app scan_once].
    change (ord "[" =? ord "034") with false.
    change (ord "[" =? ord "{") with false.
    change (ord "[" =? ord "[") with true. cbv iota.
    rewrite skip_ws_newline_indent.
    inversion Hwf as [|? ? Hwx _]; subst.
    destruct (encode_opens float_repr float_of_string x (S level) Hwx)
      as [c [t [E Hc]]].
    pose proof (array_loop_items level rest xs x [] fuel IH Hwf
                  ltac:(lia)) as Hloop.
    rewrite E in *. cbn [app] in *. rewrite skip_ws_opens by exact Hc.
    destruct (N.eqb_spec c (ord "]")) as [->|]; [discriminate Hc|].
    exact Hloop.
  - rewrite wf_obj in Hwf. destruct Hwf as [Hnd Hwf].
    rewrite weight_obj in Hfuel.
    destruct fuel as [|fuel]; [lia|].
    destruct pairs as [|kv ps]; [reflexivity|].
    rewrite encode_obj. unfold pair_text, encode_basestring_ascii.
    cbn [app]. rewrite <- ?app_assoc. cbn [app scan_once].
    rewrite <- ?app_assoc.
    change (ord "{" =? ord "034") with false.
    change (ord "{" =? ord "{") with true. cbv iota.
    rewrite skip_ws_newline_indent. rewrite skip_ws_opens by reflexivity.
    change (ord "034" =? ord "}") with false. rewrite N.eqb_refl.
    cbn [app].
    assert (Hw : (pairs_weight (kv :: ps) <= fuel)%nat) by lia.
    pose proof (object_loop_pairs level rest ps kv [] fuel IH Hwf Hw) as Hloop.
    cbn [rev app] in Hloop. rewrite dict_of_pairs_nodup in Hloop by exact Hnd.
    refine (eq_trans _ Hloop). f_equal. f_equal. do 3 f_equal.
    rewrite <- !app_assoc. reflexivity.
Qed.

(** [weight] never exceeds the length of the text. *)
Lemma weight_le_length (v : value) :
  wf' v -> forall level, (weight v <= List.length (enc level v))%nat.
Proof.
  induction v as [|b|z|f|s|items IH|pairs IH] using value_induction;
    intros Hwf level.
  - cbn. lia.
  - destruct b; cbn; lia.
  - cbn [encode weight]. destruct (int_repr_head z) as [c [t [-> _]]].
    cbn [List.length]. lia.
  - cbn [encode weight].
    destruct (floatstr_head float_repr float_of_string f Hwf)
      as [c [t [-> _]]].
    cbn [List.length]. lia.
  - cbn [encode weight]. unfold encode_basestring_ascii.
    cbn [List.length]. lia.
  - rewrite wf_arr in Hwf. rewrite weight_arr.
    destruct items as [|x xs]; [cbn; lia|].
    rewrite encode_arr. cbn [List.length]. rewrite !length_app.
    assert (Hmore : (items_weight xs
                     <= List.length (more_items float_repr (S level) xs))%nat).
    { inversion IH as [|? ? _ IHxs]; subst.
      inversion Hwf as [|? ? _ Hwxs]; subst. clear IH Hwf.
      induction xs as [|y ys IHys]; [cbn; lia|].
      inversion IHxs as [|? ? Hy IHys']; subst.
      inversion Hwxs as [|? ? Hwy Hwys]; subst.
      rewrite items_weight_cons. unfold more_items. cbn [flat_map].
      rewrite length_app. cbn [List.length]. rewrite length_app.
      specialize (Hy Hwy (S level)). specialize (IHys IHys' Hwys).
      unfold more_items in IHys. cbn [newline_indent List.length]. lia. }
    inversion IH as [|? ? Hx _]; subst.
    inversion Hwf as [|? ? Hwx _]; subst.
    specialize (Hx Hwx (S level)). rewrite items_weight_cons.
    cbn [newline_indent List.length]. lia.
  - rewrite wf_obj in Hwf. destruct Hwf as [_ Hwf]. rewrite weight_obj.
    destruct pairs as [|kv ps]; [cbn; lia|].
    rewrite encode_obj. cbn [List.length]. rewrite !length_app.
    assert (Hmore : (pairs_weight ps
                     <= List.length (more_pairs float_repr (S level) ps))%nat).
    { inversion IH as [|? ? _ IHps]; subst.
      inversion Hwf as [|? ? _ Hwps]; subst. clear IH Hwf.
      induction ps as [|kv' ps' IHps']; [cbn; lia|].
      inversion IHps as [|? ? Hy IHps'']; subst.
      inversion Hwps as [|? ? [_ Hwy] Hwps']; subst.
      rewrite pairs_weight_cons. unfold more_pairs. cbn [flat_map].
      rewrite length_app. cbn [List.length]. rewrite length_app.
      unfold pair_text at 1. rewrite length_app. cbn [List.length].
      specialize (Hy Hwy (S level)). specialize (IHps' IHps'' Hwps').
      unfold more_pairs in IHps'. cbn [newline_indent List.length]. lia. }
    inversion IH as [|? ? Hx _]; subst.
    inversion Hwf as [|? ? [_ Hwx] _]; subst.
    specialize (Hx Hwx (S level)). rewrite pairs_weight_cons.
    unfold pair_text. rewrite length_app. cbn [List.length].
    cbn [newline_indent List.length]. lia.
Qed.

(** The round trip: what [json.dumps(v, indent=2)] writes, with the newline
    [print] adds, [json.loads] reads back as [v]. *)
Theorem loads_dumps (v : value) :
  wf' v ->
  loads float_of_string (dumps float_repr v ++ [10]) = Ok v.
Proof.
  intros Hwf. unfold loads, dumps.
  destruct (encode_opens float_repr float_of_string v 0%nat Hwf)
    as [c [t [E Hc]]].
  pose proof (weight_le_length v Hwf 0%nat) as Hw.
  assert (Hscan : forall fuel,
            (List.length (enc 0%nat v) <= fuel)%nat ->
            scan fuel (enc 0%nat v ++ [10]) = Ok (v, [10])).
  { intros fuel Hfuel. apply scan_once_encode;
      [exact Hwf|lia|now right]. }
  rewrite E in *. cbn [app] in *.
  destruct (N.eqb_spec c 65279) as [->|]; [discriminate Hc|].
  unfold decode. rewrite skip_ws_opens by exact Hc.
  rewrite Hscan; [reflexivity|].
  cbn [List.length]. rewrite length_app. lia.
Qed.

End Trees.

End JsonFacts.

(** ** The baseline store *)

Import Store.

Lemma text_scalar (s : string) : Forall scalar (text s).
Proof.
  unfold text. apply Forall_forall. intros c Hc.
  apply in_map_iff in Hc. destruct Hc as [a [<- _]].
  pose proof (N_ascii_bounded a). unfold scalar. lia.
Qed.

Lemma text_inj (s s' : string) : text s = text s' -> s = s'.
Proof.
  unfold text. intros H.
  rewrite <- (string_of_list_ascii_of_string s).
  rewrite <- (string_of_list_ascii_of_string s'). f_equal.
  revert H. generalize (list_ascii_of_string s') as l'.
  induction (list_ascii_of_string s) as [|a l IH]; intros [|a' l'] H;
    try discriminate; [reflexivity|].
  cbn [map] in H. injection H as Ha Hl. f_equal; [|now apply IH].
  rewrite <- (ascii_N_embedding a), <- (ascii_N_embedding a'). now f_equal.
Qed.

Lemma dict_json_keys {V} (f : V -> value) (d : dict V) :
  unique_keys d ->
  NoDup (map fst (map (fun kv => (text (fst kv), f (snd kv))) d)).
Proof.
  unfold unique_keys. intros H. rewrite map_map. cbn [fst].
  rewrite <- (map_map fst text).
  apply Finite.Injective_map_NoDup; [|exact H].
  intros s s'. apply text_inj.
Qed.

Ltac distinct_keys :=
  repeat (constructor; [cbv; intuition discriminate|]); constructor.

(** The fields of an object with fixed keys, one goal per value. *)
Ltac fields :=
  repeat (apply Forall_cons; [split; [apply text_scalar|cbn [snd]]|]);
  try apply Forall_nil.

Section SnapshotText.

Variable float_repr : float -> pystr.
Variable float_of_string : pystr -> float.

#[local] Abbreviation wf' := (wf float_repr float_of_string).

Lemma wf_dict_json {V} (f : V -> value) (d : dict V) :
  unique_keys d ->
  Forall (fun kv => wf' (f (snd kv))) d ->
  wf' (dict_json f d).
Proof.
  intros Hkeys Hvals. unfold dict_json. apply wf_obj. split.
  - now apply dict_json_keys.
  - apply Forall_map. cbn [fst snd].
    apply Forall_impl with (2 := Hvals).
    intros kv Hkv. split; [apply text_scalar|exact Hkv].
Qed.

Lemma wf_command_json (c : MeasureContext.command_info) :
  float_ok float_repr float_of_string (MeasureContext.pct_of_200k c) ->
  wf' (command_json c).
Proof.
  intros Hf. unfold command_json. apply wf_obj. split; [distinct_keys|].
  fields; [apply text_scalar|exact I|exact I|exact Hf].
Qed.

Lemma wf_file_json (f : MeasureContext.file_info) : wf' (file_json f).
Proof.
  unfold file_json. apply wf_obj. split; [distinct_keys|].
  fields; exact I.
Qed.

Lemma wf_totals_json (t : MeasureContext.totals) : wf' (totals_json t).
Proof.
  unfold totals_json. apply wf_obj. split; [distinct_keys|].
  fields; exact I.
Qed.

Lemma wf_invocation_json (i : MeasureContext.invocation) :
  unique_keys (MeasureContext.components i) ->
  float_ok float_repr float_of_string (MeasureContext.pct_used i) ->
  wf' (invocation_json i).
Proof.
  intros Hkeys Hf. unfold invocation_json. apply wf_obj.
  split; [distinct_keys|].
  fields; [|exact I|exact I|exact Hf].
  apply wf_dict_json; [exact Hkeys|].
  apply Forall_forall. intros kv _. exact I.
Qed.

Lemma wf_to_json (data : MeasureContext.snapshot) :
  dicts_ok data -> floats_ok float_repr float_of_string data ->
  wf' (to_json data).
Proof.
  intros [Hcmds [Hcomp [Hdirs Hfiles]]] [Hpct Hused].
  unfold to_json. apply wf_obj. split; [distinct_keys|].
  fields.
  - apply text_scalar.
  - apply wf_dict_json; [exact Hcmds|].
    apply Forall_impl with (2 := Hpct). intros kv. apply wf_command_json.
  - now apply wf_invocation_json.
  - apply wf_dict_json; [exact Hdirs|].
    apply Forall_impl with (2 := Hfiles). intros kv Hkv.
    apply wf_dict_json; [exact Hkv|].
    apply Forall_forall. intros f _. apply wf_file_json.
  - apply wf_totals_json.
Qed.

End SnapshotText.

(** Assignment keeps the keys of a dictionary distinct. *)
Lemma dict_set_keys {V} (d : dict V) (k k' : string) (v : V) :
  In k' (map fst (dict_set d k v)) -> k' = k \/ In k' (map fst d).
Proof.
  induction d as [|[k0 v0] d IH]; cbn [dict_set map fst In].
  - intros [<-|[]]. now left.
  - destruct (String.eqb_spec k0 k) as [->|Hne]; cbn [map fst In].
    + intros [<-|H]; [now left|right; now right].
    + intros [<-|H]; [right; now left|].
      destruct (IH H) as [->|Hin]; [now left|right; now right].
Qed.

Lemma dict_set_unique {V} (d : dict V) (k : string) (v : V) :
  unique_keys d -> unique_keys (dict_set d k v).
Proof.
  unfold unique_keys. induction d as [|[k0 v0] d IH]; intros Hd;
    cbn [dict_set map fst].
  - repeat constructor. intros [].
  - inversion Hd as [|? ? Hk0 Hd']; subst.
    destruct (String.eqb_spec k0 k) as [->|Hne]; cbn [map fst].
    + now constructor.
    + constructor; [|now apply IH].
      intros Hin. apply dict_set_keys in Hin. destruct Hin; congruence.
Qed.

Lemma dict_set_values {V} (P : V -> Prop) (d : dict V) (k : string) (v : V) :
  Forall (fun kv => P (snd kv)) d -> P v ->
  Forall (fun kv => P (snd kv)) (dict_set d k v).
Proof.
  intros Hd Hv. induction d as [|[k0 v0] d IH]; cbn [dict_set].
  - now repeat constructor.
  - inversion Hd as [|? ? H0 Hd']; subst.
    destruct (String.eqb k0 k); constructor; auto.
Qed.

(** A property of the accumulator that every turn of a loop keeps holds
    when the loop ends. *)
Lemma for_each_invariant {A S} (I : S -> Prop) (step : S -> A -> result S)
    (xs : list A) :
  (forall s a s', I s -> step s a = Ok s' -> I s') ->
  forall acc r, I acc -> for_each xs step acc = Ok r -> I r.
Proof.
  intros Hstep. induction xs as [|x xs IH]; intros acc r Hacc H;
    cbn [for_each] in H.
  - now injection H as <-.
  - destruct (step acc x) as [s'|e] eqn:E; [|discriminate].
    exact (IH s' r (Hstep _ _ _ Hacc E) H).
Qed.

Section StoredDicts.

Variable w : world.

Lemma measure_dir_unique (dir_path : string) (names : list string)
    (dir_results : dict MeasureContext.file_info) :
  MeasureContext.measure_dir w dir_path names = Ok dir_results ->
  unique_keys dir_results.
Proof.
  unfold MeasureContext.measure_dir.
  apply for_each_invariant; [|constructor].
  intros s filename s' Hs Hstep.
  destruct (endswith filename ".md"); [|now injection Hstep as <-].
  rewrite count_tokens_metric in Hstep. cbn [bind] in Hstep.
  destruct (metric w _) as [toks lns]. injection Hstep as <-.
  now apply dict_set_unique.
Qed.

Lemma measure_prompt_files_unique
    (results : dict (dict MeasureContext.file_info)) :
  MeasureContext.measure_prompt_files w = Ok results ->
  unique_keys results /\ Forall (fun kv => unique_keys (snd kv)) results.
Proof.
  unfold MeasureContext.measure_prompt_files, MeasureContext.measure_prompt_dirs.
  apply (for_each_invariant
           (fun results : dict (dict MeasureContext.file_info) =>
              unique_keys results /\
              Forall (fun kv => unique_keys (snd kv)) results));
    [|split; constructor].
  intros s dir_path s' [Hkeys Hvals] Hstep.
  destruct (path_exists w dir_path); [|now injection Hstep as <-].
  destruct (listdir w dir_path) as [names|e]; [|discriminate].
  cbn [bind] in Hstep.
  destruct (MeasureContext.measure_dir w dir_path names) as [dr|e] eqn:Hdir;
    [|discriminate].
  cbn [bind] in Hstep. apply measure_dir_unique in Hdir.
  destruct dr as [|entry dr]; injection Hstep as <-; [now split|].
  split; [now apply dict_set_unique|now apply dict_set_values].
Qed.

Lemma measure_execute_invocation_keys (inv : MeasureContext.invocation) :
  MeasureContext.measure_execute_invocation w = Ok inv ->
  unique_keys (MeasureContext.components inv).
Proof.
  unfold MeasureContext.measure_execute_invocation.
  rewrite !count_tokens_metric. cbn [bind].
  destruct (metric w ".claude/commands/tiki/execute.md") as [exec_tokens ?].
  destruct (metric w "CLAUDE.md") as [claude_tokens ?].
  cbn [bind truediv]. change (200000 =? 0) with false. cbv iota.
  intros H. injection H as <-. cbn [MeasureContext.components].
  unfold unique_keys. cbn [map fst].
  repeat (constructor; [cbv; intuition discriminate|]). constructor.
Qed.

(** The dictionaries of a snapshot the reporter builds hold no key twice. *)
Lemma measure_commands_keys :
  unique_keys (map (command_entry w) MeasureContext.commands).
Proof.
  unfold unique_keys. rewrite map_map.
  change (map (fun x => fst (command_entry w x)) MeasureContext.commands)
    with (map fst MeasureContext.commands).
  repeat (constructor; [cbv; intuition discriminate|]). constructor.
Qed.

Lemma build_data_dicts (data : MeasureContext.snapshot) :
  MeasureContext.build_data w = Ok data -> dicts_ok data.
Proof.
  unfold MeasureContext.build_data.
  pose proof (measure_commands_entries w) as Hc.
  destruct (MeasureContext.measure_commands w) as [cmds|];
    cbn [bind]; [|discriminate].
  assert (Hcmds : cmds = map (command_entry w) MeasureContext.commands)
    by congruence.
  clear Hc.
  destruct (MeasureContext.measure_execute_invocation w) as [inv|] eqn:Hinv;
    cbn [bind]; [|discriminate].
  destruct (MeasureContext.measure_prompt_files w) as [prompts|] eqn:Hp;
    cbn [bind]; [|discriminate].
  intros H. inversion H; subst data; clear H. unfold dicts_ok.
  cbn [MeasureContext.snap_commands MeasureContext.execute_invocation
       MeasureContext.prompt_files].
  destruct (measure_prompt_files_unique prompts Hp) as [Hk Hv].
  repeat split; try assumption.
  - rewrite Hcmds. apply measure_commands_keys.
  - now apply measure_execute_invocation_keys.
Qed.

End StoredDicts.

(** A snapshot the reporter builds reads back from the file it is saved
    in. *)
Lemma build_data_save_load (w : world) (float_repr : float -> pystr)
    (float_of_string : pystr -> float) (data : MeasureContext.snapshot) :
  MeasureContext.build_data w = Ok data ->
  floats_ok float_repr float_of_string data ->
  load float_of_string (save float_repr data) = Ok (to_json data).
Proof.
  intros Hbuild Hfloats. unfold load, save. apply loads_dumps.
  apply wf_to_json; [exact (build_data_dicts w data Hbuild)|exact Hfloats].
Qed.

(** [to_json] loses nothing: two snapshots with the same [data] object are
    the same record, field for field. *)
Lemma dict_pairs_inj {V} (f : V -> value) (d d' : dict V) :
  (forall v v', f v = f v' -> v = v') ->
  map (fun kv => (text (fst kv), f (snd kv))) d
  = map (fun kv => (text (fst kv), f (snd kv))) d' ->
  d = d'.
Proof.
  intros Hf. revert d'.
  induction d as [|[k v] d IH]; intros [|[k' v'] d'] H; try discriminate;
    [reflexivity|].
  cbn [map fst snd] in H. injection H as Hk Hv Hd.
  apply text_inj in Hk. apply Hf in Hv. subst. f_equal. now apply IH.
Qed.

Lemma dict_json_inj {V} (f : V -> value) (d d' : dict V) :
  (forall v v', f v = f v' -> v = v') ->
  dict_json f d = dict_json f d' -> d = d'.
Proof.
  intros Hf H. unfold dict_json in H. injection H as H.
  now apply (dict_pairs_inj f).
Qed.

Lemma command_json_inj (c c' : MeasureContext.command_info) :
  command_json c = command_json c' -> c = c'.
Proof.
  destruct c, c'. unfold command_json. cbn. intros H.
  injection H as Hp Ht Hl Hf. apply text_inj in Hp. now subst.
Qed.

Lemma file_json_inj (f f' : MeasureContext.file_info) :
  file_json f = file_json f' -> f = f'.
Proof.
  destruct f, f'. unfold file_json. cbn. intros H.
  injection H as Ht Hl. now subst.
Qed.

Lemma to_json_inj (data data' : MeasureContext.snapshot) :
  to_json data = to_json data' -> data = data'.
Proof.
  destruct data as [ts cmds [comps total rem used] prompts [tt tl]].
  destruct data' as [ts' cmds' [comps' total' rem' used'] prompts' [tt' tl']].
  unfold to_json, invocation_json, totals_json.
  cbn [MeasureContext.timestamp MeasureContext.snap_commands
       MeasureContext.execute_invocation MeasureContext.prompt_files
       MeasureContext.snap_totals MeasureContext.components
       MeasureContext.total_tokens MeasureContext.remaining
       MeasureContext.pct_used MeasureContext.all_large_commands_tokens
       MeasureContext.all_large_commands_lines].
  intros H. injection H as Hts Hcmds Hcomps Htotal Hrem Hused Hprompts Htt Htl.
  apply text_inj in Hts.
  apply (dict_pairs_inj _ _ _ command_json_inj) in Hcmds.
  apply dict_pairs_inj in Hcomps; [|intros v v' Hv; now injection Hv].
  apply dict_pairs_inj in Hprompts;
    [|intros v v'; apply dict_json_inj; exact file_json_inj].
  now subst.
Qed.

(** *** Reading the loaded object by key *)

Lemma key_eqb_text (a b : string) :
  key_eqb (text a) (text b) = String.eqb a b.
Proof.
  destruct (key_eqb_spec (text a) (text b)) as [H|H];
    destruct (String.eqb_spec a b) as [E|E]; try reflexivity.
  - apply text_inj in H. contradiction.
  - subst b. contradiction.
Qed.

(** A dictionary read by key, before and after it is saved. *)
Lemma member_dict {V} (f : V -> value) (d : dict V) (k : string) :
  BaselineFile.member (text k)
    (map (fun kv => (text (fst kv), f (snd kv))) d)
  = option_map f (dict_get d k).
Proof.
  induction d as [|[k0 v0] d IH]; [reflexivity|].
  cbn [map fst snd BaselineFile.member dict_get].
  rewrite key_eqb_text. now destruct (String.eqb k0 k).
Qed.

Lemma item_dict_json {V} (f : V -> value) (d : dict V) (k : string) (v : V) :
  dict_get d k = Some v -> item k (dict_json f d) = Some (f v).
Proof.
  intros H. unfold item, dict_json. now rewrite member_dict, H.
Qed.

(** The keys of an object with fixed keys, compared one by one. *)
Ltac keys :=
  cbn [items item BaselineFile.member];
  repeat (rewrite key_eqb_text;
          match goal with
          | |- context [String.eqb ?a ?b] =>
              let r := eval vm_compute in (String.eqb a b) in
              change (String.eqb a b) with r
          end;
          cbv iota; cbn [items item BaselineFile.member]).

(** C4: for every snapshot (its dictionaries holding no key twice, its
    floats finite and unchanged by [repr] and [float]), loading the saved
    baseline file gives back the [data] that was saved.  The loaded object
    is the object of no other snapshot, and read by key it gives each field
    of the original: the timestamp; the path, tokens, lines and percentage
    of every command; every component, the total, the remainder and the
    percentage of the invocation; the tokens and lines of every prompt file
    under its directory and name; and the two totals. *)
Theorem save_load (float_repr : float -> pystr)
    (float_of_string : pystr -> float) (data : MeasureContext.snapshot) :
  dicts_ok data ->
  floats_ok float_repr float_of_string data ->
  exists loaded,
    load float_of_string (save float_repr data) = Ok loaded /\
    loaded = to_json data /\
    (forall data', to_json data' = loaded -> data' = data) /\
    items ["timestamp"] loaded
    = Some (JStr (text (MeasureContext.timestamp data))) /\
    (forall name c,
       dict_get (MeasureContext.snap_commands data) name = Some c ->
       items ["commands"; name; "path"] loaded
       = Some (JStr (text (MeasureContext.path c))) /\
       items ["commands"; name; "tokens"] loaded
       = Some (JInt (MeasureContext.tokens c)) /\
       items ["commands"; name; "lines"] loaded
       = Some (JInt (MeasureContext.lines c)) /\
       items ["commands"; name; "pct_of_200k"] loaded
       = Some (JFloat (MeasureContext.pct_of_200k c))) /\
    (forall name n,
       dict_get (MeasureContext.components
                   (MeasureContext.execute_invocation data)) name = Some n ->
       items ["execute_invocation"; "components"; name] loaded
       = Some (JInt n)) /\
    items ["execute_invocation"; "total_tokens"] loaded
    = Some (JInt (MeasureContext.total_tokens
                    (MeasureContext.execute_invocation data))) /\
    items ["execute_invocation"; "remaining"] loaded
    = Some (JInt (MeasureContext.remaining
                    (MeasureContext.execute_invocation data))) /\
    items ["execute_invocation"; "pct_used"] loaded
    = Some (JFloat (MeasureContext.pct_used
                      (MeasureContext.execute_invocation data))) /\
    (forall d files n f,
       dict_get (MeasureContext.prompt_files data) d = Some files ->
       dict_get files n = Some f ->
       items ["prompt_files"; d; n; "tokens"] loaded
       = Some (JInt (MeasureContext.file_tokens f)) /\
       items ["prompt_files"; d; n; "lines"] loaded
       = Some (JInt (MeasureContext.file_lines f))) /\
    items ["totals"; "all_large_commands_tokens"] loaded
    = Some (JInt (MeasureContext.all_large_commands_tokens
                    (MeasureContext.snap_totals data))) /\
    items ["totals"; "all_large_commands_lines"] loaded
    = Some (JInt (MeasureContext.all_large_commands_lines
                    (MeasureContext.snap_totals data))).
Proof.
  intros Hdicts Hfloats. exists (to_json data).
  split; [unfold load, save; apply loads_dumps; now apply wf_to_json|].
  split; [reflexivity|].
  split; [intros data' H; now apply to_json_inj|].
  unfold to_json.
  split; [keys; reflexivity|].
  split.
  { intros name c Hc. keys.
    rewrite (item_dict_json command_json _ name c Hc).
    unfold command_json. repeat split; keys; reflexivity. }
  split.
  { intros name n Hn. keys. unfold invocation_json. keys.
    now rewrite (item_dict_json JInt _ name n Hn). }
  unfold invocation_json, totals_json.
  split; [keys; reflexivity|]. split; [keys; reflexivity|].
  split; [keys; reflexivity|].
  split; [|split; keys; reflexivity].
  intros d files n f Hd Hn. keys.
  rewrite (item_dict_json (dict_json file_json) _ d files Hd).
  rewrite (item_dict_json file_json _ n f Hn).
  unfold file_json. split; keys; reflexivity.
Qed.

Lemma save_load_witness :
  dicts_ok sample_snapshot /\
  floats_ok Sample.float_repr Sample.float_of_string sample_snapshot /\
  exists loaded,
    load Sample.float_of_string (save Sample.float_repr sample_snapshot)
    = Ok loaded /\
    loaded = to_json sample_snapshot /\
    items ["timestamp"] loaded
    = Some (JStr (text "2025-02-01T12:00:00.000000")) /\
    items ["commands"; "execute.md"; "tokens"] loaded = Some (JInt 23) /\
    items ["prompt_files"; ".tiki/prompts/execute"; "phase.md"; "tokens"]
      loaded
    = Some (JInt 6).
Proof.
  assert (Hdicts : dicts_ok sample_snapshot).
  { apply (build_data_dicts Sample.env). vm_compute. reflexivity. }
  assert (Hfloats : floats_ok Sample.float_repr Sample.float_of_string
                      sample_snapshot).
  { split.
    - repeat (apply Forall_cons;
              [repeat split; vm_compute; reflexivity|]).
      apply Forall_nil.
    - repeat split; vm_compute; reflexivity. }
  split; [exact Hdicts|]. split; [exact Hfloats|].
  destruct (save_load Sample.float_repr Sample.float_of_string sample_snapshot
              Hdicts Hfloats)
    as [loaded [Hload [Heq [_ [Hts [Hcmds [_ [_ [_ [_ [Hfiles _]]]]]]]]]]].
  exists loaded. split; [exact Hload|]. split; [exact Heq|].
  split; [exact Hts|]. split.
  - refine (proj1 (proj2 (Hcmds "execute.md"
                            {| MeasureContext.path :=
                                 ".claude/commands/tiki/execute.md";
                               MeasureContext.tokens := 23;
                               MeasureContext.lines := 3;
                               MeasureContext.pct_of_200k :=
                                 Sample.round_hundredths
                                   (fmul_int (fdiv_int 23 200000) 100) |}
                            _))).
    vm_compute. reflexivity.
  - refine (proj1 (Hfiles ".tiki/prompts/execute"
                     [("phase.md", {| MeasureContext.file_tokens := 6;
                                      MeasureContext.file_lines := 2 |})]
                     "phase.md"
                     {| MeasureContext.file_tokens := 6;
                        MeasureContext.file_lines := 2 |} _ eq_refl)).
    vm_compute. reflexivity.
Defined.

(** ** More on the file metrics collector *)

Lemma Ok_inj {A} (a b : A) : Ok a = Ok b -> a = b.
Proof. intros H. now injection H. Qed.

(** X1: a measurement of 0 lines always means the file could not be
    measured (it could not be read, or the tokenizer raised on its content),
    and then the token count is 0 too; a file that is measured, even an empty
    one, has at least 1 line.  Counts are never negative. *)
Theorem count_tokens_zero_lines (w : world) (p : string) (toks lns : Z) :
  MeasureContext.count_tokens w p = Ok (toks, lns) ->
  CompareContext.count_tokens w p = Ok (toks, lns) /\
  0 <= toks /\ 0 <= lns /\
  (lns = 0 <->
   ~ exists content encoded,
       open_read w p = Ok content /\ enc_encode w content = Ok encoded) /\
  (lns = 0 -> toks = 0).
Proof.
  intros H. split; [exact H|].
  unfold MeasureContext.count_tokens, try_except, bind in H.
  destruct (open_read w p) as [content|e] eqn:Hread.
  - destruct (enc_encode w content) as [encoded|e] eqn:Henc.
    + injection H as <- <-. rewrite len_split. unfold len.
      repeat split; try lia.
      intros Hno. exfalso. apply Hno. now exists content, encoded.
    + injection H as <- <-. repeat split; try lia.
      intros _ [content' [encoded [Hc He]]]. congruence.
  - injection H as <- <-. repeat split; try lia.
    intros _ [content [encoded [Hc _]]]. discriminate.
Qed.

Lemma count_tokens_zero_lines_witness :
  MeasureContext.count_tokens Sample.env ".claude/commands/tiki/debug.md"
    = Ok (0, 0) /\
  (0 = 0 <->
   ~ exists content encoded,
       open_read Sample.env ".claude/commands/tiki/debug.md" = Ok content /\
       enc_encode Sample.env content = Ok encoded).
Proof.
  assert (H : MeasureContext.count_tokens Sample.env
                ".claude/commands/tiki/debug.md" = Ok (0, 0))
    by (vm_compute; reflexivity).
  split; [exact H|].
  exact (proj1 (proj2 (proj2 (proj2
           (count_tokens_zero_lines Sample.env _ 0 0 H))))).
Defined.

(** ** More on the aggregate reporter *)

Lemma metric_nonneg (w : world) (p : string) :
  0 <= fst (metric w p) /\ 0 <= snd (metric w p).
Proof.
  pose proof (count_tokens_metric w p) as H.
  destruct (metric w p) as [toks lns].
  unfold MeasureContext.count_tokens, try_except, bind in H.
  destruct (open_read w p) as [content|e].
  - destruct (enc_encode w content) as [encoded|e];
      injection H as <- <-; unfold len; simpl; lia.
  - injection H as <- <-. simpl. lia.
Qed.

Lemma measure_current_step (w : world) (results : dict current_info)
    (name p : string) :
  ('(toks, lns) <- count_tokens w p ;;
   Ok (dict_set results name {| tokens := toks; lines := lns |}))
  = Ok (dict_set results name {| tokens := fst (metric w p);
                                 lines := snd (metric w p) |}).
Proof.
  rewrite count_tokens_same, count_tokens_metric.
  destruct (metric w p). reflexivity.
Qed.

(** [measure_current] always returns, with one entry per listed command, in
    the order of the list. *)
Lemma measure_current_entries (w : world) :
  measure_current w
  = Ok (map (fun np =>
               (fst np, {| tokens := fst (metric w (snd np));
                           lines := snd (metric w (snd np)) |}))
            commands).
Proof.
  unfold measure_current, commands. cbn [for_each].
  repeat (rewrite measure_current_step; cbn [bind]).
  reflexivity.
Qed.

(** X2: the two scripts measure the same six commands.  Neither
    [measure_commands] nor [measure_current] ever raises; both give the six
    names in the order of the list, whatever files exist, and the same
    tokens and lines under each name. *)
Theorem commands_measured_alike (w : world) :
  exists cmds current,
    MeasureContext.measure_commands w = Ok cmds /\
    measure_current w = Ok current /\
    map fst cmds
    = ["execute.md"; "plan-issue.md"; "define-requirements.md";
       "research.md"; "debug.md"; "release-yolo.md"] /\
    map (fun e => (fst e, MeasureContext.tokens (snd e),
                   MeasureContext.lines (snd e))) cmds
    = map (fun e => (fst e, tokens (snd e), lines (snd e))) current /\
    forall name p,
      In (name, p) MeasureContext.commands ->
      exists info,
        dict_get cmds name = Some info /\
        MeasureContext.path info = p /\
        MeasureContext.count_tokens w p
        = Ok (MeasureContext.tokens info, MeasureContext.lines info).
Proof.
  eexists. eexists.
  split; [apply measure_commands_entries|].
  split; [apply measure_current_entries|].
  split; [reflexivity|]. split; [reflexivity|].
  intros name p Hin. rewrite count_tokens_metric.
  cbn [MeasureContext.commands In] in Hin.
  repeat (destruct Hin as [Hin|Hin];
          [injection Hin as <- <-; eexists; split;
           [reflexivity|split; [reflexivity|cbn; now destruct (metric w _)]]|]).
  destruct Hin.
Qed.

Lemma commands_measured_alike_witness :
  exists cmds current,
    MeasureContext.measure_commands Scenario.bare = Ok cmds /\
    measure_current Scenario.bare = Ok current /\
    map (fun e => (fst e, MeasureContext.tokens (snd e),
                   MeasureContext.lines (snd e))) cmds
    = map (fun e => (fst e, tokens (snd e), lines (snd e))) current /\
    map (fun e => (fst e, tokens (snd e), lines (snd e))) current
    = [("execute.md", 0, 0); ("plan-issue.md", 0, 0);
       ("define-requirements.md", 0, 0); ("research.md", 0, 0);
       ("debug.md", 0, 0); ("release-yolo.md", 0, 0)].
Proof.
  destruct (commands_measured_alike Scenario.bare)
    as [cmds [current [H1 [H2 [_ [H3 _]]]]]].
  exists cmds, current. split; [exact H1|]. split; [exact H2|].
  split; [exact H3|].
  rewrite measure_current_entries in H2. apply Ok_inj in H2. subst current.
  vm_compute. reflexivity.
Defined.

(** [measure_execute_invocation] always returns; its total is the three
    estimates and the two measurements. *)
Lemma measure_execute_invocation_value (w : world) :
  MeasureContext.measure_execute_invocation w
  = Ok (let exec_tokens := fst (metric w ".claude/commands/tiki/execute.md") in
        let claude_tokens := fst (metric w "CLAUDE.md") in
        let total := 3000 + exec_tokens + claude_tokens + 1500 + 500 in
        {| MeasureContext.components :=
             [("claude_code_system_prompt", 3000);
              ("execute_md", exec_tokens);
              ("claude_md", claude_tokens);
              ("plan_file", 1500);
              ("prev_summaries", 500)];
           MeasureContext.total_tokens := total;
           MeasureContext.remaining := 200000 - total;
           MeasureContext.pct_used :=
             round2 w (fmul_int (fdiv_int total 200000) 100) |}).
Proof.
  unfold MeasureContext.measure_execute_invocation.
  rewrite !count_tokens_metric. cbn [bind].
  destruct (metric w ".claude/commands/tiki/execute.md") as [exec_tokens ?].
  destruct (metric w "CLAUDE.md") as [claude_tokens ?].
  cbn [bind truediv fst]. change (200000 =? 0) with false. cbv iota.
  unfold sum, values. cbn [map snd fold_left].
  replace (0 + 3000 + exec_tokens + claude_tokens + 1500 + 500)
    with (3000 + exec_tokens + claude_tokens + 1500 + 500) by lia.
  reflexivity.
Qed.

(** X3: the invocation estimate never fails, whatever files exist.  Its
    total is the three fixed estimates (3000, 1500, 500) plus the measured
    tokens of [execute.md] and [CLAUDE.md], so at least 5000; it is the sum
    of the five components; the remaining budget is 200000 minus the total,
    so at most 195000. *)
Theorem execute_invocation_estimate (w : world) :
  exists inv exec_tokens exec_lines claude_tokens claude_lines,
    MeasureContext.measure_execute_invocation w = Ok inv /\
    MeasureContext.count_tokens w ".claude/commands/tiki/execute.md"
      = Ok (exec_tokens, exec_lines) /\
    MeasureContext.count_tokens w "CLAUDE.md"
      = Ok (claude_tokens, claude_lines) /\
    MeasureContext.total_tokens inv = 5000 + exec_tokens + claude_tokens /\
    MeasureContext.total_tokens inv
      = total_of snd (MeasureContext.components inv) /\
    map fst (MeasureContext.components inv)
      = ["claude_code_system_prompt"; "execute_md"; "claude_md"; "plan_file";
         "prev_summaries"] /\
    MeasureContext.remaining inv = 200000 - MeasureContext.total_tokens inv /\
    5000 <= MeasureContext.total_tokens inv /\
    MeasureContext.remaining inv <= 195000.
Proof.
  eexists.
  exists (fst (metric w ".claude/commands/tiki/execute.md")),
         (snd (metric w ".claude/commands/tiki/execute.md")),
         (fst (metric w "CLAUDE.md")), (snd (metric w "CLAUDE.md")).
  split; [apply measure_execute_invocation_value|].
  rewrite !count_tokens_metric, <- !surjective_pairing.
  split; [reflexivity|]. split; [reflexivity|].
  pose proof (metric_nonneg w ".claude/commands/tiki/execute.md") as [He _].
  pose proof (metric_nonneg w "CLAUDE.md") as [Hc _].
  cbv zeta.
  cbn [MeasureContext.total_tokens MeasureContext.components
       MeasureContext.remaining total_of fold_right map fst snd].
  repeat split; lia.
Qed.

Lemma execute_invocation_estimate_witness :
  exists inv,
    MeasureContext.measure_execute_invocation Scenario.bare = Ok inv /\
    MeasureContext.total_tokens inv = 5000 /\
    MeasureContext.remaining inv = 195000.
Proof.
  destruct (execute_invocation_estimate Scenario.bare)
    as [inv [e [el [c [cl [H1 [H2 [H3 [H4 [_ [_ [H5 _]]]]]]]]]]]].
  exists inv. split; [exact H1|].
  assert (He : e = 0) by (vm_compute in H2; now injection H2).
  assert (Hc : c = 0) by (vm_compute in H3; now injection H3).
  subst e c. split; [exact H4|]. rewrite H5, H4. reflexivity.
Defined.

(** *** The prompt-file mapping *)

Lemma dict_get_none_nil {V} (d : dict V) :
  (forall k, dict_get d k = None) -> d = [].
Proof.
  destruct d as [|[k v] d]; [reflexivity|].
  intros H. specialize (H k). cbn [dict_get] in H.
  now rewrite String.eqb_refl in H.
Qed.

Lemma existsb_eqb_In (n : string) (l : list string) :
  existsb (String.eqb n) l = true <-> In n l.
Proof.
  rewrite existsb_exists. split.
  - intros [x [Hin Hx]]. apply String.eqb_eq in Hx. now subst.
  - intros Hin. exists n. split; [exact Hin|apply String.eqb_refl].
Qed.

Lemma md_names_In (n : string) (names : list string) :
  In n (md_names names) <-> In n names /\ endswith n ".md" = true.
Proof. unfold md_names. apply (filter_In (fun n => endswith n ".md")). Qed.

Section PromptFiles.

Variable w : world.

(** One turn of the inner loop of [measure_prompt_files]. *)
Lemma measure_dir_step (d : string) (acc : dict MeasureContext.file_info)
    (n : string) :
  (if endswith n ".md" then
     let filepath := path_join d n in
     '(toks, lns) <- MeasureContext.count_tokens w filepath ;;
     Ok (dict_set acc n
           {| MeasureContext.file_tokens := toks;
              MeasureContext.file_lines := lns |})
   else Ok acc)
  = Ok (if endswith n ".md" then dict_set acc n (prompt_entry w d n) else acc).
Proof.
  destruct (endswith n ".md"); [|reflexivity].
  cbv zeta. rewrite count_tokens_metric. unfold prompt_entry.
  destruct (metric w (path_join d n)). reflexivity.
Qed.

(** The inner loop always returns; it holds an entry for a name exactly
    when the listing has the name and the name ends in [.md]. *)
Lemma measure_dir_loop (d : string) (names : list string) :
  forall acc,
    exists r,
      for_each names
        (fun dir_results filename =>
           if endswith filename ".md" then
             let filepath := path_join d filename in
             '(toks, lns) <- MeasureContext.count_tokens w filepath ;;
             Ok (dict_set dir_results filename
                   {| MeasureContext.file_tokens := toks;
                      MeasureContext.file_lines := lns |})
           else Ok dir_results) acc = Ok r /\
      forall n,
        dict_get r n
        = if existsb (String.eqb n) (md_names names)
          then Some (prompt_entry w d n) else dict_get acc n.
Proof.
  induction names as [|n0 names IH]; intros acc.
  - exists acc. split; reflexivity.
  - cbn [for_each]. rewrite measure_dir_step. cbn [bind].
    destruct (IH (if endswith n0 ".md"
                  then dict_set acc n0 (prompt_entry w d n0) else acc))
      as [r [Hr Hget]].
    exists r. split; [exact Hr|]. intros n. rewrite Hget.
    unfold md_names. cbn [filter]. fold (md_names names).
    destruct (endswith n0 ".md"); [|reflexivity].
    cbn [existsb]. rewrite dict_get_set.
    destruct (existsb (String.eqb n) (md_names names));
      [now rewrite orb_true_r|].
    rewrite orb_false_r, (String.eqb_sym n0 n).
    destruct (String.eqb_spec n n0) as [->|_]; reflexivity.
Qed.

Lemma measure_dir_get (d : string) (names : list string) :
  exists r,
    MeasureContext.measure_dir w d names = Ok r /\
    forall n,
      dict_get r n
      = if existsb (String.eqb n) (md_names names)
        then Some (prompt_entry w d n) else None.
Proof. exact (measure_dir_loop d names []). Qed.

(** A directory gives entries exactly when its listing has a name ending
    in [.md]. *)
Lemma measure_dir_empty (d : string) (names : list string)
    (r : dict MeasureContext.file_info) :
  MeasureContext.measure_dir w d names = Ok r ->
  (r = [] <-> md_names names = []).
Proof.
  intros Hr. destruct (measure_dir_get d names) as [r' [Hr' Hget]].
  assert (r' = r) by congruence. subst r'. split.
  - intros ->. destruct (md_names names) as [|n ns]; [reflexivity|].
    specialize (Hget n). cbn [existsb dict_get] in Hget.
    rewrite String.eqb_refl in Hget. discriminate.
  - intros Hmd. apply dict_get_none_nil. intros n.
    rewrite Hget, Hmd. reflexivity.
Qed.

(** One turn of the outer loop, for a directory that can be listed if it
    exists. *)
Lemma measure_prompt_dirs_step (acc : dict (dict MeasureContext.file_info))
    (d : string) :
  (path_exists w d = true -> exists names, listdir w d = Ok names) ->
  (if path_exists w d then
     names <- listdir w d ;;
     dir_results <- MeasureContext.measure_dir w d names ;;
     match dir_results with
     | [] => Ok acc
     | _ :: _ => Ok (dict_set acc d dir_results)
     end
   else Ok acc)
  = Ok (match dir_entries w d with
        | Some entries => dict_set acc d entries
        | None => acc
        end).
Proof.
  intros Hls. unfold dir_entries.
  destruct (path_exists w d); [|reflexivity].
  destruct (Hls eq_refl) as [names ->]. cbn [bind].
  destruct (measure_dir_get d names) as [r [-> _]]. cbn [bind].
  destruct r; reflexivity.
Qed.

(** The outer loop raises only when a listing does. *)
Lemma measure_prompt_dirs_listable (dirs : list string) :
  forall acc results,
    for_each dirs
      (fun results dir_path =>
         if path_exists w dir_path then
           names <- listdir w dir_path ;;
           dir_results <- MeasureContext.measure_dir w dir_path names ;;
           match dir_results with
           | [] => Ok results
           | _ :: _ => Ok (dict_set results dir_path dir_results)
           end
         else Ok results) acc = Ok results ->
    listable w dirs.
Proof.
  induction dirs as [|d0 dirs IH]; intros acc results H d Hin Hex.
  - destruct Hin.
  - cbn [for_each] in H.
    destruct (path_exists w d0) eqn:Hex0.
    + destruct (listdir w d0) as [names|e] eqn:Hls; [|discriminate].
      cbn [bind] in H.
      destruct (measure_dir_get d0 names) as [r [Hr _]].
      rewrite Hr in H. cbn [bind] in H.
      destruct Hin as [<-|Hin]; [now exists names|].
      destruct r; exact (IH _ _ H d Hin Hex).
    + cbn [bind] in H. destruct Hin as [<-|Hin]; [congruence|].
      exact (IH _ _ H d Hin Hex).
Qed.

Lemma measure_prompt_dirs_get (dirs : list string) :
  listable w dirs ->
  forall acc,
    exists results,
      for_each dirs
        (fun results dir_path =>
           if path_exists w dir_path then
             names <- listdir w dir_path ;;
             dir_results <- MeasureContext.measure_dir w dir_path names ;;
             match dir_results with
             | [] => Ok results
             | _ :: _ => Ok (dict_set results dir_path dir_results)
             end
           else Ok results) acc = Ok results /\
      forall d,
        dict_get results d
        = if existsb (String.eqb d) dirs
          then match dir_entries w d with
               | Some entries => Some entries
               | None => dict_get acc d
               end
          else dict_get acc d.
Proof.
  induction dirs as [|d0 dirs IH]; intros Hls acc.
  - exists acc. split; reflexivity.
  - cbn [for_each].
    rewrite measure_prompt_dirs_step by (apply Hls; now left).
    cbn [bind].
    destruct (IH (fun d Hin => Hls d (or_intror Hin))
                 (match dir_entries w d0 with
                  | Some entries => dict_set acc d0 entries
                  | None => acc
                  end)) as [results [Hr Hget]].
    exists results. split; [exact Hr|]. intros d. rewrite Hget.
    cbn [existsb].
    destruct (String.eqb_spec d d0) as [->|Hne]; cbn [orb].
    + destruct (dir_entries w d0) as [entries|] eqn:He.
      * rewrite dict_get_set, String.eqb_refl.
        now destruct (existsb (String.eqb d0) dirs).
      * now destruct (existsb (String.eqb d0) dirs).
    + assert (Hacc : dict_get (match dir_entries w d0 with
                               | Some entries => dict_set acc d0 entries
                               | None => acc
                               end) d = dict_get acc d).
      { destruct (dir_entries w d0); [|reflexivity].
        rewrite dict_get_set.
        destruct (String.eqb_spec d0 d); [congruence|reflexivity]. }
      now rewrite Hacc.
Qed.

(** What [measure_prompt_files] returns, key by key. *)
Lemma measure_prompt_files_get
    (results : dict (dict MeasureContext.file_info)) :
  MeasureContext.measure_prompt_files w = Ok results ->
  forall d,
    dict_get results d
    = if existsb (String.eqb d) MeasureContext.prompt_dirs
      then dir_entries w d else None.
Proof.
  intros H d.
  pose proof (measure_prompt_dirs_listable _ _ _ H) as Hls.
  destruct (measure_prompt_dirs_get _ Hls []) as [results' [Hr Hget]].
  unfold MeasureContext.measure_prompt_files,
    MeasureContext.measure_prompt_dirs in H.
  assert (results' = results) by congruence. subst results'.
  rewrite Hget. cbn [dict_get].
  now destruct (dir_entries w d); destruct (existsb _ _).
Qed.

End PromptFiles.

(** X4: the prompt-file mapping holds exactly the markdown files of the
    prompt directories.  Every name ending in [.md] in the listing of an
    existing prompt directory has an entry under that directory, with the
    measurement of [dir/name]; and every entry comes from such a name: other
    files, and directories outside the list, never appear. *)
Theorem prompt_files_entries (w : world)
    (results : dict (dict MeasureContext.file_info)) :
  MeasureContext.measure_prompt_files w = Ok results ->
  (forall d names n,
     In d MeasureContext.prompt_dirs ->
     path_exists w d = true ->
     listdir w d = Ok names ->
     In n names ->
     endswith n ".md" = true ->
     exists entries info,
       dict_get results d = Some entries /\
       dict_get entries n = Some info /\
       MeasureContext.count_tokens w (path_join d n)
       = Ok (MeasureContext.file_tokens info,
             MeasureContext.file_lines info)) /\
  (forall d entries n info,
     dict_get results d = Some entries ->
     dict_get entries n = Some info ->
     In d MeasureContext.prompt_dirs /\
     path_exists w d = true /\
     endswith n ".md" = true /\
     (exists names, listdir w d = Ok names /\ In n names) /\
     MeasureContext.count_tokens w (path_join d n)
     = Ok (MeasureContext.file_tokens info, MeasureContext.file_lines info)).
Proof.
  intros H. pose proof (measure_prompt_files_get w results H) as Hget.
  split.
  - intros d names n Hd Hex Hls Hn Hmd.
    specialize (Hget d).
    rewrite (proj2 (existsb_eqb_In d _) Hd) in Hget.
    unfold dir_entries in Hget. rewrite Hex, Hls in Hget.
    destruct (measure_dir_get w d names) as [r [Hr Hentries]].
    rewrite Hr in Hget. specialize (Hentries n).
    rewrite (proj2 (existsb_eqb_In n _)
               (proj2 (md_names_In n names) (conj Hn Hmd))) in Hentries.
    destruct r as [|e es]; [discriminate|].
    exists (e :: es), (prompt_entry w d n).
    split; [exact Hget|]. split; [exact Hentries|].
    rewrite count_tokens_metric. unfold prompt_entry.
    cbn [MeasureContext.file_tokens MeasureContext.file_lines].
    now rewrite <- surjective_pairing.
  - intros d entries n info Hd Hn. rewrite Hget in Hd.
    destruct (existsb (String.eqb d) MeasureContext.prompt_dirs) eqn:Hin;
      [|discriminate].
    apply existsb_eqb_In in Hin. unfold dir_entries in Hd.
    destruct (path_exists w d); [|discriminate].
    destruct (listdir w d) as [names|e]; [|discriminate].
    destruct (measure_dir_get w d names) as [r [Hr Hentries]].
    rewrite Hr in Hd. destruct r as [|e es]; [discriminate|].
    injection Hd as <-. rewrite Hentries in Hn.
    destruct (existsb (String.eqb n) (md_names names)) eqn:Hmd;
      [|discriminate].
    apply existsb_eqb_In, md_names_In in Hmd. destruct Hmd as [Hnin Hmd].
    injection Hn as <-.
    split; [exact Hin|]. split; [reflexivity|]. split; [exact Hmd|].
    split; [now exists names|].
    rewrite count_tokens_metric. unfold prompt_entry.
    cbn [MeasureContext.file_tokens MeasureContext.file_lines].
    now rewrite <- surjective_pairing.
Qed.

Lemma prompt_files_entries_witness :
  MeasureContext.measure_prompt_files Sample.env
    = Ok (MeasureContext.prompt_files sample_snapshot) /\
  listdir Sample.env ".tiki/prompts/execute" = Ok ["phase.md"; "notes.txt"] /\
  (exists entries info,
     dict_get (MeasureContext.prompt_files sample_snapshot)
       ".tiki/prompts/execute" = Some entries /\
     dict_get entries "phase.md" = Some info /\
     MeasureContext.count_tokens Sample.env
       (path_join ".tiki/prompts/execute" "phase.md")
     = Ok (MeasureContext.file_tokens info, MeasureContext.file_lines info)) /\
  MeasureContext.count_tokens Sample.env ".tiki/prompts/execute/phase.md"
    = Ok (6, 2).
Proof.
  assert (H : MeasureContext.measure_prompt_files Sample.env
              = Ok (MeasureContext.prompt_files sample_snapshot))
    by (vm_compute; reflexivity).
  split; [exact H|]. split; [reflexivity|].
  split; [|vm_compute; reflexivity].
  apply (proj1 (prompt_files_entries Sample.env _ H)
           ".tiki/prompts/execute" ["phase.md"; "notes.txt"] "phase.md").
  - simpl. tauto.
  - reflexivity.
  - reflexivity.
  - simpl. tauto.
  - reflexivity.
Defined.

(** *** What [main] of measure-context.py prints *)

Lemma for_each_app {A S} (step : S -> A -> result S) (xs ys : list A)
    (acc : S) :
  for_each (xs ++ ys) step acc
  = bind (for_each xs step acc) (for_each ys step).
Proof.
  revert acc. induction xs as [|x xs IH]; intros acc; cbn [for_each app bind].
  - reflexivity.
  - destruct (step acc x) as [s|e]; cbn [bind]; [apply IH|reflexivity].
Qed.

Lemma listable_app (w : world) (xs ys : list string) :
  listable w (xs ++ ys) <-> listable w xs /\ listable w ys.
Proof.
  unfold listable. split.
  - intros H. split; intros d Hin; apply H, in_or_app; tauto.
  - intros [Hx Hy] d Hin. apply in_app_or in Hin. destruct Hin; auto.
Qed.

(** The outer loop stops at the first existing directory whose listing
    raises. *)
Lemma measure_prompt_dirs_raises (w : world) (pre post : list string)
    (d : string) (e : exn) :
  listable w pre ->
  path_exists w d = true ->
  listdir w d = Raise e ->
  MeasureContext.measure_prompt_dirs w (pre ++ d :: post) = Raise e.
Proof.
  intros Hpre Hex Hls. unfold MeasureContext.measure_prompt_dirs.
  rewrite for_each_app.
  destruct (measure_prompt_dirs_get w pre Hpre []) as [r [-> _]].
  cbn [bind for_each]. rewrite Hex, Hls. reflexivity.
Qed.

Lemma measure_prompt_files_returns (w : world) :
  listable w MeasureContext.prompt_dirs ->
  exists results, MeasureContext.measure_prompt_files w = Ok results.
Proof.
  intros Hls.
  destruct (measure_prompt_dirs_get w _ Hls []) as [r [Hr _]].
  now exists r.
Qed.

(** The snapshot, once the prompt files are measured. *)
Lemma build_data_value (w : world)
    (prompts : dict (dict MeasureContext.file_info)) :
  MeasureContext.measure_prompt_files w = Ok prompts ->
  exists inv,
    MeasureContext.measure_execute_invocation w = Ok inv /\
    MeasureContext.build_data w
    = Ok {| MeasureContext.timestamp := now_isoformat w;
            MeasureContext.snap_commands :=
              map (command_entry w) MeasureContext.commands;
            MeasureContext.execute_invocation := inv;
            MeasureContext.prompt_files := prompts;
            MeasureContext.snap_totals :=
              {| MeasureContext.all_large_commands_tokens :=
                   sum (map MeasureContext.tokens
                          (values (map (command_entry w)
                                     MeasureContext.commands)));
                 MeasureContext.all_large_commands_lines :=
                   sum (map MeasureContext.lines
                          (values (map (command_entry w)
                                     MeasureContext.commands))) |} |}.
Proof.
  intros Hp. eexists. split; [apply measure_execute_invocation_value|].
  unfold MeasureContext.build_data.
  rewrite measure_commands_entries, measure_execute_invocation_value, Hp.
  reflexivity.
Qed.

Lemma build_data_raises (w : world) (e : exn) :
  MeasureContext.measure_prompt_files w = Raise e ->
  MeasureContext.build_data w = Raise e.
Proof.
  intros Hp. unfold MeasureContext.build_data.
  rewrite measure_commands_entries, measure_execute_invocation_value, Hp.
  reflexivity.
Qed.

Lemma command_rows_value (cmds : dict MeasureContext.command_info) :
  MeasureReport.command_rows cmds
  = (map (fun e => MeasureReport.CommandRow (fst e)
                     (MeasureContext.lines (snd e))
                     (MeasureContext.tokens (snd e))
                     (MeasureContext.pct_of_200k (snd e))) cmds,
     Ok tt).
Proof.
  unfold MeasureReport.command_rows.
  induction cmds as [|[name info] cmds IH]; [reflexivity|].
  cbn [for_io]. unfold iobind. cbn [print fst snd]. rewrite IH. reflexivity.
Qed.

Lemma component_rows_value (components : dict Z) :
  MeasureReport.component_rows components
  = (map (fun e => MeasureReport.ComponentRow (fst e) (snd e)) components,
     Ok tt).
Proof.
  unfold MeasureReport.component_rows.
  induction components as [|[name toks] components IH]; [reflexivity|].
  cbn [for_io]. unfold iobind. cbn [print fst snd]. rewrite IH. reflexivity.
Qed.

Lemma file_rows_value (files : dict MeasureContext.file_info) :
  for_io files
    (fun (_ : unit) '(filename, info) =>
       print (MeasureReport.FileRow filename (MeasureContext.file_lines info)
                (MeasureContext.file_tokens info))) tt
  = (map (fun e => MeasureReport.FileRow (fst e)
                     (MeasureContext.file_lines (snd e))
                     (MeasureContext.file_tokens (snd e))) files,
     Ok tt).
Proof.
  induction files as [|[name info] files IH]; [reflexivity|].
  cbn [for_io]. unfold iobind. cbn [print fst snd]. rewrite IH. reflexivity.
Qed.

Lemma directory_rows_value
    (prompt_files : dict (dict MeasureContext.file_info)) :
  MeasureReport.directory_rows prompt_files
  = (flat_map
       (fun e =>
          MeasureReport.Directory (fst e)
          :: map (fun f => MeasureReport.FileRow (fst f)
                             (MeasureContext.file_lines (snd f))
                             (MeasureContext.file_tokens (snd f))) (snd e))
       prompt_files,
     Ok tt).
Proof.
  unfold MeasureReport.directory_rows.
  induction prompt_files as [|[d files] prompt_files IH]; [reflexivity|].
  cbn [for_io]. rewrite file_rows_value. unfold iobind at 1 2.
  cbn [print fst snd app]. rewrite IH. reflexivity.
Qed.

(** The lines of the pretty print, block by block. *)
Lemma tables_value (data : MeasureContext.snapshot) :
  MeasureReport.tables data
  = (([MeasureReport.Rule "=";
       MeasureReport.Title (take 10 (MeasureContext.timestamp data));
       MeasureReport.Rule "=";
       MeasureReport.Blank;
       MeasureReport.Text "LARGE COMMANDS";
       MeasureReport.Rule "-";
       MeasureReport.Header ["Command"; "Lines"; "Tokens"; "% of 200K"];
       MeasureReport.Rule "-"] ++
      fst (MeasureReport.command_rows (MeasureContext.snap_commands data)) ++
      [MeasureReport.Rule "-";
       MeasureReport.TotalRow
         (MeasureContext.all_large_commands_lines
            (MeasureContext.snap_totals data))
         (MeasureContext.all_large_commands_tokens
            (MeasureContext.snap_totals data))
         (fmul_int
            (fdiv_int (MeasureContext.all_large_commands_tokens
                         (MeasureContext.snap_totals data)) 200000) 100);
       MeasureReport.Blank;
       MeasureReport.Text "TYPICAL /tiki:execute INVOCATION";
       MeasureReport.Rule "-";
       MeasureReport.Header ["Component"; "Tokens"];
       MeasureReport.Rule "-"] ++
      fst (MeasureReport.component_rows
             (MeasureContext.components
                (MeasureContext.execute_invocation data))) ++
      [MeasureReport.Rule "-";
       MeasureReport.InvocationTotal
         (MeasureContext.total_tokens (MeasureContext.execute_invocation data));
       MeasureReport.InvocationRemaining
         (MeasureContext.remaining (MeasureContext.execute_invocation data));
       MeasureReport.ContextUsed
         (MeasureContext.pct_used (MeasureContext.execute_invocation data));
       MeasureReport.Blank] ++
      match MeasureContext.prompt_files data with
      | [] =>
          [MeasureReport.Text
             "No extracted prompt files found yet (run after refactoring)"]
      | _ :: _ =>
          MeasureReport.Text "EXTRACTED PROMPT FILES (sub-agent context)"
          :: MeasureReport.Rule "-"
          :: fst (MeasureReport.directory_rows
                    (MeasureContext.prompt_files data))
      end ++
      [MeasureReport.Blank;
       MeasureReport.Rule "=";
       MeasureReport.Text "To save baseline: python .tiki/scripts/measure-context.py --json > .tiki/context-baseline.json";
       MeasureReport.Rule "="])%list,
     Ok tt).
Proof.
  unfold MeasureReport.tables.
  rewrite command_rows_value, component_rows_value.
  unfold truediv. change (200000 =? 0) with false. cbv iota.
  destruct (MeasureContext.prompt_files data) as [|entry entries].
  - cbn [iobind print lift fst snd app]. reflexivity.
  - rewrite directory_rows_value.
    cbn [iobind print lift fst snd app].
    rewrite <- ?app_assoc. reflexivity.
Qed.

Lemma flat_map_map_nil {A B C} (f : B -> list C) (g : A -> B) (l : list A) :
  (forall x, f (g x) = []) -> flat_map f (map g l) = [].
Proof.
  intros H. induction l as [|x l IH]; cbn [map flat_map]; [reflexivity|].
  now rewrite H, IH.
Qed.

Lemma flat_map_map_one {A B C} (f : B -> list C) (g : A -> B) (h : A -> C)
    (l : list A) :
  (forall x, f (g x) = [h x]) -> flat_map f (map g l) = map h l.
Proof.
  intros H. induction l as [|x l IH]; cbn [map flat_map]; [reflexivity|].
  now rewrite H, IH.
Qed.

Lemma flat_map_flat_map_nil {A B C} (f : B -> list C) (g : A -> list B)
    (l : list A) :
  (forall x, flat_map f (g x) = []) -> flat_map f (flat_map g l) = [].
Proof.
  intros H. induction l as [|x l IH]; cbn [flat_map]; [reflexivity|].
  now rewrite flat_map_app, H, IH.
Qed.

(** Rewriting a filter of the output block by block. *)
Ltac blocks_open :=
  rewrite ?flat_map_app, ?command_rows_value, ?component_rows_value,
    ?directory_rows_value;
  cbn [fst flat_map app].

Ltac blocks_nil :=
  repeat first
    [ rewrite flat_map_app
    | rewrite flat_map_map_nil by (intros; reflexivity)
    | rewrite flat_map_flat_map_nil
        by (intros; cbn [flat_map app]; apply flat_map_map_nil;
            intros; reflexivity) ];
  cbn [app]; rewrite ?app_nil_r.

Lemma tables_command_rows (data : MeasureContext.snapshot) :
  command_rows_of (fst (MeasureReport.tables data))
  = map (fun e => (fst e, MeasureContext.lines (snd e),
                   MeasureContext.tokens (snd e)))
        (MeasureContext.snap_commands data).
Proof.
  rewrite tables_value. unfold command_rows_of. cbn [fst].
  destruct (MeasureContext.prompt_files data); blocks_open;
    rewrite (flat_map_map_one _ _
               (fun e => (fst e, MeasureContext.lines (snd e),
                          MeasureContext.tokens (snd e))))
      by reflexivity;
    blocks_nil; reflexivity.
Qed.

Lemma tables_total_rows (data : MeasureContext.snapshot) :
  total_rows_of (fst (MeasureReport.tables data))
  = [(MeasureContext.all_large_commands_lines
        (MeasureContext.snap_totals data),
      MeasureContext.all_large_commands_tokens
        (MeasureContext.snap_totals data))].
Proof.
  rewrite tables_value. unfold total_rows_of. cbn [fst].
  destruct (MeasureContext.prompt_files data); blocks_open; blocks_nil;
    reflexivity.
Qed.

Lemma tables_component_rows (data : MeasureContext.snapshot) :
  component_rows_of (fst (MeasureReport.tables data))
  = values (MeasureContext.components
              (MeasureContext.execute_invocation data)).
Proof.
  rewrite tables_value. unfold component_rows_of. cbn [fst].
  destruct (MeasureContext.prompt_files data); blocks_open;
    rewrite (flat_map_map_one _ _ snd) by reflexivity;
    blocks_nil; reflexivity.
Qed.

Lemma tables_invocation_totals (data : MeasureContext.snapshot) :
  invocation_totals_of (fst (MeasureReport.tables data))
  = [MeasureContext.total_tokens (MeasureContext.execute_invocation data)].
Proof.
  rewrite tables_value. unfold invocation_totals_of. cbn [fst].
  destruct (MeasureContext.prompt_files data); blocks_open; blocks_nil;
    reflexivity.
Qed.

Lemma tables_texts (data : MeasureContext.snapshot) :
  texts_of (fst (MeasureReport.tables data))
  = ["LARGE COMMANDS";
     "TYPICAL /tiki:execute INVOCATION";
     match MeasureContext.prompt_files data with
     | [] => "No extracted prompt files found yet (run after refactoring)"
     | _ :: _ => "EXTRACTED PROMPT FILES (sub-agent context)"
     end;
     "To save baseline: python .tiki/scripts/measure-context.py --json > .tiki/context-baseline.json"].
Proof.
  rewrite tables_value. unfold texts_of. cbn [fst].
  destruct (MeasureContext.prompt_files data); blocks_open; blocks_nil;
    reflexivity.
Qed.

Lemma In_Text_texts_of (s : string) (out : list MeasureReport.line) :
  In (MeasureReport.Text s) out <-> In s (texts_of out).
Proof.
  unfold texts_of. rewrite in_flat_map. split.
  - intros H. exists (MeasureReport.Text s). split; [exact H|now left].
  - intros [l [Hin Hl]]. destruct l; cbn [In] in Hl; try contradiction.
    destruct Hl as [<-|[]]. exact Hin.
Qed.

Lemma iobind_lift_Ok {O A B} (a : A) (k : A -> io O B) :
  iobind (lift (Ok a)) k = k a.
Proof. unfold iobind, lift. cbn [fst snd app]. now destruct (k a). Qed.

(** Without [--json], [main] prints the tables of the snapshot. *)
Lemma report_main_tables (w : world) (data : MeasureContext.snapshot) :
  MeasureContext.build_data w = Ok data ->
  existsb (String.eqb "--json") (argv w) = false ->
  MeasureReport.main w = MeasureReport.tables data.
Proof.
  intros Hdata Hflag. unfold MeasureReport.main.
  rewrite Hdata, Hflag. apply iobind_lift_Ok.
Qed.

(** What a snapshot holds, read off the run that built it. *)
Lemma build_data_fields (w : world) (data : MeasureContext.snapshot) :
  MeasureContext.build_data w = Ok data ->
  MeasureContext.measure_prompt_files w
    = Ok (MeasureContext.prompt_files data) /\
  MeasureContext.measure_execute_invocation w
    = Ok (MeasureContext.execute_invocation data) /\
  MeasureContext.snap_commands data
    = map (command_entry w) MeasureContext.commands /\
  MeasureContext.timestamp data = now_isoformat w /\
  MeasureContext.all_large_commands_tokens (MeasureContext.snap_totals data)
    = sum (map MeasureContext.tokens
             (values (MeasureContext.snap_commands data))) /\
  MeasureContext.all_large_commands_lines (MeasureContext.snap_totals data)
    = sum (map MeasureContext.lines
             (values (MeasureContext.snap_commands data))).
Proof.
  intros H.
  destruct (MeasureContext.measure_prompt_files w) as [prompts|e] eqn:Hp.
  - destruct (build_data_value w prompts Hp) as [inv [Hinv Hdata]].
    rewrite Hdata in H. injection H as <-. rewrite Hinv.
    repeat split; reflexivity.
  - rewrite (build_data_raises w e Hp) in H. discriminate.
Qed.

(** No directory gives an entry exactly when no listing of an existing
    prompt directory has a name ending in [.md]. *)
Lemma prompt_files_empty (w : world)
    (results : dict (dict MeasureContext.file_info)) :
  MeasureContext.measure_prompt_files w = Ok results ->
  (results = [] <->
   forall d names n,
     In d MeasureContext.prompt_dirs ->
     path_exists w d = true ->
     listdir w d = Ok names ->
     In n names ->
     endswith n ".md" = false).
Proof.
  intros H. pose proof (measure_prompt_files_get w results H) as Hget.
  split.
  - intros -> d names n Hd Hex Hls Hn.
    specialize (Hget d). cbn [dict_get] in Hget.
    rewrite (proj2 (existsb_eqb_In d _) Hd) in Hget.
    unfold dir_entries in Hget. rewrite Hex, Hls in Hget.
    destruct (MeasureContext.measure_dir w d names) as [r|e] eqn:Hr.
    + destruct r as [|e es]; [|discriminate].
      pose proof (proj1 (measure_dir_empty w d names [] Hr) eq_refl) as Hmd.
      destruct (endswith n ".md") eqn:E; [|reflexivity].
      pose proof (proj2 (md_names_In n names) (conj Hn E)) as Hin.
      rewrite Hmd in Hin. destruct Hin.
    + destruct (measure_dir_get w d names) as [r [Hr' _]]. congruence.
  - intros Hnone. apply dict_get_none_nil. intros d. rewrite Hget.
    destruct (existsb (String.eqb d) MeasureContext.prompt_dirs) eqn:Hin;
      [|reflexivity].
    apply existsb_eqb_In in Hin. unfold dir_entries.
    destruct (path_exists w d) eqn:Hex; [|reflexivity].
    destruct (listdir w d) as [names|e] eqn:Hls; [|reflexivity].
    destruct (MeasureContext.measure_dir w d names) as [r|e] eqn:Hr;
      [|reflexivity].
    assert (Hmd : md_names names = []).
    { destruct (md_names names) as [|n ns] eqn:E; [reflexivity|].
      assert (Hn : In n (md_names names)) by (rewrite E; now left).
      apply md_names_In in Hn. destruct Hn as [Hn Hmd].
      rewrite (Hnone d names n Hin Hex Hls Hn) in Hmd. discriminate. }
    rewrite (proj2 (measure_dir_empty w d names r Hr) Hmd). reflexivity.
Qed.

(** X5: without [--json], the line "No extracted prompt files found yet"
    is printed exactly when no existing prompt directory lists a name ending
    in [.md]: directories that are missing, empty, or hold only other files
    all count as nothing extracted. *)
Theorem no_prompt_files_message (w : world) (data : MeasureContext.snapshot) :
  MeasureContext.build_data w = Ok data ->
  existsb (String.eqb "--json") (argv w) = false ->
  (In (MeasureReport.Text
         "No extracted prompt files found yet (run after refactoring)")
      (fst (MeasureReport.main w)) <->
   forall d names n,
     In d MeasureContext.prompt_dirs ->
     path_exists w d = true ->
     listdir w d = Ok names ->
     In n names ->
     endswith n ".md" = false).
Proof.
  intros Hdata Hflag.
  destruct (build_data_fields w data Hdata) as [Hp _].
  rewrite <- (prompt_files_empty w _ Hp).
  rewrite (report_main_tables w data Hdata Hflag).
  rewrite In_Text_texts_of, tables_texts.
  destruct (MeasureContext.prompt_files data) as [|entry entries].
  - split; [reflexivity|]. intros _. cbn [In]. tauto.
  - split; [|discriminate]. cbn [In].
    intros [H|[H|[H|[H|[]]]]]; discriminate H.
Qed.

Lemma no_prompt_files_message_witness :
  path_exists Scenario.unextracted ".tiki/prompts/plan" = true /\
  listdir Scenario.unextracted ".tiki/prompts/plan" = Ok ["README.txt"] /\
  (exists data, MeasureContext.build_data Scenario.unextracted = Ok data) /\
  In (MeasureReport.Text
        "No extracted prompt files found yet (run after refactoring)")
     (fst (MeasureReport.main Scenario.unextracted)).
Proof.
  split; [reflexivity|]. split; [reflexivity|].
  destruct (MeasureContext.build_data Scenario.unextracted) as [data|e] eqn:H;
    [|vm_compute in H; discriminate H].
  split; [now exists data|].
  apply (proj2 (no_prompt_files_message Scenario.unextracted data H eq_refl)).
  intros d names n _ Hex Hls Hn.
  cbn [Scenario.unextracted path_exists listdir] in Hex, Hls.
  unfold Scenario.unextracted_directories in Hls. cbn [dict_get] in Hls.
  destruct (String.eqb ".tiki/prompts/plan" d).
  - injection Hls as <-. destruct Hn as [<-|[]]. reflexivity.
  - destruct (String.eqb ".tiki/prompts/debug" d); [|discriminate Hls].
    injection Hls as <-. destruct Hn.
Defined.

(** X6: in the tables that measure-context.py writes, the six command rows
    come in the order of the list, the TOTAL row carries the sums of their
    lines and of their tokens, and the invocation total is the sum of the
    five component rows. *)
Theorem tables_totals (w : world) (data : MeasureContext.snapshot) :
  MeasureContext.build_data w = Ok data ->
  existsb (String.eqb "--json") (argv w) = false ->
  let out := fst (MeasureReport.main w) in
  map (fun r => fst (fst r)) (command_rows_of out)
  = ["execute.md"; "plan-issue.md"; "define-requirements.md";
     "research.md"; "debug.md"; "release-yolo.md"] /\
  total_rows_of out
  = [(total_of (fun r => snd (fst r)) (command_rows_of out),
      total_of snd (command_rows_of out))] /\
  invocation_totals_of out = [total_of (fun t => t) (component_rows_of out)] /\
  List.length (component_rows_of out) = 5%nat.
Proof.
  intros Hdata Hflag out. subst out.
  destruct (build_data_fields w data Hdata)
    as [_ [Hinv [Hcmds [_ [Htoks Hlns]]]]].
  rewrite (report_main_tables w data Hdata Hflag).
  rewrite tables_command_rows, tables_total_rows, tables_component_rows,
    tables_invocation_totals, Htoks, Hlns, !sum_map.
  rewrite measure_execute_invocation_value in Hinv. apply Ok_inj in Hinv.
  rewrite <- Hinv, Hcmds. cbv zeta.
  cbn [MeasureContext.total_tokens MeasureContext.components values map snd
       total_of fold_right length].
  split; [reflexivity|]. split; [|split; [f_equal; lia|reflexivity]].
  unfold values. rewrite !map_map. unfold total_of.
  cbn [MeasureContext.commands map fold_right fst snd command_entry
       MeasureContext.tokens MeasureContext.lines].
  reflexivity.
Qed.

Lemma tables_totals_witness :
  command_rows_of (fst (MeasureReport.main Scenario.plain))
  = [("execute.md", 3, 23); ("plan-issue.md", 1, 6);
     ("define-requirements.md", 0, 0); ("research.md", 0, 0);
     ("debug.md", 0, 0); ("release-yolo.md", 0, 0)] /\
  component_rows_of (fst (MeasureReport.main Scenario.plain))
  = [3000; 23; 10; 1500; 500] /\
  total_rows_of (fst (MeasureReport.main Scenario.plain))
  = [(total_of (fun r => snd (fst r))
        (command_rows_of (fst (MeasureReport.main Scenario.plain))),
      total_of snd
        (command_rows_of (fst (MeasureReport.main Scenario.plain))))] /\
  total_rows_of (fst (MeasureReport.main Scenario.plain)) = [(4, 29)] /\
  invocation_totals_of (fst (MeasureReport.main Scenario.plain)) = [5033].
Proof.
  split; [vm_compute; reflexivity|]. split; [vm_compute; reflexivity|].
  split; [|split; vm_compute; reflexivity].
  refine (proj1 (proj2
            (tables_totals Scenario.plain
               match MeasureContext.build_data Scenario.plain with
               | Ok data => data
               | Raise _ => sample_snapshot
               end _ eq_refl))).
  vm_compute. reflexivity.
Defined.

(** X7: the measurements of measure-context.py fail only through
    [os.listdir].  When every prompt directory that exists can be listed,
    the snapshot is built, before anything is written: missing or unreadable
    files make no difference.  What the run then writes is the document
    alone under [--json], and the tables of that snapshot otherwise. *)
Theorem snapshot_built (w : world) :
  (forall d, In d MeasureContext.prompt_dirs -> path_exists w d = true ->
             exists names, listdir w d = Ok names) ->
  exists data,
    MeasureContext.build_data w = Ok data /\
    MeasureContext.timestamp data = now_isoformat w /\
    map fst (MeasureContext.snap_commands data)
    = map fst MeasureContext.commands /\
    fst (MeasureReport.main w)
    = if existsb (String.eqb "--json") (argv w)
      then [MeasureReport.Document data]
      else fst (MeasureReport.tables data).
Proof.
  intros Hls.
  destruct (measure_prompt_files_returns w Hls) as [prompts Hp].
  destruct (build_data_value w prompts Hp) as [inv [_ Hdata]].
  eexists. split; [exact Hdata|].
  split; [reflexivity|]. split; [reflexivity|].
  unfold MeasureReport.main. rewrite Hdata, iobind_lift_Ok.
  now destruct (existsb (String.eqb "--json") (argv w)).
Qed.

Lemma snapshot_built_witness :
  exists data,
    MeasureContext.build_data Scenario.plain = Ok data /\
    fst (MeasureReport.main Scenario.plain)
    = fst (MeasureReport.tables data).
Proof.
  destruct (snapshot_built Scenario.plain) as [data [H1 [_ [_ H2]]]].
  - intros d _ Hex. cbn [Scenario.plain Sample.env path_exists listdir] in *.
    destruct (dict_get Sample.directories d) as [names|];
      [now exists names|discriminate].
  - exists data. split; [exact H1|exact H2].
Defined.

(** ** More on the comparator *)

Lemma total_of_app {A} (f : A -> Z) (l l' : list A) :
  total_of f (l ++ l') = total_of f l + total_of f l'.
Proof.
  unfold total_of. induction l as [|x l IH]; cbn [app fold_right]; lia.
Qed.

Section ComparePrompts.

Variable w : world.

Lemma measure_prompt_files_steps :
  measure_prompt_files w
  = for_each prompt_dirs (compare_dir_step w)
      {| total_tokens := 0; total_lines := 0; files := [] |}.
Proof. reflexivity. Qed.

Lemma compare_file_step_value (d : string) (acc : prompt_report)
    (n : string) :
  compare_file_step w d acc n
  = Ok (if endswith n ".md" then
          {| total_tokens :=
               total_tokens acc + file_tokens (prompt_file_of w d n);
             total_lines :=
               total_lines acc + file_lines (prompt_file_of w d n);
             files := (files acc ++ [prompt_file_of w d n])%list |}
        else acc).
Proof.
  unfold compare_file_step. destruct (endswith n ".md"); [|reflexivity].
  cbv zeta. rewrite count_tokens_same, count_tokens_metric.
  unfold prompt_file_of. destruct (metric w (path_join d n)). reflexivity.
Qed.

(** The inner loop always returns: it appends the markdown files of the
    listing and adds their counts. *)
Lemma compare_file_loop (d : string) (names : list string) :
  forall acc,
    for_each names (compare_file_step w d) acc
    = Ok {| total_tokens :=
              total_tokens acc
              + total_of file_tokens
                  (map (prompt_file_of w d) (md_names names));
            total_lines :=
              total_lines acc
              + total_of file_lines
                  (map (prompt_file_of w d) (md_names names));
            files :=
              (files acc ++ map (prompt_file_of w d) (md_names names))%list |}.
Proof.
  induction names as [|n names IH]; intros acc.
  - cbn [for_each md_names filter map total_of fold_right].
    rewrite !Z.add_0_r, app_nil_r. now destruct acc.
  - cbn [for_each]. rewrite compare_file_step_value. cbn [bind].
    rewrite IH. unfold md_names. cbn [filter]. fold (md_names names).
    destruct (endswith n ".md"); [|reflexivity].
    cbn [total_tokens total_lines files map].
    rewrite <- app_assoc. cbn [app].
    unfold total_of. cbn [fold_right]. f_equal. f_equal; lia.
Qed.

(** The outer loop returns when every existing directory can be listed. *)
Lemma compare_dir_loop (dirs : list string) :
  listable w dirs ->
  forall acc,
    for_each dirs (compare_dir_step w) acc
    = Ok {| total_tokens :=
              total_tokens acc + total_of file_tokens (found w dirs);
            total_lines :=
              total_lines acc + total_of file_lines (found w dirs);
            files := (files acc ++ found w dirs)%list |}.
Proof.
  induction dirs as [|d dirs IH]; intros Hls acc.
  - cbn [for_each found flat_map total_of fold_right].
    rewrite !Z.add_0_r, app_nil_r. now destruct acc.
  - cbn [for_each]. unfold compare_dir_step at 1.
    unfold found. cbn [flat_map]. fold (found w dirs).
    destruct (path_exists w d) eqn:Hex.
    + destruct (Hls d (or_introl eq_refl) Hex) as [names ->].
      cbn [bind]. rewrite compare_file_loop. cbn [bind].
      rewrite IH by (intros d' Hin; apply Hls; now right).
      cbn [total_tokens total_lines files].
      rewrite !total_of_app, <- app_assoc. f_equal. f_equal; lia.
    + cbn [bind app]. apply IH. intros d' Hin. apply Hls. now right.
Qed.

(** It raises only when a listing does. *)
Lemma compare_dir_listable (dirs : list string) :
  forall acc report,
    for_each dirs (compare_dir_step w) acc = Ok report -> listable w dirs.
Proof.
  induction dirs as [|d0 dirs IH]; intros acc report H d Hin Hex.
  - destruct Hin.
  - cbn [for_each] in H. unfold compare_dir_step at 1 in H.
    destruct (path_exists w d0) eqn:Hex0.
    + destruct (listdir w d0) as [names|e] eqn:Hls; [|discriminate].
      cbn [bind] in H. rewrite compare_file_loop in H. cbn [bind] in H.
      destruct Hin as [<-|Hin]; [now exists names|].
      exact (IH _ _ H d Hin Hex).
    + cbn [bind] in H. destruct Hin as [<-|Hin]; [congruence|].
      exact (IH _ _ H d Hin Hex).
Qed.

Lemma compare_dir_raises (pre post : list string) (d : string) (e : exn)
    (acc : prompt_report) :
  listable w pre ->
  path_exists w d = true ->
  listdir w d = Raise e ->
  for_each (pre ++ d :: post) (compare_dir_step w) acc = Raise e.
Proof.
  intros Hpre Hex Hls. rewrite for_each_app, (compare_dir_loop pre Hpre).
  cbn [bind for_each]. unfold compare_dir_step at 1.
  rewrite Hex, Hls. reflexivity.
Qed.

Lemma found_In (dirs : list string) (f : prompt_file) :
  In f (found w dirs) ->
  exists d names n,
    In d dirs /\ path_exists w d = true /\ listdir w d = Ok names /\
    In n names /\ endswith n ".md" = true /\ f = prompt_file_of w d n.
Proof.
  unfold found. rewrite in_flat_map. intros [d [Hd Hf]].
  destruct (path_exists w d) eqn:Hex; [|destruct Hf].
  destruct (listdir w d) as [names|e] eqn:Hls; [|destruct Hf].
  apply in_map_iff in Hf. destruct Hf as [n [<- Hn]].
  apply md_names_In in Hn. destruct Hn as [Hn Hmd].
  exists d, names, n. repeat split; assumption.
Qed.

End ComparePrompts.

(** X8: the totals of the prompt files in compare-context.py are the sums
    over the files it lists, and every listed file is [dir/name] for a name
    ending in [.md] in the listing of an existing prompt directory, with the
    measurement of that path. *)
Theorem prompt_report_totals (w : world) (report : prompt_report) :
  measure_prompt_files w = Ok report ->
  total_tokens report = total_of file_tokens (files report) /\
  total_lines report = total_of file_lines (files report) /\
  forall f,
    In f (files report) ->
    exists d names n,
      In d prompt_dirs /\ path_exists w d = true /\
      listdir w d = Ok names /\ In n names /\ endswith n ".md" = true /\
      file_path f = path_join d n /\
      CompareContext.count_tokens w (path_join d n)
      = Ok (file_tokens f, file_lines f).
Proof.
  rewrite measure_prompt_files_steps. intros H.
  pose proof (compare_dir_listable w _ _ _ H) as Hls.
  rewrite (compare_dir_loop w _ Hls) in H. apply Ok_inj in H. subst report.
  cbn [total_tokens total_lines files app].
  split; [reflexivity|]. split; [reflexivity|].
  intros f Hf. apply found_In in Hf.
  destruct Hf as [d [names [n [Hd [Hex [Hl [Hn [Hmd ->]]]]]]]].
  exists d, names, n. repeat split; try assumption.
  rewrite count_tokens_same, count_tokens_metric. unfold prompt_file_of.
  cbn [file_tokens file_lines]. now rewrite <- surjective_pairing.
Qed.

Lemma prompt_report_totals_witness :
  measure_prompt_files Sample.env
  = Ok {| total_tokens := 6;
          total_lines := 2;
          files := [{| file_path := ".tiki/prompts/execute/phase.md";
                       file_tokens := 6;
                       file_lines := 2 |}] |} /\
  6 = total_of file_tokens
        [{| file_path := ".tiki/prompts/execute/phase.md";
            file_tokens := 6;
            file_lines := 2 |}].
Proof.
  assert (H : measure_prompt_files Sample.env = Ok _)
    by (vm_compute; reflexivity).
  split; [exact H|].
  exact (proj1 (prompt_report_totals Sample.env _ H)).
Defined.

(** *** Runs of [main] *)

Lemma prompt_table_value (prompts : prompt_report) :
  prompt_table prompts
  = (match files prompts with
     | [] => []
     | _ :: _ =>
         Text "EXTRACTED PROMPT FILES (load into sub-agent context)"
         :: Rule "-"
         :: (map (fun f => PromptFile (file_path f) (file_lines f)
                             (file_tokens f)) (files prompts)
             ++ [Rule "-";
                 PromptTotal (total_lines prompts) (total_tokens prompts);
                 Blank])%list
     end,
     Ok tt).
Proof.
  unfold prompt_table. destruct (files prompts) as [|f fs]; [reflexivity|].
  rewrite prompt_lines. reflexivity.
Qed.

(** A run with a baseline that has both top-level keys, once the prompt
    files are measured: the banner, the table, the total, the prompt block
    and the savings block. *)
Lemma main_present (w : world) (b : baseline) (ts : string)
    (cmds : dict (dict Z)) (prompts : prompt_report) :
  open_json_load w baseline_path = Ok (Baseline b) ->
  base_timestamp b = Some ts ->
  base_commands b = Some cmds ->
  measure_prompt_files w = Ok prompts ->
  main w
  = ((banner w ts ++
      map Row (table_rows cmds (current_of w)) ++
      [Rule "-";
       Total (total_of baseline_tokens (table_rows cmds (current_of w)))
             (total_of current_tokens (table_rows cmds (current_of w)))
             (total_of current_tokens (table_rows cmds (current_of w))
              - total_of baseline_tokens (table_rows cmds (current_of w)))
             (percent
                (total_of current_tokens (table_rows cmds (current_of w))
                 - total_of baseline_tokens (table_rows cmds (current_of w)))
                (total_of baseline_tokens (table_rows cmds (current_of w))));
       Blank] ++
      fst (prompt_table prompts) ++
      fst (effective_savings b (current_of w)))%list,
     snd (effective_savings b (current_of w))).
Proof.
  intros Hdoc Hts Hc Hp. unfold main, load_baseline. rewrite Hdoc.
  cbn [ret iobind fst snd app].
  rewrite measure_current_entries, Hp. fold (current_of w).
  cbn [lift ret iobind fst snd app print]. rewrite Hts.
  cbn [field lift ret iobind fst snd app print].
  rewrite (command_table_present b cmds _ Hc).
  cbn [field lift ret iobind fst snd app print].
  rewrite prompt_table_value.
  cbn [field lift ret iobind fst snd app print].
  unfold banner. cbn [app]. rewrite <- ?app_assoc. reflexivity.
Qed.

Lemma main_raises_early (w : world) (b : baseline) (e : exn) :
  open_json_load w baseline_path = Ok (Baseline b) ->
  measure_prompt_files w = Raise e ->
  main w = ([], Raise e).
Proof.
  intros Hdoc Hp. unfold main, load_baseline. rewrite Hdoc.
  cbn [ret iobind fst snd app].
  rewrite measure_current_entries, Hp. reflexivity.
Qed.

Lemma current_of_execute (w : world) :
  dict_get (current_of w) "execute.md"
  = Some {| tokens := fst (metric w ".claude/commands/tiki/execute.md");
            lines := snd (metric w ".claude/commands/tiki/execute.md") |}.
Proof. reflexivity. Qed.

(** The savings block for a baseline that holds the tokens of
    [execute.md]. *)
Lemma effective_savings_value (b : baseline) (cmds : dict (dict Z))
    (entry : dict Z) (exec_baseline : Z) (current : dict current_info)
    (centry : current_info) :
  base_commands b = Some cmds ->
  dict_get cmds "execute.md" = Some entry ->
  dict_get entry "tokens" = Some exec_baseline ->
  dict_get current "execute.md" = Some centry ->
  effective_savings b current
  = if 3000 + exec_baseline + 1115 + 1500 + 500 =? 0
    then (savings_head exec_baseline (tokens centry),
          Raise ZeroDivisionError)
    else ((savings_head exec_baseline (tokens centry) ++
           [Reduction
              (fmul_int
                 (fdiv_int
                    (3000 + exec_baseline + 1115 + 1500 + 500
                     - (3000 + tokens centry + 1115 + 1500 + 500))
                    (3000 + exec_baseline + 1115 + 1500 + 500))
                 100);
            Blank;
            Verdict
              (if 3000 + exec_baseline + 1115 + 1500 + 500
                  - (3000 + tokens centry + 1115 + 1500 + 500) >? 0
               then Improved
               else if 3000 + exec_baseline + 1115 + 1500 + 500
                       - (3000 + tokens centry + 1115 + 1500 + 500) =? 0
                    then Unchanged else Regressed);
            Blank;
            Rule "="])%list,
          Ok tt).
Proof.
  intros Hc He Ht Hcur. unfold effective_savings, getitem.
  rewrite Hc. cbn [field lift iobind fst snd app]. rewrite He.
  cbn [field lift iobind fst snd app]. rewrite Ht.
  cbn [field lift iobind fst snd app]. rewrite Hcur.
  cbn [field lift iobind fst snd app print]. unfold truediv.
  destruct (3000 + exec_baseline + 1115 + 1500 + 500 =? 0); reflexivity.
Qed.

Lemma listable_measure_prompt_files (w : world) :
  listable w prompt_dirs ->
  exists prompts, measure_prompt_files w = Ok prompts.
Proof.
  intros Hls. rewrite measure_prompt_files_steps, (compare_dir_loop w _ Hls).
  now eexists.
Qed.

Lemma last_app_nonempty {A} (l l' : list A) (d : A) :
  l' <> [] -> last (l ++ l') d = last l' d.
Proof.
  intros Hl'. induction l as [|x l IH]; [reflexivity|].
  cbn [app]. rewrite <- IH.
  destruct (l ++ l')%list eqn:E; [|reflexivity].
  apply app_eq_nil in E. now destruct E.
Qed.

Lemma verdict_indicator (exec_baseline exec_current : Z) :
  (if 3000 + exec_baseline + 1115 + 1500 + 500
      - (3000 + exec_current + 1115 + 1500 + 500) >? 0
   then Improved
   else if 3000 + exec_baseline + 1115 + 1500 + 500
           - (3000 + exec_current + 1115 + 1500 + 500) =? 0
        then Unchanged else Regressed)
  = indicator_of (exec_current - exec_baseline).
Proof.
  unfold indicator_of.
  destruct (Z.gtb_spec (3000 + exec_baseline + 1115 + 1500 + 500
                        - (3000 + exec_current + 1115 + 1500 + 500)) 0);
    destruct (Z.ltb_spec (exec_current - exec_baseline) 0); try lia;
    [reflexivity|].
  destruct (Z.eqb_spec (3000 + exec_baseline + 1115 + 1500 + 500
                        - (3000 + exec_current + 1115 + 1500 + 500)) 0);
    destruct (Z.eqb_spec (exec_current - exec_baseline) 0); try lia;
    reflexivity.
Qed.

Lemma prompt_table_kinds (prompts : prompt_report) (l : line) :
  In l (fst (prompt_table prompts)) ->
  match l with
  | Text _ | Rule _ | Blank | PromptFile _ _ _ | PromptTotal _ _ => True
  | _ => False
  end.
Proof.
  rewrite prompt_table_value. cbn [fst].
  destruct (files prompts) as [|f fs]; [intros []|].
  cbn [In]. intros [<-|[<-|Hin]]; [exact I|exact I|].
  apply in_app_or in Hin. destruct Hin as [Hin|Hin].
  - apply in_map_iff in Hin. destruct Hin as [g [<- _]]. exact I.
  - cbn [In] in Hin.
    repeat (destruct Hin as [<-|Hin]; [exact I|]). destruct Hin.
Qed.

(** The lines of a run with a complete baseline are those of the banner, of
    the table, of the prompt block and of the savings block. *)
Lemma main_present_In (w : world) (b : baseline) (ts : string)
    (cmds : dict (dict Z)) (prompts : prompt_report) (l : line) :
  open_json_load w baseline_path = Ok (Baseline b) ->
  base_timestamp b = Some ts ->
  base_commands b = Some cmds ->
  measure_prompt_files w = Ok prompts ->
  In l (fst (main w)) ->
  In l (fst (effective_savings b (current_of w))) \/
  match l with
  | MainContext _ _ | Remaining _ _ | TokensSaved _ | Reduction _
  | Verdict _ => False
  | _ => True
  end.
Proof.
  intros Hdoc Hts Hc Hp Hin.
  rewrite (main_present w b ts cmds prompts Hdoc Hts Hc Hp) in Hin.
  cbn [fst] in Hin.
  repeat (apply in_app_or in Hin; destruct Hin as [Hin|Hin]).
  - right. unfold banner in Hin. cbn [In] in Hin.
    repeat (destruct Hin as [<-|Hin]; [exact I|]). destruct Hin.
  - right. apply in_map_iff in Hin. destruct Hin as [r [<- _]]. exact I.
  - right. cbn [In] in Hin.
    repeat (destruct Hin as [<-|Hin]; [exact I|]). destruct Hin.
  - right. apply prompt_table_kinds in Hin. now destruct l.
  - now left.
Qed.

(** X9: the savings block against a baseline that has a timestamp and the
    tokens of [execute.md] (any count but -6115), when the prompt
    directories that exist can be listed.  None of the lookups and divisions
    of the run raises: it does not end with [KeyError] or
    [ZeroDivisionError].  The block has the line before = 3000 + baseline +
    1115 + 1500 + 500 and after = the same with the current tokens of
    [execute.md], the tokens saved are baseline minus current, and the
    verdict is the indicator of [execute.md] alone; the run writes no other
    line of these three kinds. *)
Theorem savings_block_lines (w : world) (b : baseline) (ts : string)
    (cmds : dict (dict Z)) (entry : dict Z)
    (exec_baseline exec_current exec_lines : Z) :
  open_json_load w baseline_path = Ok (Baseline b) ->
  base_timestamp b = Some ts ->
  base_commands b = Some cmds ->
  dict_get cmds "execute.md" = Some entry ->
  dict_get entry "tokens" = Some exec_baseline ->
  exec_baseline <> -6115 ->
  (forall d, In d prompt_dirs -> path_exists w d = true ->
             exists names, listdir w d = Ok names) ->
  CompareContext.count_tokens w ".claude/commands/tiki/execute.md"
    = Ok (exec_current, exec_lines) ->
  (forall key, snd (main w) <> Raise (KeyError key)) /\
  snd (main w) <> Raise ZeroDivisionError /\
  In (MainContext (3000 + exec_baseline + 1115 + 1500 + 500)
                  (3000 + exec_current + 1115 + 1500 + 500))
     (fst (main w)) /\
  In (TokensSaved (exec_baseline - exec_current)) (fst (main w)) /\
  In (Verdict (indicator_of (exec_current - exec_baseline))) (fst (main w)) /\
  (forall before_total after_total,
     In (MainContext before_total after_total) (fst (main w)) ->
     before_total = 3000 + exec_baseline + 1115 + 1500 + 500 /\
     after_total = 3000 + exec_current + 1115 + 1500 + 500) /\
  (forall savings,
     In (TokensSaved savings) (fst (main w)) ->
     savings = exec_baseline - exec_current) /\
  (forall i,
     In (Verdict i) (fst (main w)) ->
     i = indicator_of (exec_current - exec_baseline)).
Proof.
  intros Hdoc Hts Hc He Ht Hnz Hls Hcur.
  destruct (listable_measure_prompt_files w Hls) as [prompts Hp].
  pose proof (main_present_In w b ts cmds prompts) as Hlines.
  specialize (fun l => Hlines l Hdoc Hts Hc Hp).
  rewrite (main_present w b ts cmds prompts Hdoc Hts Hc Hp) in *.
  rewrite (effective_savings_value b cmds entry exec_baseline _ _
             Hc He Ht (current_of_execute w)) in *.
  rewrite count_tokens_same, count_tokens_metric in Hcur.
  apply Ok_inj in Hcur.
  cbn [tokens] in *. rewrite Hcur in *. cbn [fst] in *.
  destruct (Z.eqb_spec (3000 + exec_baseline + 1115 + 1500 + 500) 0) as [E|_];
    [lia|].
  cbn [fst snd] in *. rewrite verdict_indicator in *.
  unfold savings_head in *. cbv zeta in *.
  replace (3000 + exec_baseline + 1115 + 1500 + 500
           - (3000 + exec_current + 1115 + 1500 + 500))
    with (exec_baseline - exec_current) in * by lia.
  split; [discriminate|]. split; [discriminate|].
  split; [do 4 (apply in_or_app; right); cbn [app In]; tauto|].
  split; [do 4 (apply in_or_app; right); cbn [app In]; tauto|].
  split; [do 4 (apply in_or_app; right); cbn [app In]; tauto|].
  split; [|split].
  - intros x y Hin. destruct (Hlines _ Hin) as [Hs|[]].
    cbn [app In] in Hs.
    repeat (destruct Hs as [Hs|Hs]; try discriminate Hs).
    + now injection Hs as <- <-.
    + destruct Hs.
  - intros x Hin. destruct (Hlines _ Hin) as [Hs|[]].
    cbn [app In] in Hs.
    repeat (destruct Hs as [Hs|Hs]; try discriminate Hs).
    + now injection Hs as <-.
    + destruct Hs.
  - intros x Hin. destruct (Hlines _ Hin) as [Hs|[]].
    cbn [app In] in Hs.
    repeat (destruct Hs as [Hs|Hs]; try discriminate Hs).
    + now injection Hs as <-.
    + destruct Hs.
Qed.

Lemma savings_block_lines_witness :
  In (MainContext (3000 + 40 + 1115 + 1500 + 500)
                  (3000 + 23 + 1115 + 1500 + 500))
     (fst (main Sample.env)) /\
  In (TokensSaved (40 - 23)) (fst (main Sample.env)) /\
  In (Verdict (indicator_of (23 - 40))) (fst (main Sample.env)) /\
  (forall i,
     In (Verdict i) (fst (main Sample.env)) -> i = indicator_of (23 - 40)) /\
  indicator_of (23 - 40) = Improved.
Proof.
  destruct (savings_block_lines Sample.env Sample.saved
              "2025-01-15T09:30:00.000000"
              [("execute.md", [("tokens", 40); ("lines", 5)]);
               ("plan-issue.md", [("tokens", 6); ("lines", 1)])]
              [("tokens", 40); ("lines", 5)] 40 23 3)
    as [_ [_ [H1 [H2 [H3 [_ [_ H4]]]]]]];
    try reflexivity.
  - lia.
  - intros d Hd Hex. cbn [Sample.env path_exists listdir] in *.
    destruct (dict_get Sample.directories d) as [names|];
      [now exists names|discriminate].
  - split; [exact H1|]. split; [exact H2|]. split; [exact H3|].
    split; [exact H4|reflexivity].
Defined.

(** X10: the division of line 164 is not guarded.  With -6115 as the
    baseline tokens of [execute.md], the "before" total is 0: the run prints
    the savings block up to the tokens saved and ends with
    [ZeroDivisionError]; no reduction and no verdict are printed. *)
Theorem compare_main_zero_division (w : world) (b : baseline) (ts : string)
    (cmds : dict (dict Z)) (entry : dict Z) :
  open_json_load w baseline_path = Ok (Baseline b) ->
  base_timestamp b = Some ts ->
  base_commands b = Some cmds ->
  dict_get cmds "execute.md" = Some entry ->
  dict_get entry "tokens" = Some (-6115) ->
  (forall d, In d prompt_dirs -> path_exists w d = true ->
             exists names, listdir w d = Ok names) ->
  snd (main w) = Raise ZeroDivisionError /\
  (exists savings, last (fst (main w)) Blank = TokensSaved savings) /\
  forall l, In l (fst (main w)) ->
            (forall pct, l <> Reduction pct) /\ (forall i, l <> Verdict i).
Proof.
  intros Hdoc Hts Hc He Ht Hls.
  destruct (listable_measure_prompt_files w Hls) as [prompts Hp].
  rewrite (main_present w b ts cmds prompts Hdoc Hts Hc Hp).
  rewrite (effective_savings_value b cmds entry (-6115) _ _
             Hc He Ht (current_of_execute w)).
  change (3000 + -6115 + 1115 + 1500 + 500 =? 0) with true. cbv iota.
  cbn [fst snd]. split; [reflexivity|]. split.
  - eexists. unfold savings_head. cbv zeta.
    rewrite !app_assoc, last_app_nonempty by discriminate. reflexivity.
  - intros l Hin. rewrite prompt_table_value in Hin. cbn [fst] in Hin.
    repeat (apply in_app_or in Hin; destruct Hin as [Hin|Hin]).
    + unfold banner in Hin. cbn [In] in Hin.
      repeat (destruct Hin as [<-|Hin]; [split; discriminate|]).
      destruct Hin.
    + apply in_map_iff in Hin. destruct Hin as [r [<- _]].
      split; discriminate.
    + cbn [In] in Hin.
      repeat (destruct Hin as [<-|Hin]; [split; discriminate|]).
      destruct Hin.
    + destruct (files prompts) as [|f fs]; [destruct Hin|].
      cbn [In] in Hin.
      repeat (destruct Hin as [<-|Hin]; [split; discriminate|]).
      apply in_app_or in Hin. destruct Hin as [Hin|Hin].
      * apply in_map_iff in Hin. destruct Hin as [r [<- _]].
        split; discriminate.
      * cbn [In] in Hin.
        repeat (destruct Hin as [<-|Hin]; [split; discriminate|]).
        destruct Hin.
    + unfold savings_head in Hin. cbn [In] in Hin.
      repeat (destruct Hin as [<-|Hin]; [split; discriminate|]).
      destruct Hin.
Qed.

Lemma compare_main_zero_division_witness :
  open_json_load (Scenario.holding (Ok (Baseline Scenario.cancelling)))
    baseline_path
    = Ok (Baseline Scenario.cancelling) /\
  snd (main (Scenario.holding (Ok (Baseline Scenario.cancelling))))
    = Raise ZeroDivisionError /\
  last (fst (main (Scenario.holding (Ok (Baseline Scenario.cancelling))))) Blank
    = TokensSaved (-6138).
Proof.
  split; [reflexivity|].
  split; [|vm_compute; reflexivity].
  apply (compare_main_zero_division
           (Scenario.holding (Ok (Baseline Scenario.cancelling)))
           Scenario.cancelling
           "2025-01-15T09:30:00.000000"
           [("execute.md", [("tokens", -6115)])] [("tokens", -6115)]);
    try reflexivity.
  intros d Hd Hex.
  cbn [Scenario.holding Sample.env path_exists listdir] in *.
  destruct (dict_get Sample.directories d) as [names|];
    [now exists names|discriminate].
Defined.

Lemma table_step_absent (b : baseline) (totals : Z * Z)
    (item : string * current_info) :
  base_commands b = None ->
  table_step b totals item = ([], Raise (KeyError "commands")).
Proof.
  intros Hc. destruct totals as [tb tc], item as [name curr].
  unfold table_step. rewrite Hc. reflexivity.
Qed.

(** X11: a baseline without one of its two top-level keys ends the run with
    [KeyError] for that key, after the measurements are taken: without
    ['timestamp'], after the first two lines of the banner; without
    ['commands'], after the table header, before any row. *)
Theorem compare_main_missing_key (w : world) (b : baseline) :
  open_json_load w baseline_path = Ok (Baseline b) ->
  (forall d, In d prompt_dirs -> path_exists w d = true ->
             exists names, listdir w d = Ok names) ->
  (base_timestamp b = None ->
   main w = ([Rule "="; Text "CONTEXT WINDOW USAGE COMPARISON"],
             Raise (KeyError "timestamp"))) /\
  (forall ts,
     base_timestamp b = Some ts ->
     base_commands b = None ->
     main w
     = ([Rule "=";
         Text "CONTEXT WINDOW USAGE COMPARISON";
         BaselineDate (take 10 ts);
         CurrentDate (today w);
         Rule "=";
         Blank;
         Text "COMMAND SIZE CHANGES";
         Rule "-";
         Header ["Command"; "Baseline"; "Current"; "Change"; "% Change"];
         Rule "-"],
        Raise (KeyError "commands"))).
Proof.
  intros Hdoc Hls.
  destruct (listable_measure_prompt_files w Hls) as [prompts Hp].
  split.
  - intros Hts. unfold main, load_baseline. rewrite Hdoc.
    cbn [ret iobind fst snd app].
    rewrite measure_current_entries, Hp.
    cbn [lift ret iobind fst snd app print]. rewrite Hts. reflexivity.
  - intros ts Hts Hc. unfold main, load_baseline. rewrite Hdoc.
    cbn [ret iobind fst snd app].
    rewrite measure_current_entries, Hp.
    cbn [lift ret iobind fst snd app print]. rewrite Hts.
    cbn [field lift ret iobind fst snd app print].
    unfold command_table. cbn [map commands for_io].
    rewrite (table_step_absent b _ _ Hc).
    cbn [field lift ret iobind fst snd app print]. reflexivity.
Qed.

Lemma compare_main_missing_key_witness :
  main (Scenario.holding (Ok (Baseline Scenario.undated)))
    = ([Rule "="; Text "CONTEXT WINDOW USAGE COMPARISON"],
       Raise (KeyError "timestamp")) /\
  snd (main (Scenario.holding (Ok (Baseline Scenario.uncommanded))))
    = Raise (KeyError "commands").
Proof.
  assert (Hls : forall doc d,
            In d prompt_dirs ->
            path_exists (Scenario.holding doc) d = true ->
            exists names, listdir (Scenario.holding doc) d = Ok names).
  { intros doc d Hd Hex.
    cbn [Scenario.holding Sample.env path_exists listdir] in *.
    destruct (dict_get Sample.directories d) as [names|];
      [now exists names|discriminate]. }
  split.
  - apply (proj1 (compare_main_missing_key
                    (Scenario.holding (Ok (Baseline Scenario.undated)))
                    Scenario.undated
                    eq_refl (Hls _))).
    reflexivity.
  - rewrite (proj2 (compare_main_missing_key
                      (Scenario.holding (Ok (Baseline Scenario.uncommanded)))
                      Scenario.uncommanded eq_refl (Hls _))
               "2025-01-15T09:30:00.000000" eq_refl eq_refl).
    reflexivity.
Defined.

(** X12: [load_baseline] catches [FileNotFoundError] and nothing else.  Any
    other exception from opening or parsing the baseline file (a directory
    in its place, no permission, text that is not JSON) leaves [main]
    unhandled, with nothing printed: not the guidance either. *)
Theorem compare_main_load_error (w : world) (e : exn) :
  open_json_load w baseline_path = Raise e ->
  e <> FileNotFoundError ->
  load_baseline w = ([], Raise e) /\
  main w = ([], Raise e).
Proof.
  intros H He. unfold main, load_baseline. rewrite H.
  destruct e; try (split; reflexivity). now destruct He.
Qed.

Lemma compare_main_load_error_witness :
  open_json_load (Scenario.holding (Raise PermissionError)) baseline_path
    = Raise PermissionError /\
  main (Scenario.holding (Raise PermissionError)) = ([], Raise PermissionError).
Proof.
  split; [reflexivity|].
  apply (compare_main_load_error (Scenario.holding (Raise PermissionError))
           PermissionError eq_refl).
  discriminate.
Defined.

(** X13: the table has one row per listed command, in the order of the
    list, whatever names the baseline holds.  Each row takes its baseline
    tokens from the baseline entry of that name (0 without one) and its
    current tokens from the measurement of the command's file; a name that
    only the baseline holds gets no row and adds nothing to the total. *)
Theorem compare_rows_commands (w : world) (b : baseline) (ts : string)
    (cmds : dict (dict Z)) :
  open_json_load w baseline_path = Ok (Baseline b) ->
  base_timestamp b = Some ts ->
  base_commands b = Some cmds ->
  (forall d, In d prompt_dirs -> path_exists w d = true ->
             exists names, listdir w d = Ok names) ->
  Forall2
    (fun r np =>
       row_name r = fst np /\
       baseline_tokens r = get (get cmds (fst np) []) "tokens" 0 /\
       exists lns,
         CompareContext.count_tokens w (snd np) = Ok (current_tokens r, lns))
    (rows_of (fst (main w))) commands /\
  totals_of (fst (main w))
  = [(total_of (fun np => get (get cmds (fst np) []) "tokens" 0) commands,
      total_of current_tokens (rows_of (fst (main w))))].
Proof.
  intros Hdoc Hts Hc Hls.
  destruct (listable_measure_prompt_files w Hls) as [prompts Hp].
  rewrite (main_present w b ts cmds prompts Hdoc Hts Hc Hp). cbn [fst].
  assert (Hrows : forall tail,
            rows_of tail = [] ->
            rows_of (banner w ts ++
                     map Row (table_rows cmds (current_of w)) ++ tail)
            = table_rows cmds (current_of w)).
  { intros tail Htail. rewrite !rows_of_app, rows_of_map_Row, Htail.
    unfold banner. cbn [rows_of app]. now rewrite app_nil_r. }
  assert (Htotals : forall tb tc ch pct tail,
            totals_of tail = [] ->
            totals_of (banner w ts ++
                       map Row (table_rows cmds (current_of w)) ++
                       [Rule "-"; Total tb tc ch pct; Blank] ++ tail)
            = [(tb, tc)]).
  { intros tb tc ch pct tail Htail.
    rewrite !totals_of_app, totals_of_map_Row, Htail.
    unfold banner. reflexivity. }
  assert (Htail : rows_of (fst (prompt_table prompts) ++
                           fst (effective_savings b (current_of w))) = [] /\
                  totals_of (fst (prompt_table prompts) ++
                             fst (effective_savings b (current_of w))) = []).
  { rewrite rows_of_app, totals_of_app.
    destruct (prompt_table_plain prompts) as [-> ->].
    exact (effective_savings_plain b (current_of w)). }
  destruct Htail as [Hr Ht].
  rewrite Hrows by (cbn [rows_of app]; exact Hr).
  rewrite Htotals by exact Ht.
  split.
  - unfold table_rows, current_of, commands. cbn [map fst snd].
    repeat (constructor;
            [cbn [row_name baseline_tokens current_tokens compare_row tokens];
             split; [reflexivity|]; split; [reflexivity|];
             eexists; rewrite count_tokens_same, count_tokens_metric;
             now rewrite <- surjective_pairing|]).
    constructor.
  - reflexivity.
Qed.

Lemma compare_rows_commands_witness :
  map (fun r => (row_name r, baseline_tokens r, current_tokens r))
      (rows_of (fst (main (Scenario.holding (Ok (Baseline Scenario.wider))))))
  = [("execute.md", 40, 23); ("plan-issue.md", 0, 6);
     ("define-requirements.md", 0, 0); ("research.md", 0, 0);
     ("debug.md", 0, 0); ("release-yolo.md", 0, 0)] /\
  totals_of (fst (main (Scenario.holding (Ok (Baseline Scenario.wider)))))
  = [(total_of
        (fun np =>
           get (get [("retired.md", [("tokens", 900); ("lines", 80)]);
                     ("execute.md", [("tokens", 40); ("lines", 5)])]
                    (fst np) []) "tokens" 0) commands,
      total_of current_tokens
        (rows_of
           (fst (main (Scenario.holding (Ok (Baseline Scenario.wider)))))))] /\
  totals_of (fst (main (Scenario.holding (Ok (Baseline Scenario.wider)))))
  = [(40, 29)].
Proof.
  split; [vm_compute; reflexivity|]. split; [|vm_compute; reflexivity].
  apply (compare_rows_commands
           (Scenario.holding (Ok (Baseline Scenario.wider))) Scenario.wider
           "2025-01-15T09:30:00.000000" _ eq_refl eq_refl eq_refl).
  intros d Hd Hex.
  cbn [Scenario.holding Sample.env path_exists listdir] in *.
  destruct (dict_get Sample.directories d) as [names|];
    [now exists names|discriminate].
Defined.

(** ** The two scripts side by side *)

(** X14: both scripts stop at the first prompt directory that exists and
    cannot be listed (a file of that name, a directory without read
    permission).  The exception of [os.listdir] is not caught: it leaves
    [main] of measure-context.py, with or without [--json], and [main] of
    compare-context.py when a baseline is there, and nothing is printed. *)
Theorem listdir_error_aborts (w : world) (pre post : list string)
    (d : string) (e : exn) :
  MeasureContext.prompt_dirs = (pre ++ d :: post)%list ->
  (forall d', In d' pre -> path_exists w d' = true ->
              exists names, listdir w d' = Ok names) ->
  path_exists w d = true ->
  listdir w d = Raise e ->
  MeasureContext.main w = Raise e /\
  MeasureReport.main w = ([], Raise e) /\
  (forall b, open_json_load w baseline_path = Ok (Baseline b) ->
             main w = ([], Raise e)).
Proof.
  intros Hdirs Hpre Hex Hls.
  assert (Hm : MeasureContext.measure_prompt_files w = Raise e).
  { unfold MeasureContext.measure_prompt_files. rewrite Hdirs.
    now apply measure_prompt_dirs_raises. }
  assert (Hc : measure_prompt_files w = Raise e).
  { rewrite measure_prompt_files_steps.
    change prompt_dirs with MeasureContext.prompt_dirs. rewrite Hdirs.
    now apply compare_dir_raises. }
  pose proof (build_data_raises w e Hm) as Hdata.
  unfold MeasureContext.main, MeasureReport.main. rewrite Hdata.
  split; [reflexivity|]. split; [reflexivity|].
  intros b Hdoc. now apply (main_raises_early w b).
Qed.

Lemma listdir_error_aborts_witness :
  path_exists Scenario.blocked ".tiki/prompts/plan" = true /\
  listdir Scenario.blocked ".tiki/prompts/plan" = Raise NotADirectoryError /\
  MeasureContext.main Scenario.blocked = Raise NotADirectoryError /\
  MeasureReport.main Scenario.blocked = ([], Raise NotADirectoryError) /\
  main Scenario.blocked = ([], Raise NotADirectoryError).
Proof.
  split; [reflexivity|]. split; [reflexivity|].
  destruct (listdir_error_aborts Scenario.blocked [".tiki/prompts/execute"]
              [".tiki/prompts/requirements"; ".tiki/prompts/research";
               ".tiki/prompts/debug"; ".tiki/prompts/release"]
              ".tiki/prompts/plan" NotADirectoryError eq_refl)
    as [H1 [H2 H3]].
  - intros d' [<-|[]] _. now exists ["phase.md"; "notes.txt"].
  - reflexivity.
  - reflexivity.
  - split; [exact H1|]. split; [exact H2|].
    exact (H3 Sample.saved eq_refl).
Defined.

(** X15: the two scripts estimate the context of an invocation differently.
    compare-context.py's "after" total is measure-context.py's invocation
    total with the measured tokens of [CLAUDE.md] replaced by the constant
    1115: the two agree exactly when [CLAUDE.md] measures 1115 tokens. *)
Theorem invocation_estimates (w : world) (b : baseline) (ts : string)
    (cmds : dict (dict Z)) (entry : dict Z) (exec_baseline : Z)
    (inv : MeasureContext.invocation) (claude_tokens claude_lines : Z) :
  open_json_load w baseline_path = Ok (Baseline b) ->
  base_timestamp b = Some ts ->
  base_commands b = Some cmds ->
  dict_get cmds "execute.md" = Some entry ->
  dict_get entry "tokens" = Some exec_baseline ->
  (forall d, In d prompt_dirs -> path_exists w d = true ->
             exists names, listdir w d = Ok names) ->
  MeasureContext.measure_execute_invocation w = Ok inv ->
  MeasureContext.count_tokens w "CLAUDE.md"
    = Ok (claude_tokens, claude_lines) ->
  In (MainContext (3000 + exec_baseline + 1115 + 1500 + 500)
                  (MeasureContext.total_tokens inv - claude_tokens + 1115))
     (fst (main w)).
Proof.
  intros Hdoc Hts Hc He Ht Hls Hinv Hclaude.
  destruct (listable_measure_prompt_files w Hls) as [prompts Hp].
  rewrite (main_present w b ts cmds prompts Hdoc Hts Hc Hp).
  rewrite (effective_savings_value b cmds entry exec_baseline _ _
             Hc He Ht (current_of_execute w)).
  rewrite measure_execute_invocation_value in Hinv. apply Ok_inj in Hinv.
  rewrite count_tokens_metric in Hclaude. apply Ok_inj in Hclaude.
  subst inv. cbv zeta. cbn [MeasureContext.total_tokens tokens].
  rewrite Hclaude. cbn [fst].
  replace (3000 + fst (metric w ".claude/commands/tiki/execute.md")
           + claude_tokens + 1500 + 500 - claude_tokens + 1115)
    with (3000 + fst (metric w ".claude/commands/tiki/execute.md")
          + 1115 + 1500 + 500) by lia.
  assert (Hin : In (MainContext
                      (3000 + exec_baseline + 1115 + 1500 + 500)
                      (3000 + fst (metric w ".claude/commands/tiki/execute.md")
                       + 1115 + 1500 + 500))
                   (savings_head exec_baseline
                      (fst (metric w ".claude/commands/tiki/execute.md")))).
  { unfold savings_head. cbn [In]. tauto. }
  destruct (3000 + exec_baseline + 1115 + 1500 + 500 =? 0); cbn [fst];
    do 4 (apply in_or_app; right); [exact Hin|].
  apply in_or_app. left. exact Hin.
Qed.

Lemma invocation_estimates_witness :
  MeasureContext.count_tokens Sample.env "CLAUDE.md" = Ok (10, 2) /\
  (exists inv,
     MeasureContext.measure_execute_invocation Sample.env = Ok inv /\
     MeasureContext.total_tokens inv = 5033 /\
     In (MainContext (3000 + 40 + 1115 + 1500 + 500)
                     (MeasureContext.total_tokens inv - 10 + 1115))
        (fst (main Sample.env))) /\
  5033 - 10 + 1115 = 6138.
Proof.
  split; [vm_compute; reflexivity|]. split; [|reflexivity].
  exists (MeasureContext.execute_invocation sample_snapshot).
  assert (Hinv : MeasureContext.measure_execute_invocation Sample.env
                 = Ok (MeasureContext.execute_invocation sample_snapshot))
    by (vm_compute; reflexivity).
  split; [exact Hinv|]. split; [vm_compute; reflexivity|].
  apply (invocation_estimates Sample.env Sample.saved
           "2025-01-15T09:30:00.000000"
           [("execute.md", [("tokens", 40); ("lines", 5)]);
            ("plan-issue.md", [("tokens", 6); ("lines", 1)])]
           [("tokens", 40); ("lines", 5)] 40 _ 10 2);
    try exact Hinv; try (vm_compute; reflexivity).
  intros d Hd Hex. cbn [Sample.env path_exists listdir] in *.
  destruct (dict_get Sample.directories d) as [names|];
    [now exists names|discriminate].
Defined.

(** *** The prompt files in both scripts *)

Lemma dict_set_fresh {V} (d : dict V) (k : string) (v : V) :
  dict_get d k = None -> dict_set d k v = (d ++ [(k, v)])%list.
Proof.
  induction d as [|[k0 v0] d IH]; cbn [dict_get dict_set app];
    [reflexivity|].
  destruct (String.eqb k0 k); [discriminate|].
  intros H. now rewrite IH.
Qed.

Section BothScripts.

Variable w : world.

Lemma measure_dir_nodup (d : string) (names : list string) :
  NoDup names ->
  forall acc,
    (forall n, In n names -> dict_get acc n = None) ->
    for_each names
      (fun dir_results filename =>
         if endswith filename ".md" then
           let filepath := path_join d filename in
           '(toks, lns) <- MeasureContext.count_tokens w filepath ;;
           Ok (dict_set dir_results filename
                 {| MeasureContext.file_tokens := toks;
                    MeasureContext.file_lines := lns |})
         else Ok dir_results) acc
    = Ok (acc ++ map (fun n => (n, prompt_entry w d n)) (md_names names))%list.
Proof.
  induction 1 as [|n0 names Hn0 Hnames IH]; intros acc Hacc.
  - cbn [for_each md_names filter map]. now rewrite app_nil_r.
  - cbn [for_each]. rewrite measure_dir_step. cbn [bind].
    unfold md_names. cbn [filter]. fold (md_names names).
    destruct (endswith n0 ".md").
    + rewrite IH.
      * rewrite dict_set_fresh by (apply Hacc; now left).
        rewrite <- app_assoc. reflexivity.
      * intros n Hn. rewrite dict_get_set.
        destruct (String.eqb_spec n0 n) as [->|_]; [contradiction|].
        apply Hacc. now right.
    + apply IH. intros n Hn. apply Hacc. now right.
Qed.

Lemma measure_dir_listing (d : string) (names : list string) :
  NoDup names ->
  MeasureContext.measure_dir w d names
  = Ok (map (fun n => (n, prompt_entry w d n)) (md_names names)).
Proof.
  intros Hnd. exact (measure_dir_nodup d names Hnd [] (fun _ _ => eq_refl)).
Qed.

Lemma dir_entries_nodup (d : string) (names : list string) :
  path_exists w d = true ->
  listdir w d = Ok names ->
  NoDup names ->
  dir_entries w d
  = match md_names names with
    | [] => None
    | _ :: _ => Some (map (fun n => (n, prompt_entry w d n)) (md_names names))
    end.
Proof.
  intros Hex Hls Hnd. unfold dir_entries.
  rewrite Hex, Hls, (measure_dir_listing d names Hnd).
  now destruct (md_names names).
Qed.

Lemma measure_prompt_dirs_nodup (dirs : list string) :
  NoDup dirs ->
  listable w dirs ->
  forall acc,
    (forall d, In d dirs -> dict_get acc d = None) ->
    for_each dirs
      (fun results dir_path =>
         if path_exists w dir_path then
           names <- listdir w dir_path ;;
           dir_results <- MeasureContext.measure_dir w dir_path names ;;
           match dir_results with
           | [] => Ok results
           | _ :: _ => Ok (dict_set results dir_path dir_results)
           end
         else Ok results) acc
    = Ok (acc ++
          flat_map (fun d => match dir_entries w d with
                             | Some entries => [(d, entries)]
                             | None => []
                             end) dirs)%list.
Proof.
  induction 1 as [|d0 dirs Hd0 Hdirs IH]; intros Hls acc Hacc.
  - cbn [for_each flat_map]. now rewrite app_nil_r.
  - cbn [for_each flat_map].
    rewrite measure_prompt_dirs_step by (apply Hls; now left).
    cbn [bind].
    assert (Hls' : listable w dirs)
      by (intros d Hin; apply Hls; now right).
    destruct (dir_entries w d0) as [entries|].
    + rewrite IH; [|exact Hls'|].
      * rewrite dict_set_fresh by (apply Hacc; now left).
        rewrite <- app_assoc. reflexivity.
      * intros d Hd. rewrite dict_get_set.
        destruct (String.eqb_spec d0 d) as [->|_]; [contradiction|].
        apply Hacc. now right.
    + cbn [app]. apply IH; [exact Hls'|].
      intros d Hd. apply Hacc. now right.
Qed.

Lemma listed_app (a b : dict (dict MeasureContext.file_info)) :
  listed (a ++ b)%list = (listed a ++ listed b)%list.
Proof. unfold listed. apply flat_map_app. Qed.

Lemma listed_found (dirs : list string) :
  (forall d names, In d dirs -> listdir w d = Ok names -> NoDup names) ->
  listed (flat_map (fun d => match dir_entries w d with
                             | Some entries => [(d, entries)]
                             | None => []
                             end) dirs)
  = found w dirs.
Proof.
  induction dirs as [|d dirs IH]; intros Hnd; [reflexivity|].
  cbn [flat_map]. unfold found. cbn [flat_map]. fold (found w dirs).
  rewrite listed_app, IH by (intros d' names Hin; apply Hnd; now right).
  f_equal.
  destruct (path_exists w d) eqn:Hex;
    [|unfold dir_entries; rewrite Hex; reflexivity].
  destruct (listdir w d) as [names|e] eqn:Hls;
    [|unfold dir_entries; rewrite Hex, Hls; reflexivity].
  rewrite (dir_entries_nodup d names Hex Hls
             (Hnd d names (or_introl eq_refl) Hls)).
  destruct (md_names names) as [|n ns]; [reflexivity|].
  unfold listed. cbn [flat_map fst snd]. rewrite app_nil_r, map_map.
  reflexivity.
Qed.

End BothScripts.

Lemma prompt_dirs_nodup : NoDup MeasureContext.prompt_dirs.
Proof.
  unfold MeasureContext.prompt_dirs.
  repeat (constructor; [cbv; intuition discriminate|]). constructor.
Qed.

(** X16: the two scripts find the same prompt files.  When no listing names
    a file twice (as [os.listdir] never does), the files that
    compare-context.py lists are the entries of measure-context.py's
    mapping, directory by directory and file by file, in the same order,
    each with the same tokens and lines under the path [dir/name]; and its
    two totals are the sums over those entries. *)
Theorem prompt_files_agree (w : world)
    (results : dict (dict MeasureContext.file_info)) :
  MeasureContext.measure_prompt_files w = Ok results ->
  (forall d names,
     In d MeasureContext.prompt_dirs -> listdir w d = Ok names ->
     NoDup names) ->
  exists report,
    measure_prompt_files w = Ok report /\
    files report = listed results /\
    total_tokens report = total_of file_tokens (listed results) /\
    total_lines report = total_of file_lines (listed results).
Proof.
  intros H Hnd.
  pose proof (measure_prompt_dirs_listable w _ _ _ H) as Hls.
  unfold MeasureContext.measure_prompt_files,
    MeasureContext.measure_prompt_dirs in H.
  rewrite (measure_prompt_dirs_nodup w _ prompt_dirs_nodup Hls [])
    in H by (intros; reflexivity).
  apply Ok_inj in H. cbn [app] in H. subst results.
  rewrite (listed_found w _ Hnd).
  eexists. split.
  - rewrite measure_prompt_files_steps.
    change prompt_dirs with MeasureContext.prompt_dirs.
    apply (compare_dir_loop w _ Hls).
  - cbn [files total_tokens total_lines app]. repeat split.
Qed.

Lemma prompt_files_agree_witness :
  listed (MeasureContext.prompt_files sample_snapshot)
  = [{| file_path := ".tiki/prompts/execute/phase.md";
        file_tokens := 6;
        file_lines := 2 |}] /\
  exists report,
    measure_prompt_files Sample.env = Ok report /\
    files report = listed (MeasureContext.prompt_files sample_snapshot) /\
    total_tokens report
    = total_of file_tokens
        (listed (MeasureContext.prompt_files sample_snapshot)) /\
    total_lines report
    = total_of file_lines
        (listed (MeasureContext.prompt_files sample_snapshot)).
Proof.
  split; [vm_compute; reflexivity|].
  apply (prompt_files_agree Sample.env).
  - vm_compute. reflexivity.
  - intros d names Hd Hls. cbn [Sample.env listdir] in Hls.
    unfold Sample.directories in Hls. cbn [dict_get] in Hls.
    destruct (String.eqb ".tiki/prompts/execute" d);
      [injection Hls as <-;
       repeat (constructor; [cbv; intuition discriminate|]); constructor|].
    destruct (String.eqb ".tiki/prompts/plan" d); [|discriminate].
    injection Hls as <-.
    repeat (constructor; [cbv; intuition discriminate|]); constructor.
Defined.

(** ** From the saved file to the comparison *)

Lemma string_of_text (s : string) : BaselineFile.string_of (text s) = Some s.
Proof.
  induction s as [|a s IH]; [reflexivity|].
  change (text (String a s)) with (N_of_ascii a :: text s).
  cbn [BaselineFile.string_of]. rewrite IH.
  pose proof (N_ascii_bounded a) as Ha.
  destruct (N.ltb_spec (N_of_ascii a) 256) as [_|Hge]; [|lia].
  now rewrite ascii_N_embedding.
Qed.

Lemma int_fields_command (c : MeasureContext.command_info) :
  BaselineFile.int_fields
    [(text "path", JStr (text (MeasureContext.path c)));
     (text "tokens", JInt (MeasureContext.tokens c));
     (text "lines", JInt (MeasureContext.lines c));
     (text "pct_of_200k", JFloat (MeasureContext.pct_of_200k c))]
  = Some [("tokens", MeasureContext.tokens c);
          ("lines", MeasureContext.lines c)].
Proof.
  cbn [BaselineFile.int_fields]. rewrite !string_of_text. reflexivity.
Qed.

Lemma command_entries_commands (cmds : dict MeasureContext.command_info) :
  BaselineFile.command_entries
    (map (fun kv => (text (fst kv), command_json (snd kv))) cmds)
  = Some (map (fun entry =>
                 (fst entry,
                  [("tokens", MeasureContext.tokens (snd entry));
                   ("lines", MeasureContext.lines (snd entry))]))
              cmds).
Proof.
  induction cmds as [|[name c] cmds IH]; [reflexivity|].
  cbn [map fst snd BaselineFile.command_entries].
  rewrite string_of_text, IH. unfold command_json.
  now rewrite int_fields_command.
Qed.

(** The saved snapshot, as [main] of compare-context.py reads it. *)
Lemma as_document_to_json (data : MeasureContext.snapshot) :
  BaselineFile.as_document (to_json data)
  = Some (Baseline (BaselineFile.baseline_of data)).
Proof.
  unfold BaselineFile.as_document, to_json.
  cbn [BaselineFile.truthy BaselineFile.member].
  change (key_eqb (text "timestamp") (text "timestamp")) with true.
  change (key_eqb (text "timestamp") (text "commands")) with false.
  change (key_eqb (text "commands") (text "commands")) with true.
  cbv iota. rewrite string_of_text. unfold dict_json.
  rewrite command_entries_commands. reflexivity.
Qed.

Lemma json_load_saved (float_repr : float -> pystr)
    (float_of_string : pystr -> float) (data : MeasureContext.snapshot) :
  dicts_ok data ->
  floats_ok float_repr float_of_string data ->
  BaselineFile.json_load float_of_string (save float_repr data)
  = Ok (Baseline (BaselineFile.baseline_of data)).
Proof.
  intros Hdicts Hfloats. unfold BaselineFile.json_load, save.
  rewrite (loads_dumps float_repr float_of_string)
    by now apply wf_to_json.
  cbn [bind]. now rewrite as_document_to_json.
Qed.

Lemma compare_row_unchanged (cmds : dict (dict Z)) (name : string)
    (curr : current_info) :
  get (get cmds name []) "tokens" 0 = tokens curr ->
  baseline_tokens (compare_row cmds name curr)
    = current_tokens (compare_row cmds name curr) /\
  change (compare_row cmds name curr) = 0 /\
  row_indicator (compare_row cmds name curr) = Unchanged.
Proof.
  intros H. unfold compare_row.
  cbn [baseline_tokens current_tokens change row_indicator].
  rewrite H, Z.sub_diag. repeat split.
Qed.

Lemma rows_of_present (w : world) (ts : string) (rows : list delta_row)
    (tail : list line) :
  rows_of tail = [] ->
  rows_of (banner w ts ++ map Row rows ++ tail) = rows.
Proof.
  intros Htail. rewrite !rows_of_app, rows_of_map_Row, Htail.
  unfold banner. cbn [rows_of app]. now rewrite app_nil_r.
Qed.

(** X17: comparing right after measuring reports no change.  When the
    baseline file holds what [measure-context.py --json] prints in the same
    environment, [json.load] gives back the timestamp and every command's
    tokens and lines; none of the lookups and divisions of compare-context.py
    raises (the run does not end with [KeyError] or [ZeroDivisionError]);
    the table has the six rows, each with equal baseline and current tokens,
    change 0 and the "unchanged" mark; and the savings block has 0 tokens
    saved and the verdict "no change". *)
Theorem compare_after_measure (w : world) (float_repr : float -> pystr)
    (float_of_string : pystr -> float) (data : MeasureContext.snapshot) :
  MeasureContext.build_data w = Ok data ->
  floats_ok float_repr float_of_string data ->
  open_json_load w baseline_path
    = BaselineFile.json_load float_of_string (save float_repr data) ->
  open_json_load w baseline_path
    = Ok (Baseline
            {| base_timestamp := Some (now_isoformat w);
               base_commands :=
                 Some (map (fun entry =>
                              (fst entry,
                               [("tokens", MeasureContext.tokens (snd entry));
                                ("lines", MeasureContext.lines (snd entry))]))
                           (MeasureContext.snap_commands data)) |}) /\
  (forall key, snd (main w) <> Raise (KeyError key)) /\
  snd (main w) <> Raise ZeroDivisionError /\
  map row_name (rows_of (fst (main w)))
  = ["execute.md"; "plan-issue.md"; "define-requirements.md";
     "research.md"; "debug.md"; "release-yolo.md"] /\
  Forall (fun r => baseline_tokens r = current_tokens r /\
                   change r = 0 /\
                   row_indicator r = Unchanged)
         (rows_of (fst (main w))) /\
  In (TokensSaved 0) (fst (main w)) /\
  In (Verdict Unchanged) (fst (main w)).
Proof.
  intros Hdata Hfloats Hfile.
  rewrite (json_load_saved float_repr float_of_string data
             (build_data_dicts w data Hdata) Hfloats) in Hfile.
  destruct (build_data_fields w data Hdata) as [Hp [_ [Hcmds [Hts _]]]].
  unfold BaselineFile.baseline_of in Hfile. rewrite Hts in Hfile.
  split; [exact Hfile|].
  pose proof (measure_prompt_dirs_listable w _ _ _ Hp) as Hls.
  destruct (listable_measure_prompt_files w Hls) as [prompts Hp'].
  rewrite (main_present w _ _ _ prompts Hfile eq_refl eq_refl Hp').
  set (cmds := map _ (MeasureContext.snap_commands data)).
  set (b := {| base_timestamp := _; base_commands := _ |}).
  assert (Hexec : dict_get cmds "execute.md"
                  = Some [("tokens",
                           fst (metric w ".claude/commands/tiki/execute.md"));
                          ("lines",
                           snd (metric w ".claude/commands/tiki/execute.md"))]).
  { subst cmds. rewrite Hcmds. reflexivity. }
  rewrite (effective_savings_value b cmds _
             (fst (metric w ".claude/commands/tiki/execute.md")) _ _
             eq_refl Hexec eq_refl (current_of_execute w)).
  pose proof (metric_nonneg w ".claude/commands/tiki/execute.md") as [Hnn _].
  destruct (Z.eqb_spec
              (3000 + fst (metric w ".claude/commands/tiki/execute.md")
               + 1115 + 1500 + 500) 0) as [E|_]; [lia|].
  cbn [fst snd tokens]. rewrite verdict_indicator, !Z.sub_diag.
  split; [discriminate|]. split; [discriminate|].
  rewrite !rows_of_present
    by (rewrite !rows_of_app, (proj1 (prompt_table_plain prompts));
        reflexivity).
  split; [|split].
  - unfold table_rows. rewrite map_map. reflexivity.
  - unfold table_rows, current_of, commands. cbn [map fst snd].
    subst cmds. rewrite Hcmds.
    repeat (constructor; [apply compare_row_unchanged; reflexivity|]).
    constructor.
  - unfold savings_head. cbv zeta.
    rewrite ?Z.sub_diag. change (indicator_of 0) with Unchanged.
    split; do 4 (apply in_or_app; right); [apply in_or_app; left|];
      cbn [app In]; tauto.
Qed.

Lemma compare_after_measure_witness :
  MeasureContext.build_data Scenario.remeasured = Ok sample_snapshot /\
  open_json_load Scenario.remeasured baseline_path
    = BaselineFile.json_load Sample.float_of_string
        (save Sample.float_repr sample_snapshot) /\
  Forall (fun r => baseline_tokens r = current_tokens r /\
                   change r = 0 /\
                   row_indicator r = Unchanged)
         (rows_of (fst (main Scenario.remeasured))) /\
  In (TokensSaved 0) (fst (main Scenario.remeasured)) /\
  In (Verdict Unchanged) (fst (main Scenario.remeasured)).
Proof.
  assert (Hdata : MeasureContext.build_data Scenario.remeasured
                  = Ok sample_snapshot) by (vm_compute; reflexivity).
  assert (Hfloats : floats_ok Sample.float_repr Sample.float_of_string
                      sample_snapshot).
  { split.
    - repeat (apply Forall_cons;
              [repeat split; vm_compute; reflexivity|]).
      apply Forall_nil.
    - repeat split; vm_compute; reflexivity. }
  split; [exact Hdata|]. split; [reflexivity|].
  destruct (compare_after_measure Scenario.remeasured Sample.float_repr
              Sample.float_of_string sample_snapshot Hdata Hfloats eq_refl)
    as [_ [_ [_ [_ [H1 [H2 H3]]]]]].
  split; [exact H1|]. split; [exact H2|exact H3].
Defined.

(** X18: a baseline file whose JSON value is falsy ([{}], [null], [[]],
    [0], [false], an empty string) parses, and [main] of compare-context.py
    then returns at [if not baseline]: nothing is printed, neither the
    guidance nor a comparison, and nothing is raised. *)
Theorem compare_main_empty_document (w : world)
    (float_of_string : pystr -> float) (file : pystr) (v : value) :
  loads float_of_string file = Ok v ->
  BaselineFile.truthy v = false ->
  open_json_load w baseline_path
    = BaselineFile.json_load float_of_string file ->
  load_baseline w = ([], Ok (Some Falsy)) /\
  main w = ([], Ok tt).
Proof.
  intros Hv Hfalsy Hfile.
  unfold BaselineFile.json_load, BaselineFile.as_document in Hfile.
  rewrite Hv in Hfile. cbn [bind] in Hfile. rewrite Hfalsy in Hfile.
  unfold main, load_baseline. rewrite Hfile. split; reflexivity.
Qed.

Lemma compare_main_empty_document_witness :
  loads Sample.float_of_string (text "{}") = Ok (JObj []) /\
  main (Scenario.holding
          (BaselineFile.json_load Sample.float_of_string (text "{}")))
  = ([], Ok tt).
Proof.
  assert (H : loads Sample.float_of_string (text "{}") = Ok (JObj []))
    by (vm_compute; reflexivity).
  split; [exact H|].
  exact (proj2 (compare_main_empty_document
                  (Scenario.holding
                     (BaselineFile.json_load Sample.float_of_string
                        (text "{}")))
                  Sample.float_of_string (text "{}") (JObj [])
                  H eq_refl eq_refl)).
Defined.

Lemma skip_ws_blank (s : pystr) :
  Forall (fun c => is_ws c = true) s -> skip_ws s = [].
Proof.
  induction 1 as [|c s Hc _ IH]; [reflexivity|].
  cbn [skip_ws]. now rewrite Hc.
Qed.

(** X19: a baseline file that is empty or holds only whitespace (what a
    failed [measure-context.py --json > ...] leaves behind) does not parse:
    [json.load] raises [JSONDecodeError], [load_baseline] does not catch it,
    and the run of compare-context.py ends with that exception, nothing
    printed. *)
Theorem blank_baseline_rejected (w : world)
    (float_of_string : pystr -> float) (file : pystr) :
  Forall (fun c => is_ws c = true) file ->
  open_json_load w baseline_path
    = BaselineFile.json_load float_of_string file ->
  loads float_of_string file = Raise JSONDecodeError /\
  main w = ([], Raise JSONDecodeError).
Proof.
  intros Hblank Hfile.
  assert (Hloads : loads float_of_string file = Raise JSONDecodeError).
  { unfold loads.
    assert (Hdecode : decode float_of_string file = Raise JSONDecodeError).
    { unfold decode. rewrite (skip_ws_blank file Hblank). reflexivity. }
    destruct file as [|c t]; [exact Hdecode|].
    inversion Hblank as [|? ? Hc _]; subst.
    destruct (N.eqb_spec c 65279) as [->|_]; [discriminate Hc|exact Hdecode]. }
  split; [exact Hloads|].
  unfold BaselineFile.json_load in Hfile. rewrite Hloads in Hfile.
  cbn [bind] in Hfile.
  unfold main, load_baseline. rewrite Hfile. reflexivity.
Qed.

Lemma blank_baseline_rejected_witness :
  main (Scenario.holding
          (BaselineFile.json_load Sample.float_of_string [10%N]))
  = ([], Raise JSONDecodeError).
Proof.
  refine (proj2 (blank_baseline_rejected
                   (Scenario.holding
                      (BaselineFile.json_load Sample.float_of_string [10%N]))
                   Sample.float_of_string [10%N] _ eq_refl)).
  repeat constructor.
Defined.

(** *** The prompt block and the total line *)

Lemma flat_map_nil_on {A B} (f : A -> list B) (l : list A) :
  (forall x, In x l -> f x = []) -> flat_map f l = [].
Proof.
  intros H. induction l as [|x l IH]; [reflexivity|].
  cbn [flat_map]. rewrite (H x (or_introl eq_refl)), IH; [reflexivity|].
  intros y Hy. apply H. now right.
Qed.

(** The savings block prints no row, no total and no date, however far it
    gets. *)
Lemma effective_savings_kinds (b : baseline) (current : dict current_info) :
  forall l, In l (fst (effective_savings b current)) -> savings_kind l = true.
Proof.
  unfold effective_savings.
  destruct (base_commands b) as [cmds|]; [|intros l []].
  cbn [field lift iobind fst snd app].
  destruct (getitem cmds "execute.md") as [entry|]; [|intros l []].
  cbn [field lift iobind fst snd app].
  destruct (getitem entry "tokens") as [exec_baseline|]; [|intros l []].
  cbn [field lift iobind fst snd app].
  destruct (getitem current "execute.md") as [centry|]; [|intros l []].
  cbn [field lift iobind fst snd app print].
  destruct (truediv _ _); cbn [field lift iobind fst snd app print In];
    intros l Hl;
    repeat (destruct Hl as [<-|Hl]; [reflexivity|]); destruct Hl.
Qed.

Lemma savings_filtered {B} (f : line -> list B) (b : baseline)
    (current : dict current_info) :
  (forall l, savings_kind l = true -> f l = []) ->
  flat_map f (fst (effective_savings b current)) = [].
Proof.
  intros Hf. apply flat_map_nil_on. intros l Hl.
  apply Hf. exact (effective_savings_kinds b current l Hl).
Qed.

(** The filters of a run with a baseline that has both top-level keys. *)
Ltac run_filter :=
  rewrite ?flat_map_app;
  rewrite savings_filtered by (intros l; destruct l; now intros);
  rewrite (flat_map_map_nil _ Row) by reflexivity;
  unfold banner; cbn [flat_map app]; rewrite ?app_nil_r.

Lemma total_of_map {A B} (f : B -> Z) (g : A -> B) (l : list A) :
  total_of f (map g l) = total_of (fun x => f (g x)) l.
Proof.
  unfold total_of. induction l as [|x l IH]; cbn [map fold_right];
    [reflexivity|]. now rewrite IH.
Qed.

Lemma prompt_table_totals (prompts : prompt_report) :
  prompt_totals_of (fst (prompt_table prompts))
  = match files prompts with
    | [] => []
    | _ :: _ => [(total_lines prompts, total_tokens prompts)]
    end.
Proof.
  rewrite prompt_table_value. cbn [fst]. unfold prompt_totals_of.
  destruct (files prompts) as [|f fs]; [reflexivity|].
  cbn [flat_map app]. rewrite flat_map_app.
  rewrite (flat_map_map_nil _ _ (f :: fs)) by reflexivity.
  reflexivity.
Qed.

(** X20: the prompt block of compare-context.py.  Its rows are the prompt
    files found, in order; it is left out altogether when none is found; and
    when it is there, its TOTAL line carries the sums of the lines and of
    the tokens of its rows. *)
Theorem prompt_block_totals (w : world) (b : baseline) (ts : string)
    (cmds : dict (dict Z)) (prompts : prompt_report) :
  open_json_load w baseline_path = Ok (Baseline b) ->
  base_timestamp b = Some ts ->
  base_commands b = Some cmds ->
  measure_prompt_files w = Ok prompts ->
  let out := fst (main w) in
  prompt_rows_of out
  = map (fun f => (file_path f, file_lines f, file_tokens f))
        (files prompts) /\
  prompt_totals_of out
  = match prompt_rows_of out with
    | [] => []
    | _ :: _ => [(total_of (fun r => snd (fst r)) (prompt_rows_of out),
                  total_of snd (prompt_rows_of out))]
    end /\
  (In (Text "EXTRACTED PROMPT FILES (load into sub-agent context)") out <->
   files prompts <> []).
Proof.
  intros Hdoc Hts Hc Hp out. subst out.
  rewrite (main_present w b ts cmds prompts Hdoc Hts Hc Hp). cbn [fst].
  assert (Hsums : total_lines prompts
                  = total_of file_lines (files prompts) /\
                  total_tokens prompts
                  = total_of file_tokens (files prompts)).
  { rewrite measure_prompt_files_steps in Hp.
    pose proof (compare_dir_listable w _ _ _ Hp) as Hls.
    rewrite (compare_dir_loop w _ Hls) in Hp. apply Ok_inj in Hp.
    subst prompts. cbn [total_tokens total_lines files app]. now split. }
  destruct Hsums as [Hlns Htoks].
  assert (Hrows : prompt_rows_of
                    (banner w ts ++
                     map Row (table_rows cmds (current_of w)) ++
                     [Rule "-";
                      Total
                        (total_of baseline_tokens
                           (table_rows cmds (current_of w)))
                        (total_of current_tokens
                           (table_rows cmds (current_of w)))
                        (total_of current_tokens
                           (table_rows cmds (current_of w))
                         - total_of baseline_tokens
                             (table_rows cmds (current_of w)))
                        (percent
                           (total_of current_tokens
                              (table_rows cmds (current_of w))
                            - total_of baseline_tokens
                                (table_rows cmds (current_of w)))
                           (total_of baseline_tokens
                              (table_rows cmds (current_of w))));
                      Blank] ++
                     fst (prompt_table prompts) ++
                     fst (effective_savings b (current_of w)))
                  = map (fun f => (file_path f, file_lines f, file_tokens f))
                        (files prompts)).
  { unfold prompt_rows_of. run_filter. rewrite prompt_table_value. cbn [fst].
    destruct (files prompts) as [|f fs]; [reflexivity|].
    cbn [flat_map app]. rewrite flat_map_app.
    rewrite (flat_map_map_one _ _
               (fun f => (file_path f, file_lines f, file_tokens f)))
      by reflexivity.
    cbn [flat_map app]. now rewrite app_nil_r. }
  rewrite Hrows. split; [reflexivity|]. split.
  - unfold prompt_totals_of. run_filter. fold (prompt_totals_of).
    change (flat_map _ (fst (prompt_table prompts)))
      with (prompt_totals_of (fst (prompt_table prompts))).
    rewrite prompt_table_totals, Hlns, Htoks, !total_of_map.
    destruct (files prompts); reflexivity.
  - rewrite prompt_table_value. cbn [fst].
    destruct (files prompts) as [|f fs].
    + split; [|intros H; now destruct H]. intros Hin. exfalso.
      repeat (apply in_app_or in Hin; destruct Hin as [Hin|Hin]).
      * unfold banner in Hin. cbn [In] in Hin.
        repeat (destruct Hin as [Hin|Hin]; [discriminate Hin|]).
        destruct Hin.
      * apply in_map_iff in Hin. destruct Hin as [r [Hr _]]. discriminate Hr.
      * cbn [In] in Hin.
        repeat (destruct Hin as [Hin|Hin]; [discriminate Hin|]).
        destruct Hin.
      * destruct Hin.
      * unfold effective_savings in Hin.
        destruct (base_commands b) as [cmds'|]; [|destruct Hin].
        cbn [field lift iobind fst snd app] in Hin.
        destruct (getitem cmds' "execute.md") as [entry|]; [|destruct Hin].
        cbn [field lift iobind fst snd app] in Hin.
        destruct (getitem entry "tokens") as [exec_baseline|];
          [|destruct Hin].
        cbn [field lift iobind fst snd app] in Hin.
        destruct (getitem (current_of w) "execute.md") as [centry|];
          [|destruct Hin].
        cbn [field lift iobind fst snd app print] in Hin.
        destruct (truediv _ _);
          cbn [field lift iobind fst snd app print In] in Hin;
          repeat (destruct Hin as [Hin|Hin]; [discriminate Hin|]);
          destruct Hin.
    + split; [discriminate|]. intros _.
      do 3 (apply in_or_app; right). apply in_or_app. left. now left.
Qed.

Lemma prompt_block_totals_witness :
  prompt_rows_of (fst (main Sample.env))
  = [(".tiki/prompts/execute/phase.md", 2, 6)] /\
  prompt_totals_of (fst (main Sample.env)) = [(2, 6)] /\
  In (Text "EXTRACTED PROMPT FILES (load into sub-agent context)")
     (fst (main Sample.env)).
Proof.
  destruct (prompt_block_totals Sample.env Sample.saved
              "2025-01-15T09:30:00.000000"
              [("execute.md", [("tokens", 40); ("lines", 5)]);
               ("plan-issue.md", [("tokens", 6); ("lines", 1)])]
              {| total_tokens := 6;
                 total_lines := 2;
                 files := [{| file_path := ".tiki/prompts/execute/phase.md";
                              file_tokens := 6;
                              file_lines := 2 |}] |}
              eq_refl eq_refl eq_refl)
    as [H1 [H2 H3]]; [vm_compute; reflexivity|].
  split; [exact H1|]. split.
  - rewrite H2, H1. reflexivity.
  - apply H3. discriminate.
Defined.

(** X21: a run with a complete baseline prints exactly one total line; its
    change is total current minus total baseline, and its percentage follows
    the guarded rule of the rows: [change / baseline * 100] on the totals
    when the baseline total is positive, the integer 0 otherwise. *)
Theorem total_line_change (w : world) (b : baseline) (ts : string)
    (cmds : dict (dict Z)) :
  open_json_load w baseline_path = Ok (Baseline b) ->
  base_timestamp b = Some ts ->
  base_commands b = Some cmds ->
  (forall d, In d prompt_dirs -> path_exists w d = true ->
             exists names, listdir w d = Ok names) ->
  exists total_baseline total_current,
    total_lines_of (fst (main w))
    = [(total_baseline, total_current, total_current - total_baseline,
        if total_baseline >? 0
        then Float (fmul_int
                      (fdiv_int (total_current - total_baseline)
                                total_baseline) 100)
        else Int 0)].
Proof.
  intros Hdoc Hts Hc Hls.
  destruct (listable_measure_prompt_files w Hls) as [prompts Hp].
  rewrite (main_present w b ts cmds prompts Hdoc Hts Hc Hp). cbn [fst].
  eexists. eexists. unfold total_lines_of. run_filter.
  rewrite prompt_table_value. cbn [fst].
  destruct (files prompts) as [|f fs]; [reflexivity|].
  cbn [flat_map app]. rewrite flat_map_app.
  rewrite (flat_map_map_nil _ _ (f :: fs)) by reflexivity.
  reflexivity.
Qed.

Lemma total_line_change_witness :
  total_lines_of (fst (main Sample.env))
  = [(46, 29, -17, Float (fmul_int (fdiv_int (-17) 46) 100))] /\
  exists total_baseline total_current,
    total_lines_of (fst (main Sample.env))
    = [(total_baseline, total_current, total_current - total_baseline,
        if total_baseline >? 0
        then Float (fmul_int
                      (fdiv_int (total_current - total_baseline)
                                total_baseline) 100)
        else Int 0)].
Proof.
  split; [vm_compute; reflexivity|].
  apply (total_line_change Sample.env Sample.saved
           "2025-01-15T09:30:00.000000" _ eq_refl eq_refl eq_refl).
  intros d Hd Hex. cbn [Sample.env path_exists listdir] in *.
  destruct (dict_get Sample.directories d) as [names|];
    [now exists names|discriminate].
Defined.
